(** * GPUMD / NEP training: the fitness-evaluation engine (fitness.cu)

    A shallow embedding of [Fitness::Fitness], [Fitness::compute],
    [Fitness::predict_energy_or_stress], [Fitness::report_error] and
    [Fitness::update_energy_force_virial], and the properties of the batch
    partition, the population dispatch, the fitness layout, the warm-up
    generation, the checkpoint cadence, the bias correction and the dump
    files.

    Conventions of the embedding.
    - [int] values are integers of [Z]; [/] and [%] on [int] are the
      truncating [Z.quot] and [Z.rem], and a division by zero is an error.
      Signed overflow is undefined in C++ and is not given a meaning here:
      the embedding is exact on executions whose [int] values stay in range.
      [size_t] arithmetic wraps modulo 2^64 and is written out.
    - [float] is IEEE-754 binary32, taken from the Standard Library's
      [SpecFloat] at precision 24 and maximal exponent 128.
    - a [std::vector] or a raw buffer is a list; an access outside of it is
      an error ([None]); a pointer into a buffer is the suffix it points at.
      A vector created or resized with a negative [int] size throws
      [std::length_error], an error too.  A file name built with [strcpy]
      and [strcat] in a [char[200]] buffer is an error when the name and its
      terminating zero do not fit.
    - the objects the methods reach through references and pointers (the
      [Fitness] object itself, [para], the [fitness] and [elite] buffers)
      and the output written so far form the state [Mem] of a state-and-error
      monad [M].
    - the output is a trace of events; a [FILE*] is named by the path it was
      opened with, and a [printf] event keeps the format of the source and
      the values of its arguments.
    - [cudaGetDeviceCount] gives the argument [deviceCount]; [cudaSetDevice]
      and the [CHECK] macro, which ends the program on a CUDA error, have no
      counterpart, and neither has the end of the program in [my_fopen] when
      a file cannot be opened: a run of the embedding is a run without CUDA
      errors in which the files can be opened. *)

From Stdlib Require Import ZArith Lia String SpecFloat.
From stdpp Require Import base option list strings numbers.

Open Scope Z_scope.

(** ** Machine numbers *)

Module Mach.

Definition size_t (z : Z) : Z := z mod 2 ^ 64.

(** Conversion of an integer value to [int] (two's complement). *)
Definition to_int (z : Z) : Z := (z + 2 ^ 31) mod 2 ^ 32 - 2 ^ 31.

Definition INT_MAX : Z := 2 ^ 31 - 1.

(** [a / b] and [a % b] on [int]. *)
Definition int_div (a b : Z) : option Z :=
  if b =? 0 then None else Some (a ÷ b).

Definition int_rem (a b : Z) : option Z :=
  if b =? 0 then None else Some (Z.rem a b).

(** [a / b] on [size_t]. *)
Definition size_div (a b : Z) : option Z :=
  if size_t b =? 0 then None else Some (size_t a / size_t b).

End Mach.

(** ** binary32 *)

Module F32.

Definition float : Type := spec_float.

Definition prec : Z := 24.
Definition emax : Z := 128.

Definition add : float → float → float := SFadd prec emax.
Definition sub : float → float → float := SFsub prec emax.
Definition mul : float → float → float := SFmul prec emax.
Definition div : float → float → float := SFdiv prec emax.
Definition sqrt : float → float := SFsqrt prec emax.

(** Conversion of an [int] to [float] (round to nearest, ties to even). *)
Definition of_int (z : Z) : float := binary_normalize prec emax z 0 false.

Definition zero : float := S754_zero false.
Definition one : float := Eval cbv in of_int 1.

(** [x == y] and [x <= y] of C. *)
Definition eqb : float → float → bool := SFeqb.

Definition is_finite (x : float) : bool :=
  match x with
  | S754_zero _ | S754_finite _ _ _ => true
  | S754_infinity _ | S754_nan => false
  end.


End F32.

Abbreviation float := F32.float.

(** ** Data *)

(** [Structure] (structure.cuh is not part of the sources at hand): the one
    member fitness.cu reads. *)
Record Structure := { num_atom : Z }.

(** [Dataset] (dataset.cuh is not part of the sources at hand): the members
    fitness.cu reads or writes.  [energy], [virial], [force] and
    [q_scaler_gpu] are the device vectors, the [_cpu] members the host
    vectors. *)
Record Dataset := {
  N : Z;
  Nc : Z;
  ds_max_NN_radial : Z;
  ds_max_NN_angular : Z;
  Na_cpu : list Z;
  Na_sum_cpu : list Z;
  structures : list Structure;
  energy : list float;
  virial : list float;
  force : list float;
  energy_cpu : list float;
  virial_cpu : list float;
  force_cpu : list float;
  energy_ref_cpu : list float;
  virial_ref_cpu : list float;
  force_ref_cpu : list float;
  q_scaler_gpu : list float
}.

(** [Parameters] (parameters.cuh is not part of the sources at hand): the
    members fitness.cu reads or writes. *)
Record Parameters := {
  batch_size : Z;
  population_size : Z;
  number_of_variables : Z;
  number_of_variables_ann : Z;
  lambda_e : float;
  lambda_f : float;
  lambda_v : float;
  version : Z;
  enable_zbl : bool;
  num_types : Z;
  elements : list string;
  zbl_rc_inner : float;
  zbl_rc_outer : float;
  rc_radial : float;
  rc_angular : float;
  n_max_radial : Z;
  n_max_angular : Z;
  basis_size_radial : Z;
  basis_size_angular : Z;
  L_max : Z;
  L_max_4body : Z;
  L_max_5body : Z;
  num_neurons1 : Z;
  q_scaler_cpu : list float
}.

(** The [NEP3] object (nep3.cuh is not part of the sources at hand) is
    represented by the arguments [Fitness::Fitness] constructs it with. *)
Record NEP3 := {
  nep_input_dir : string;
  nep_para : Parameters;
  nep_N : Z;
  nep_N_times_max_NN_radial : Z;
  nep_N_times_max_NN_angular : Z;
  nep_version : Z;
  nep_deviceCount : Z
}.

(** The members of [Fitness]; [potential] is the [unique_ptr], empty until
    [reset]; [fid_loss_out] is the path of the open loss file. *)
Record Fitness := {
  num_batches : Z;
  train_set : list (list Dataset);
  test_set : list Dataset;
  potential : option NEP3;
  max_NN_radial : Z;
  max_NN_angular : Z;
  fid_loss_out : string
}.

Inductive arg :=
| AInt (z : Z)
| AFloat (x : float)
| AStr (s : string).

Inductive event :=
| Fopen (path mode : string)
| Fprintf (path fmt : string) (args : list arg)
| Fclose (path : string)
| Fflush (path : string)
| Printf (fmt : string) (args : list arg)
| PrintLine1
| PrintLine2.

Record Mem := {
  self : Fitness;
  para : Parameters;
  fitness : list float;
  elite : list float;
  out : list event
}.

(** ** The collaborators

    The code of this repository that fitness.cu calls and that is not part
    of the sources at hand: the potential ([Potential::find_force],
    virtual), and the methods of [Dataset].  [find_force] receives the
    potential, the parameters, the pointer to the first parameter vector
    (the suffix of the buffer it points into), the vector of datasets, the
    warm-up flag and the number of devices to use, and leaves the new
    contents of the vector of datasets.  The [get_rmse] methods read a
    dataset; [get_rmse_energy] also gives the value it leaves in its
    reference argument [energy_shift_per_structure]. *)
Class Collaborators := {
  find_force :
    NEP3 → Parameters → list float → list Dataset → bool → Z → list Dataset;
  construct :
    string → Parameters → list Structure → Z → Z → Z → Dataset;
  get_rmse_energy : Dataset → bool → bool → Z → float * float;
  get_rmse_force : Dataset → Parameters → bool → Z → float;
  get_rmse_virial : Dataset → bool → Z → float
}.

(** ** The monad *)

Definition M (A : Type) : Type := Mem → option (A * Mem).

Definition ret {A} (a : A) : M A := λ s, Some (a, s).

Definition bind {A B} (m : M A) (k : A → M B) : M B :=
  λ s, match m s with
       | Some (a, s') => k a s'
       | None => None
       end.

Definition lift {A} (o : option A) : M A :=
  λ s, match o with Some a => Some (a, s) | None => None end.

Global Instance M_ret : MRet M := @ret.
Global Instance M_bind : MBind M := λ A B k m, bind m k.

(** [for (x : l) body]. *)
Fixpoint for_each {A} (l : list A) (body : A → M unit) : M unit :=
  match l with
  | [] => ret tt
  | x :: l' => body x;; for_each l' body
  end.

(** [for (int n = lo; n < hi; ++n) body]. *)
Definition for_int (lo hi : Z) (body : Z → M unit) : M unit :=
  for_each (seqZ lo (hi - lo)) body.

(** [v[i]] for an [int] index. *)
Definition at_ {A} (v : list A) (i : Z) : option A :=
  if i <? 0 then None else v !! Z.to_nat i.

(** [v[i] = x]. *)
Definition set_at {A} (v : list A) (i : Z) (x : A) : option (list A) :=
  if (0 <=? i) && (i <? Z.of_nat (length v))
  then Some (<[Z.to_nat i := x]> v) else None.

(** [p + i] for a pointer [p] into a buffer and [i >= 0]. *)
Definition offset {A} (p : list A) (i : Z) : list A := drop (Z.to_nat i) p.

(** [src.copy_to_host(dst)]: the whole device vector is copied to the
    front of the host buffer. *)
Definition copy_to_host (src dst : list float) : option (list float) :=
  if (length src <=? length dst)%nat
  then Some (src ++ drop (length src) dst) else None.

(** [std::vector<T> v(n, x)] and [v.resize(n)] on an empty vector, for an
    [int] [n]: a negative [n] is converted to a [size_t] above [max_size()]
    and the call throws [std::length_error]. *)
Definition new_vector {A} (n : Z) (x : A) : option (list A) :=
  if n <? 0 then None else Some (replicate (Z.to_nat n) x).

(** [char file[200]; strcpy(file, input_dir); strcat(file, name);]: the
    characters of both strings and the terminating zero are written to the
    200 bytes of [file]. *)
Definition file_name (input_dir name : string) : option string :=
  if (String.length input_dir + String.length name <? 200)%nat
  then Some (input_dir +:+ name) else None.

Definition emit (e : event) : M unit :=
  λ s, Some (tt, {| self := self s; para := para s; fitness := fitness s;
                    elite := elite s; out := out s ++ [e] |}).

Definition set_self (f : Fitness) : M unit :=
  λ s, Some (tt, {| self := f; para := para s; fitness := fitness s;
                    elite := elite s; out := out s |}).

Definition set_para (p : Parameters) : M unit :=
  λ s, Some (tt, {| self := self s; para := p; fitness := fitness s;
                    elite := elite s; out := out s |}).

Definition set_fitness (v : list float) : M unit :=
  λ s, Some (tt, {| self := self s; para := para s; fitness := v;
                    elite := elite s; out := out s |}).

Definition set_elite (v : list float) : M unit :=
  λ s, Some (tt, {| self := self s; para := para s; fitness := fitness s;
                    elite := v; out := out s |}).

Definition get_self : M Fitness := λ s, Some (self s, s).
Definition get_para : M Parameters := λ s, Some (para s, s).
Definition get_fitness : M (list float) := λ s, Some (fitness s, s).
Definition get_elite : M (list float) := λ s, Some (elite s, s).

(** ** Updates of single members *)

Definition with_train_set (f : Fitness) (ts : list (list Dataset)) : Fitness :=
  {| num_batches := num_batches f; train_set := ts; test_set := test_set f;
     potential := potential f; max_NN_radial := max_NN_radial f;
     max_NN_angular := max_NN_angular f; fid_loss_out := fid_loss_out f |}.

Definition with_test_set (f : Fitness) (ts : list Dataset) : Fitness :=
  {| num_batches := num_batches f; train_set := train_set f; test_set := ts;
     potential := potential f; max_NN_radial := max_NN_radial f;
     max_NN_angular := max_NN_angular f; fid_loss_out := fid_loss_out f |}.

Definition with_num_batches (f : Fitness) (nb : Z) : Fitness :=
  {| num_batches := nb; train_set := train_set f; test_set := test_set f;
     potential := potential f; max_NN_radial := max_NN_radial f;
     max_NN_angular := max_NN_angular f; fid_loss_out := fid_loss_out f |}.

Definition with_potential (f : Fitness) (r a : Z) (p : NEP3) : Fitness :=
  {| num_batches := num_batches f; train_set := train_set f;
     test_set := test_set f; potential := Some p; max_NN_radial := r;
     max_NN_angular := a; fid_loss_out := fid_loss_out f |}.

Definition with_fid_loss_out (f : Fitness) (path : string) : Fitness :=
  {| num_batches := num_batches f; train_set := train_set f;
     test_set := test_set f; potential := potential f;
     max_NN_radial := max_NN_radial f; max_NN_angular := max_NN_angular f;
     fid_loss_out := path |}.

Definition with_host (d : Dataset) (e v f : list float) : Dataset :=
  {| N := N d; Nc := Nc d; ds_max_NN_radial := ds_max_NN_radial d;
     ds_max_NN_angular := ds_max_NN_angular d; Na_cpu := Na_cpu d;
     Na_sum_cpu := Na_sum_cpu d; structures := structures d;
     energy := energy d; virial := virial d; force := force d;
     energy_cpu := e; virial_cpu := v; force_cpu := f;
     energy_ref_cpu := energy_ref_cpu d; virial_ref_cpu := virial_ref_cpu d;
     force_ref_cpu := force_ref_cpu d; q_scaler_gpu := q_scaler_gpu d |}.

Definition with_batch_size_q (p : Parameters) (b : Z) (q : list float)
  : Parameters :=
  {| batch_size := b; population_size := population_size p;
     number_of_variables := number_of_variables p;
     number_of_variables_ann := number_of_variables_ann p;
     lambda_e := lambda_e p; lambda_f := lambda_f p; lambda_v := lambda_v p;
     version := version p; enable_zbl := enable_zbl p;
     num_types := num_types p; elements := elements p;
     zbl_rc_inner := zbl_rc_inner p; zbl_rc_outer := zbl_rc_outer p;
     rc_radial := rc_radial p; rc_angular := rc_angular p;
     n_max_radial := n_max_radial p; n_max_angular := n_max_angular p;
     basis_size_radial := basis_size_radial p;
     basis_size_angular := basis_size_angular p;
     L_max := L_max p; L_max_4body := L_max_4body p;
     L_max_5body := L_max_5body p; num_neurons1 := num_neurons1 p;
     q_scaler_cpu := q |}.

Definition with_batch_size (p : Parameters) (b : Z) : Parameters :=
  with_batch_size_q p b (q_scaler_cpu p).

Definition with_q_scaler_cpu (p : Parameters) (q : list float) : Parameters :=
  with_batch_size_q p (batch_size p) q.

(** A default-constructed [Dataset], as [resize] leaves it. *)
Definition default_Dataset : Dataset :=
  {| N := 0; Nc := 0; ds_max_NN_radial := 0; ds_max_NN_angular := 0;
     Na_cpu := []; Na_sum_cpu := []; structures := [];
     energy := []; virial := []; force := [];
     energy_cpu := []; virial_cpu := []; force_cpu := [];
     energy_ref_cpu := []; virial_ref_cpu := []; force_ref_cpu := [];
     q_scaler_gpu := [] |}.

Global Instance Dataset_inhabited : Inhabited Dataset :=
  populate default_Dataset.

(** ** References into the [Fitness] object *)

(** [train_set[batch]] or [test_set]. *)
Inductive vec_ref :=
| TrainSet (batch : Z)
| TestSet.

Definition load_vec (r : vec_ref) : M (list Dataset) :=
  f ← get_self;
  match r with
  | TrainSet b => lift (at_ (train_set f) b)
  | TestSet => ret (test_set f)
  end.

Definition store_vec (r : vec_ref) (v : list Dataset) : M unit :=
  f ← get_self;
  match r with
  | TrainSet b =>
      ts ← lift (set_at (train_set f) b v);
      set_self (with_train_set f ts)
  | TestSet => set_self (with_test_set f v)
  end.

(** [train_set[batch][device]] or [test_set[device]]. *)
Definition load_ds (r : vec_ref) (device : Z) : M Dataset :=
  v ← load_vec r; lift (at_ v device).

Definition store_ds (r : vec_ref) (device : Z) (d : Dataset) : M unit :=
  v ← load_vec r; v' ← lift (set_at v device d); store_vec r v'.

(** [fitness[i] = x] and [elite[i] += x]. *)
Definition store_fitness (i : Z) (x : float) : M unit :=
  v ← get_fitness; v' ← lift (set_at v i x); set_fitness v'.

Definition add_elite (i : Z) (x : float) : M unit :=
  v ← get_elite;
  old ← lift (at_ v i);
  v' ← lift (set_at v i (F32.add old x));
  set_elite v'.

Section Program.

Context `{Collaborators}.

(** [potential->find_force(para, parameters, r, flag, deviceCount)]. *)
Definition potential_find_force
    (parameters : list float) (r : vec_ref) (flag : bool) (deviceCount : Z)
  : M unit :=
  f ← get_self;
  pot ← lift (potential f);
  p ← get_para;
  ds ← load_vec r;
  store_vec r (find_force pot p parameters ds flag deviceCount).

(** *** [Fitness::compute] *)

Definition batch_id_of (generation num_batches : Z) : option Z :=
  Mach.int_rem generation num_batches.

Definition min_population_iter (population_size deviceCount : Z)
  : option Z :=
  q ← Mach.int_div (population_size - 1) deviceCount; Some (q + 1).

Definition device_in_this_iter (population_size deviceCount n : Z) : Z :=
  Z.min deviceCount (population_size - deviceCount * n).

(** [number_of_variables] values [1.0f]: the contents of [dummy_solution]
    once it is constructed, for a [number_of_variables] that is not
    negative. *)
Definition all_ones (p : Parameters) : list float :=
  replicate (Z.to_nat (number_of_variables p)) F32.one.

(** The body of the loop over [m]. *)
Definition score (deviceCount batch_id n m : Z) : M unit :=
  p ← get_para;
  d ← load_ds (TrainSet batch_id) m;
  store_fitness (deviceCount * n + m + 0 * population_size p)
    (F32.mul (lambda_e p) (get_rmse_energy d true true m).1);;
  d ← load_ds (TrainSet batch_id) m;
  store_fitness (deviceCount * n + m + 1 * population_size p)
    (F32.mul (lambda_f p) (get_rmse_force d p true m));;
  d ← load_ds (TrainSet batch_id) m;
  store_fitness (deviceCount * n + m + 2 * population_size p)
    (F32.mul (lambda_v p) (get_rmse_virial d true m)).

(** The body of the loop over [n]. *)
Definition chunk (deviceCount batch_id : Z) (population : list float) (n : Z)
  : M unit :=
  p ← get_para;
  let individual :=
    offset population (deviceCount * n * number_of_variables p) in
  let k := device_in_this_iter (population_size p) deviceCount n in
  potential_find_force individual (TrainSet batch_id) false k;;
  for_int 0 k (score deviceCount batch_id n).

(** [deviceCount] is what [cudaGetDeviceCount] gives. *)
Definition compute (deviceCount generation : Z) (population : list float)
  : M unit :=
  p ← get_para;
  iters ← lift (min_population_iter (population_size p) deviceCount);
  f ← get_self;
  if generation =? 0 then
    dummy_solution ← lift (new_vector (number_of_variables p) F32.one);
    for_int 0 (num_batches f) (λ n,
      potential_find_force dummy_solution (TrainSet n) true deviceCount;;
      potential_find_force dummy_solution TestSet true 1)
  else
    batch_id ← lift (batch_id_of generation (num_batches f));
    for_int 0 iters (chunk deviceCount batch_id population).

(** *** [Fitness::predict_energy_or_stress] *)

(** The loop over [m]: [data_nc] after adding [data[offset + m]] for
    [m = 0 .. na - 1], starting from [0.0f]. *)
Definition sum_atoms (data : list float) (off na : Z) : option float :=
  foldl (λ acc m, a ← acc; x ← at_ data (off + m); Some (F32.add a x))
        (Some F32.zero) (seqZ 0 na).

Definition predict_energy_or_stress
    (fid : string) (data ref : list float) (dataset : Dataset) : M unit :=
  for_int 0 (Nc dataset) (λ nc,
    off ← lift (at_ (Na_sum_cpu dataset) nc);
    na ← lift (at_ (Na_cpu dataset) nc);
    data_nc ← lift (sum_atoms data off na);
    r ← lift (at_ ref nc);
    emit (Fprintf fid "%g %g\n"
            [AFloat (F32.div data_nc (F32.of_int na)); AFloat r])).

(** *** [Fitness::update_energy_force_virial] *)

Definition force_line (fid : string) (d : Dataset) (n : Z) : M unit :=
  fx ← lift (at_ (force_cpu d) n);
  fy ← lift (at_ (force_cpu d) (n + N d));
  fz ← lift (at_ (force_cpu d) (n + N d * 2));
  rx ← lift (at_ (force_ref_cpu d) n);
  ry ← lift (at_ (force_ref_cpu d) (n + N d));
  rz ← lift (at_ (force_ref_cpu d) (n + N d * 2));
  emit (Fprintf fid "%g %g %g %g %g %g\n"
          [AFloat fx; AFloat fy; AFloat fz; AFloat rx; AFloat ry; AFloat rz]).

Definition update_energy_force_virial
    (fid_energy fid_force fid_virial : string) (r : vec_ref) (device : Z)
  : M unit :=
  d0 ← load_ds r device;
  e ← lift (copy_to_host (energy d0) (energy_cpu d0));
  v ← lift (copy_to_host (virial d0) (virial_cpu d0));
  f ← lift (copy_to_host (force d0) (force_cpu d0));
  let dataset := with_host d0 e v f in
  store_ds r device dataset;;
  for_int 0 (Nc dataset) (λ nc,
    off ← lift (at_ (Na_sum_cpu dataset) nc);
    st ← lift (at_ (structures dataset) nc);
    for_int 0 (num_atom st) (λ m, force_line fid_force dataset (off + m)));;
  predict_energy_or_stress fid_energy
    (energy_cpu dataset) (energy_ref_cpu dataset) dataset;;
  predict_energy_or_stress fid_virial
    (virial_cpu dataset) (virial_ref_cpu dataset) dataset;;
  predict_energy_or_stress fid_virial
    (offset (virial_cpu dataset) (N dataset))
    (offset (virial_ref_cpu dataset) (Nc dataset)) dataset;;
  predict_energy_or_stress fid_virial
    (offset (virial_cpu dataset) (N dataset * 2))
    (offset (virial_ref_cpu dataset) (Nc dataset * 2)) dataset;;
  predict_energy_or_stress fid_virial
    (offset (virial_cpu dataset) (N dataset * 3))
    (offset (virial_ref_cpu dataset) (Nc dataset * 3)) dataset;;
  predict_energy_or_stress fid_virial
    (offset (virial_cpu dataset) (N dataset * 4))
    (offset (virial_ref_cpu dataset) (Nc dataset * 4)) dataset;;
  predict_energy_or_stress fid_virial
    (offset (virial_cpu dataset) (N dataset * 5))
    (offset (virial_ref_cpu dataset) (Nc dataset * 5)) dataset.

(** *** [Fitness::report_error] *)

Definition nep_header (fid : string) (p : Parameters) : M unit :=
  if version p =? 2 then
    if enable_zbl p
    then emit (Fprintf fid "nep_zbl %d " [AInt (num_types p)])
    else emit (Fprintf fid "nep %d " [AInt (num_types p)])
  else if version p =? 3 then
    if enable_zbl p
    then emit (Fprintf fid "nep3_zbl %d " [AInt (num_types p)])
    else emit (Fprintf fid "nep3 %d " [AInt (num_types p)])
  else ret tt.

Definition nep_basis (fid : string) (p : Parameters) (f : Fitness) : M unit :=
  if version p =? 3 then
    emit (Fprintf fid "cutoff %g %g %d %d\n"
            [AFloat (rc_radial p); AFloat (rc_angular p);
             AInt (max_NN_radial f); AInt (max_NN_angular f)]);;
    emit (Fprintf fid "n_max %d %d\n"
            [AInt (n_max_radial p); AInt (n_max_angular p)]);;
    emit (Fprintf fid "basis_size %d %d\n"
            [AInt (basis_size_radial p); AInt (basis_size_angular p)]);;
    emit (Fprintf fid "l_max %d %d %d\n"
            [AInt (L_max p); AInt (L_max_4body p); AInt (L_max_5body p)])
  else
    emit (Fprintf fid "cutoff %g %g\n"
            [AFloat (rc_radial p); AFloat (rc_angular p)]);;
    emit (Fprintf fid "n_max %d %d\n"
            [AInt (n_max_radial p); AInt (n_max_angular p)]);;
    emit (Fprintf fid "l_max %d\n" [AInt (L_max p)]).

(** The part of the body that writes nep.txt. *)
Definition write_nep (input_dir : string) : M unit :=
  fid_nep ← lift (file_name input_dir "/nep.txt");
  p ← get_para;
  f ← get_self;
  emit (Fopen fid_nep "w");;
  nep_header fid_nep p;;
  for_int 0 (num_types p) (λ n,
    e ← lift (at_ (elements p) n);
    emit (Fprintf fid_nep "%s " [AStr e]));;
  emit (Fprintf fid_nep "\n" []);;
  (if enable_zbl p
   then emit (Fprintf fid_nep "zbl %g %g\n"
                [AFloat (zbl_rc_inner p); AFloat (zbl_rc_outer p)])
   else ret tt);;
  nep_basis fid_nep p f;;
  emit (Fprintf fid_nep "ANN %d %d\n" [AInt (num_neurons1 p); AInt 0]);;
  for_int 0 (number_of_variables p) (λ m,
    v ← get_elite;
    x ← lift (at_ v m);
    emit (Fprintf fid_nep "%15.7e\n" [AFloat x]));;
  d00 ← load_ds (TrainSet 0) 0;
  q ← lift (copy_to_host (q_scaler_gpu d00) (q_scaler_cpu p));
  set_para (with_q_scaler_cpu p q);;
  for_int 0 (Z.of_nat (length q)) (λ d,
    x ← lift (at_ q d);
    emit (Fprintf fid_nep "%15.7e\n" [AFloat x]));;
  emit (Fclose fid_nep).

Definition loss_format : string :=
  "%-8d%-11.5f%-11.5f%-11.5f%-13.5f%-13.5f%-13.5f%-13.5f%-13.5f%-13.5f\n".

(** The dump of the whole training set, every 1000 generations. *)
Definition dump_train (input_dir : string) : M unit :=
  fid_force ← lift (file_name input_dir "/force_train.out");
  emit (Fopen fid_force "w");;
  fid_energy ← lift (file_name input_dir "/energy_train.out");
  emit (Fopen fid_energy "w");;
  fid_virial ← lift (file_name input_dir "/virial_train.out");
  emit (Fopen fid_virial "w");;
  f ← get_self;
  for_int 0 (num_batches f) (λ batch_id,
    v ← get_elite;
    potential_find_force v (TrainSet batch_id) false 1;;
    update_energy_force_virial fid_energy fid_force fid_virial
      (TrainSet 0) batch_id);;
  emit (Fclose fid_energy);;
  emit (Fclose fid_force);;
  emit (Fclose fid_virial).

Definition report_error
    (input_dir : string) (generation : Z)
    (loss_total loss_L1 loss_L2 : float) : M unit :=
  if 0 =? Z.rem (generation + 1) 100 then
    f ← get_self;
    p ← get_para;
    batch_id ← lift (batch_id_of generation (num_batches f));
    v ← get_elite;
    potential_find_force v (TrainSet batch_id) false 1;;
    d ← load_ds (TrainSet batch_id) 0;
    let '(rmse_energy_train, energy_shift_per_structure) :=
      get_rmse_energy d false true 0 in
    let rmse_force_train := get_rmse_force d p false 0 in
    let rmse_virial_train := get_rmse_virial d false 0 in
    add_elite (number_of_variables_ann p - 1) energy_shift_per_structure;;
    v ← get_elite;
    potential_find_force v TestSet false 1;;
    t ← load_ds TestSet 0;
    let rmse_energy_test := (get_rmse_energy t false false 0).1 in
    let rmse_force_test := get_rmse_force t p false 0 in
    let rmse_virial_test := get_rmse_virial t false 0 in
    write_nep input_dir;;
    let line :=
      [AInt (generation + 1); AFloat loss_total; AFloat loss_L1;
       AFloat loss_L2; AFloat rmse_energy_train; AFloat rmse_force_train;
       AFloat rmse_virial_train; AFloat rmse_energy_test;
       AFloat rmse_force_test; AFloat rmse_virial_test] in
    emit (Printf loss_format line);;
    emit (Fflush "stdout");;
    emit (Fprintf (fid_loss_out f) loss_format line);;
    emit (Fflush (fid_loss_out f));;
    fid_force ← lift (file_name input_dir "/force_test.out");
    emit (Fopen fid_force "w");;
    fid_energy ← lift (file_name input_dir "/energy_test.out");
    emit (Fopen fid_energy "w");;
    fid_virial ← lift (file_name input_dir "/virial_test.out");
    emit (Fopen fid_virial "w");;
    update_energy_force_virial fid_energy fid_force fid_virial TestSet 0;;
    emit (Fclose fid_energy);;
    emit (Fclose fid_force);;
    emit (Fclose fid_virial);;
    if 0 =? Z.rem (generation + 1) 1000
    then dump_train input_dir
    else ret tt
  else ret tt.

(** *** [Fitness::Fitness] *)

(** [num_batches = (structures_train.size() - 1) / para.batch_size + 1]
    and [para.batch_size = (structures_train.size() - 1) / num_batches + 1]:
    [size_t] arithmetic, the result converted to [int]. *)
Definition ceil_size (size d : Z) : option Z :=
  q ← Mach.size_div (Mach.size_t (size - 1)) d;
  Some (Mach.to_int (Mach.size_t (q + 1))).

Definition batch_n1 (batch_size batch_id : Z) : Z := batch_id * batch_size.

Definition batch_n2 (size batch_size batch_id : Z) : Z :=
  Z.min (Mach.to_int size) (batch_n1 batch_size batch_id + batch_size).

(** The loop that raises [N], [N_times_max_NN_radial],
    [N_times_max_NN_angular], [max_NN_radial] and [max_NN_angular] to the
    maxima over the training batches. *)
Definition raise_max (ts : list (list Dataset)) (nb : Z)
    (init : Z * Z * Z * Z * Z) : option (Z * Z * Z * Z * Z) :=
  foldl (λ acc n,
           '(Nm, Nr, Ng, r, a) ← acc;
           d ← at_ ts n ≫= λ v, at_ v 0;
           let Nm := if N d >? Nm then N d else Nm in
           let Nr := if N d * ds_max_NN_radial d >? Nr
                     then N d * ds_max_NN_radial d else Nr in
           let Ng := if N d * ds_max_NN_angular d >? Ng
                     then N d * ds_max_NN_angular d else Ng in
           let r := if ds_max_NN_radial d >? r
                    then ds_max_NN_radial d else r in
           let a := if ds_max_NN_angular d >? a
                    then ds_max_NN_angular d else a in
           Some (Nm, Nr, Ng, r, a))
        (Some init) (seqZ 0 nb).

(** [structures_train] and [structures_test] are what [read_structures]
    gives, [deviceCount] what [cudaGetDeviceCount] gives. *)
Definition Fitness_new
    (input_dir : string) (deviceCount : Z)
    (structures_train structures_test : list Structure) : M unit :=
  emit PrintLine1;;
  emit (Printf "Started reading train.in.\n" []);;
  emit PrintLine2;;
  p ← get_para;
  let size := Z.of_nat (length structures_train) in
  nb ← lift (ceil_size size (batch_size p));
  f ← get_self;
  set_self (with_num_batches f nb);;
  emit (Printf "Number of devices = %d\n" [AInt deviceCount]);;
  emit (Printf "Number of batches = %d\n" [AInt nb]);;
  let batch_size_old := batch_size p in
  b ← lift (ceil_size size nb);
  set_para (with_batch_size p b);;
  (if batch_size_old =? b then ret tt
   else emit (Printf "Hello, I changed the batch_size from %d to %d.\n"
                [AInt batch_size_old; AInt b]));;
  f ← get_self;
  rows ← lift (new_vector nb []);
  set_self (with_train_set f rows);;
  for_int 0 nb (λ batch_id,
    row ← lift (new_vector deviceCount default_Dataset);
    store_vec (TrainSet batch_id) row);;
  p ← get_para;
  for_int 0 nb (λ batch_id,
    let n1 := batch_n1 (batch_size p) batch_id in
    let n2 := batch_n2 size (batch_size p) batch_id in
    emit (Printf "\nBatch %d:\n" [AInt batch_id]);;
    emit (Printf "Number of configurations = %d.\n" [AInt (n2 - n1)]);;
    for_int 0 deviceCount (λ device_id,
      emit PrintLine1;;
      emit (Printf "Constructing train_set in device  %d.\n"
              [AInt device_id]);;
      store_ds (TrainSet batch_id) device_id
        (construct input_dir p structures_train n1 n2 device_id);;
      emit PrintLine2));;
  emit PrintLine1;;
  emit (Printf "Started reading test.in.\n" []);;
  emit PrintLine2;;
  f ← get_self;
  row ← lift (new_vector deviceCount default_Dataset);
  set_self (with_test_set f row);;
  for_int 0 deviceCount (λ device_id,
    emit PrintLine1;;
    emit (Printf "Constructing test_set in device  %d.\n"
            [AInt device_id]);;
    store_ds TestSet device_id
      (construct input_dir p structures_test 0
         (Mach.to_int (Z.of_nat (length structures_test))) device_id);;
    emit PrintLine2);;
  t0 ← load_ds TestSet 0;
  f ← get_self;
  '(Nm, Nr, Ng, r, a) ←
    lift (raise_max (train_set f) nb
            (N t0, N t0 * ds_max_NN_radial t0, N t0 * ds_max_NN_angular t0,
             ds_max_NN_radial t0, ds_max_NN_angular t0));
  set_self (with_potential f r a
              {| nep_input_dir := input_dir; nep_para := p; nep_N := Nm;
                 nep_N_times_max_NN_radial := Nr;
                 nep_N_times_max_NN_angular := Ng;
                 nep_version := version p;
                 nep_deviceCount := deviceCount |});;
  f ← get_self;
  file_loss_out ← lift (file_name input_dir "/loss.out");
  emit (Fopen file_loss_out "a");;
  set_self (with_fid_loss_out f file_loss_out).

End Program.

(** ** What the properties are stated with *)

(** The mean over the atoms of one structure: the sum of [data] over the
    [na] atoms that start at [off], added up in order from [0.0f], divided
    by [na]. *)
Definition structure_sum (data : list float) (off na : Z) : float :=
  foldl F32.add F32.zero (take (Z.to_nat na) (drop (Z.to_nat off) data)).

Definition structure_mean (data : list float) (off na : Z) : float :=
  F32.div (structure_sum data off na) (F32.of_int na).

(** One value per structure of a dataset, in structure order. *)
Definition per_structure (d : Dataset) (data : list float) : list float :=
  zip_with (structure_mean data) (Na_sum_cpu d) (Na_cpu d).

(** The lines [predict_energy_or_stress] is to print. *)
Definition dump_lines (fid : string) (d : Dataset) (data ref : list float)
  : list event :=
  zip_with (λ x r, Fprintf fid "%g %g\n" [AFloat x; AFloat r])
           (per_structure d data) (take (Z.to_nat (Nc d)) ref).

(** The shape of a dataset: the tables have one entry per structure, the
    atoms of every structure lie inside [0, N), and the buffers have the
    sizes of section 3 of the specification; [q] bounds the scaler. *)
Definition structure_ok (d : Dataset) (x : Z * Z * Structure) : bool :=
  let '(off, na, st) := x in
  (0 <=? off) && (0 <=? na) && (off + na <=? N d)
  && (0 <=? num_atom st) && (off + num_atom st <=? N d).

Definition ds_ok (q : nat) (d : Dataset) : bool :=
  (0 <=? N d) && (0 <=? Nc d)
  && (Z.of_nat (length (Na_cpu d)) =? Nc d)
  && (Z.of_nat (length (Na_sum_cpu d)) =? Nc d)
  && (Z.of_nat (length (structures d)) =? Nc d)
  && forallb (structure_ok d)
       (zip (zip (Na_sum_cpu d) (Na_cpu d)) (structures d))
  && (Z.of_nat (length (energy d)) =? N d)
  && (Z.of_nat (length (energy_cpu d)) =? N d)
  && (Z.of_nat (length (virial d)) =? 6 * N d)
  && (Z.of_nat (length (virial_cpu d)) =? 6 * N d)
  && (Z.of_nat (length (force d)) =? 3 * N d)
  && (Z.of_nat (length (force_cpu d)) =? 3 * N d)
  && (Z.of_nat (length (energy_ref_cpu d)) =? Nc d)
  && (Z.of_nat (length (virial_ref_cpu d)) =? 6 * Nc d)
  && (Z.of_nat (length (force_ref_cpu d)) =? 3 * N d)
  && (length (q_scaler_gpu d) <=? q)%nat.

(** The [Fitness] object as the constructor leaves it on [deviceCount]
    devices. *)
Definition fit_ok (deviceCount : Z) (f : Fitness) : bool :=
  bool_decide (is_Some (potential f))
  && (0 <? deviceCount) && (0 <? num_batches f)
  && (Z.of_nat (length (train_set f)) =? num_batches f)
  && forallb (λ v, Z.of_nat (length v) =? deviceCount) (train_set f)
  && (Z.of_nat (length (test_set f)) =? deviceCount).

(** The state a checkpoint needs: well-shaped datasets, the parameters
    inside the [elite] buffer, the element names present. *)
Definition mem_ok (deviceCount : Z) (s : Mem) : bool :=
  fit_ok deviceCount (self s)
  && forallb (forallb (ds_ok (length (q_scaler_cpu (para s)))))
       (train_set (self s))
  && forallb (ds_ok (length (q_scaler_cpu (para s)))) (test_set (self s))
  && (0 <? number_of_variables_ann (para s))
  && (number_of_variables_ann (para s) <=? Z.of_nat (length (elite s)))
  && (number_of_variables (para s) <=? Z.of_nat (length (elite s)))
  && (num_types (para s) <=? Z.of_nat (length (elements (para s)))).

(** What the potential is relied on for: it keeps the number of datasets of
    the vector it is given and the shape of each of them. *)
Class Contract `{Collaborators} : Prop := {
  find_force_length pot p x ds flag k :
    length (find_force pot p x ds flag k) = length ds;
  find_force_shape pot p x ds flag k q :
    forallb (ds_ok q) ds = true →
    forallb (ds_ok q) (find_force pot p x ds flag k) = true
}.

(** Total correctness of a computation: from a state in [P] it ends, in a
    state and with a result in [Q]. *)
Definition total {A} (P : Mem → Prop) (m : M A) (Q : A → Mem → Prop) : Prop :=
  ∀ s, P s → ∃ a s', m s = Some (a, s') ∧ Q a s'.

Section Evaluated.

Context `{Collaborators}.

(** The datasets of the selected batch after the potential has evaluated
    chunks [0 .. n] of the population, starting from [v]. *)
Fixpoint evaluated (pot : NEP3) (p : Parameters) (deviceCount : Z)
    (population : list float) (v : list Dataset) (n : nat) : list Dataset :=
  let before :=
    match n with
    | O => v
    | S n' => evaluated pot p deviceCount population v n'
    end in
  find_force pot p
    (offset population (deviceCount * Z.of_nat n * number_of_variables p))
    before false
    (device_in_this_iter (population_size p) deviceCount (Z.of_nat n)).

(** The datasets of the training batches and of the test set after the
    warm-up has gone through batches [0 .. n - 1]. *)
Definition warm_train (pot : NEP3) (p : Parameters) (deviceCount : Z)
    (v : list Dataset) : list Dataset :=
  find_force pot p (all_ones p) v true deviceCount.

Fixpoint warm_test (pot : NEP3) (p : Parameters) (v : list Dataset)
    (n : nat) : list Dataset :=
  match n with
  | O => v
  | S n' => find_force pot p (all_ones p) (warm_test pot p v n') true 1
  end.

End Evaluated.

(** The individuals of a generation in the order [compute] scores them:
    chunk after chunk, device after device. *)
Definition dispatch (population_size deviceCount iters : Z) : list (Z * Z * Z) :=
  n ← seqZ 0 iters;
  m ← seqZ 0 (device_in_this_iter population_size deviceCount n);
  [(n, m, deviceCount * n + m)].

(** The ranges the constructor builds the training batches from. *)
Definition batch_ranges (size batch_size num_batches : Z) : list (Z * Z) :=
  (λ batch_id, (batch_n1 batch_size batch_id,
                batch_n2 size batch_size batch_id)) <$> seqZ 0 num_batches.

(** One checkpoint fires, and the dump of the training set is written. *)
Definition fires (generation : Z) : bool := (generation + 1) mod 100 =? 0.
Definition fires_train (generation : Z) : bool :=
  (generation + 1) mod 1000 =? 0.

(** The state [s] with the [Fitness] object and the [fitness] buffer
    replaced. *)
Definition upd (s : Mem) (f : Fitness) (v : list float) : Mem :=
  {| self := f; para := para s; fitness := v; elite := elite s; out := out s |}.

Section Scores.

Context `{Collaborators}.

(** The three values [compute] stores for individual [i]: the dataset of
    device [i mod deviceCount] after chunk [i / deviceCount] has been
    evaluated, read by the three [get_rmse] methods. *)
Definition scores (pot : NEP3) (p : Parameters) (deviceCount : Z)
    (population : list float) (v : list Dataset) (i : Z)
  : float * float * float :=
  let m := i mod deviceCount in
  let d := evaluated pot p deviceCount population v
             (Z.to_nat (i / deviceCount)) !!! Z.to_nat m in
  (F32.mul (lambda_e p) (get_rmse_energy d true true m).1,
   F32.mul (lambda_f p) (get_rmse_force d p true m),
   F32.mul (lambda_v p) (get_rmse_virial d true m)).

End Scores.

(** The three stores of one individual. *)
Definition write3 (P : Z) (v : list float) (i : Z) (t : float * float * float)
  : list float :=
  <[Z.to_nat (i + 2 * P) := t.2]>
    (<[Z.to_nat (i + 1 * P) := t.1.2]>
       (<[Z.to_nat (i + 0 * P) := t.1.1]> v)).

(** The [fitness] buffer after individuals [0 .. cnt - 1] are stored. *)
Definition stored (P : Z) (t : Z → float * float * float) (v : list float)
    (cnt : Z) : list float :=
  foldl (λ v i, write3 P v i (t i)) v (seqZ 0 cnt).

Section Generation.

Context `{Collaborators}.

(** The datasets of the selected batch when chunk [n] starts. *)
Definition before_chunk (pot : NEP3) (p : Parameters) (deviceCount : Z)
    (population : list float) (v : list Dataset) (n : nat) : list Dataset :=
  match n with
  | O => v
  | S n' => evaluated pot p deviceCount population v n'
  end.

(** The state of a scoring generation when chunk [n] starts and individuals
    [0 .. cnt - 1] are stored. *)
Definition scoring_state (s : Mem) (pot : NEP3) (deviceCount batch_id : Z)
    (population : list float) (v : list Dataset) (n : nat) (cnt : Z) : Mem :=
  upd s
    (with_train_set (self s)
       (<[Z.to_nat batch_id :=
            before_chunk pot (para s) deviceCount population v n]>
          (train_set (self s))))
    (stored (population_size (para s))
       (scores pot (para s) deviceCount population v) (fitness s) cnt).

End Generation.

(** ** The collaborators, modelled *)

Module Model.

(** Modelled from the spec: the error measures [Dataset::get_rmse_energy],
    [Dataset::get_rmse_force] and [Dataset::get_rmse_virial] (dataset.cu is
    not part of the sources at hand).  Section 4.2: "RMSE is the square root
    of the mean squared residual over the relevant pooled set", the energy
    "per-structure, normalized by atom count", the force "per-atom,
    per-component, pooled", the virial "per-structure, per independent
    component, pooled".  Section 4.3: the energy bias is "the mean residual
    between predicted and reference per-structure energy"; it is taken as
    what [get_rmse_energy] leaves in [energy_shift_per_structure].  The
    specification does not say with which sign the routine reports it, and
    no property below depends on that sign.  The specification says nothing
    of the flags and of the device index, which are not used. *)
Definition sum_squares (pred ref : list float) : float :=
  foldl F32.add F32.zero
    (zip_with (λ x r, F32.mul (F32.sub x r) (F32.sub x r)) pred ref).

Definition RMSE (pred ref : list float) : float :=
  F32.sqrt (F32.div (sum_squares pred ref)
                    (F32.of_int (Z.of_nat (length ref)))).

Definition mean_residual (pred ref : list float) : float :=
  F32.div (foldl F32.add F32.zero (zip_with F32.sub pred ref))
          (F32.of_int (Z.of_nat (length ref))).

Definition energy_pred (d : Dataset) : list float :=
  per_structure d (energy d).

Definition virial_pred (d : Dataset) : list float :=
  k ← seqZ 0 6; per_structure d (offset (virial d) (N d * k)).

Definition rmse_energy (d : Dataset) (use_weight do_shift : bool)
    (device_id : Z) : float * float :=
  (RMSE (energy_pred d) (energy_ref_cpu d),
   mean_residual (energy_pred d) (energy_ref_cpu d)).

Definition rmse_force (d : Dataset) (p : Parameters) (use_weight : bool)
    (device_id : Z) : float :=
  RMSE (force d) (force_ref_cpu d).

Definition rmse_virial (d : Dataset) (use_weight : bool) (device_id : Z)
  : float :=
  RMSE (virial_pred d) (virial_ref_cpu d).

(** Modelled from the spec: a potential ([NEP3::find_force]; nep3.cu is not
    part of the sources at hand) for the scenarios of section 8, one that
    leaves in every dataset the predictions it finds there. *)
Definition keep (pot : NEP3) (p : Parameters) (x : list float)
    (ds : list Dataset) (flag : bool) (k : Z) : list Dataset := ds.

(** Modelled from the spec: [Dataset::construct] (dataset.cu is not part of
    the sources at hand).  Section 3: the structures of the range, the
    table of atom counts and its prefix sums, and buffers of [N], [3N],
    [6N], [Nc] and [6 Nc] values. *)
Fixpoint prefix_sums (acc : Z) (l : list Z) : list Z :=
  match l with
  | [] => []
  | x :: l' => acc :: prefix_sums (acc + x) l'
  end.

Definition zeros (n : Z) : list float := replicate (Z.to_nat n) F32.zero.

Definition build (input_dir : string) (p : Parameters)
    (structures : list Structure) (n1 n2 device_id : Z) : Dataset :=
  let sts := take (Z.to_nat (n2 - n1)) (drop (Z.to_nat n1) structures) in
  let na := num_atom <$> sts in
  let n := foldr Z.add 0 na in
  let nc := Z.of_nat (length sts) in
  {| N := n; Nc := nc; ds_max_NN_radial := 0; ds_max_NN_angular := 0;
     Na_cpu := na; Na_sum_cpu := prefix_sums 0 na; structures := sts;
     energy := zeros n; virial := zeros (6 * n); force := zeros (3 * n);
     energy_cpu := zeros n; virial_cpu := zeros (6 * n);
     force_cpu := zeros (3 * n);
     energy_ref_cpu := zeros nc; virial_ref_cpu := zeros (6 * nc);
     force_ref_cpu := zeros (3 * n); q_scaler_gpu := [] |}.

#[export] Instance collaborators : Collaborators :=
  {| find_force := keep; construct := build;
     get_rmse_energy := rmse_energy; get_rmse_force := rmse_force;
     get_rmse_virial := rmse_virial |}.

End Model.

(** ** A small run

    The scenario of section 8: two structures of 2 and 3 atoms, one batch,
    one device, a population of three zero vectors of one parameter, and
    predictions that equal the references. *)

Module Example.

Definition f1 : float := F32.one.
Definition f2 : float := Eval cbv in F32.of_int 2.
Definition f5 : float := Eval cbv in F32.of_int 5.

Definition dataset (e1 e2 r1 r2 : float) : Dataset :=
  {| N := 5; Nc := 2; ds_max_NN_radial := 0; ds_max_NN_angular := 0;
     Na_cpu := [2; 3]; Na_sum_cpu := [0; 2];
     structures := [{| num_atom := 2 |}; {| num_atom := 3 |}];
     energy := [e1; e1; e2; e2; e2];
     virial := Model.zeros 30; force := Model.zeros 15;
     energy_cpu := Model.zeros 5; virial_cpu := Model.zeros 30;
     force_cpu := Model.zeros 15;
     energy_ref_cpu := [r1; r2];
     virial_ref_cpu := Model.zeros 12; force_ref_cpu := Model.zeros 15;
     q_scaler_gpu := [] |}.

Definition parameters (le lf lv : float) : Parameters :=
  {| batch_size := 2; population_size := 3; number_of_variables := 1;
     number_of_variables_ann := 1;
     lambda_e := le; lambda_f := lf; lambda_v := lv;
     version := 3; enable_zbl := false; num_types := 1; elements := ["C"];
     zbl_rc_inner := F32.zero; zbl_rc_outer := F32.zero;
     rc_radial := f5; rc_angular := f5;
     n_max_radial := 4; n_max_angular := 4;
     basis_size_radial := 8; basis_size_angular := 8;
     L_max := 4; L_max_4body := 0; L_max_5body := 0; num_neurons1 := 30;
     q_scaler_cpu := [] |}.

Definition nep (p : Parameters) (deviceCount : Z) : NEP3 :=
  {| nep_input_dir := "."; nep_para := p; nep_N := 5;
     nep_N_times_max_NN_radial := 0; nep_N_times_max_NN_angular := 0;
     nep_version := 3; nep_deviceCount := deviceCount |}.

Definition fitness_object (p : Parameters) (deviceCount : Z)
    (train : list (list Dataset)) (test : list Dataset) : Fitness :=
  {| num_batches := Z.of_nat (length train); train_set := train;
     test_set := test; potential := Some (nep p deviceCount);
     max_NN_radial := 0; max_NN_angular := 0; fid_loss_out := "./loss.out" |}.

Definition memory (p : Parameters) (deviceCount : Z)
    (train : list (list Dataset)) (test : list Dataset) (el : list float)
  : Mem :=
  {| self := fitness_object p deviceCount train test; para := p;
     fitness := Model.zeros 9; elite := el; out := [] |}.

(** One batch on one device, predictions equal to the references. *)
Definition exact : Dataset := dataset f1 f2 f1 f2.

Definition mem_exact : Mem :=
  memory (parameters f1 f1 f1) 1 [[exact]] [exact] [F32.zero].

Definition population : list float := [F32.zero; F32.zero; F32.zero].

(** One batch on one device, every predicted energy one above its
    reference. *)
Definition f3 : float := Eval cbv in F32.of_int 3.
Definition f4 : float := Eval cbv in F32.of_int 4.

Definition biased : Dataset := dataset f2 f3 f1 f2.

Definition mem_biased : Mem :=
  memory (parameters f1 f1 f1) 1 [[biased]] [biased] [F32.zero].

(** Two batches on [deviceCount] devices: the structures of batch 0 have
    the reference energies 1 and 2, those of batch 1 the reference energies
    3 and 4. *)
Definition batch0 : Dataset := dataset f1 f2 f1 f2.
Definition batch1 : Dataset := dataset f3 f4 f3 f4.

Definition mem_two (deviceCount : Z) : Mem :=
  memory (parameters f1 f1 f1) deviceCount
    [replicate (Z.to_nat deviceCount) batch0;
     replicate (Z.to_nat deviceCount) batch1]
    (replicate (Z.to_nat deviceCount) batch0) [F32.zero].

(** The state the constructor starts from, and three training structures
    to be split into batches of two. *)
Definition fresh : Mem :=
  {| self := {| num_batches := 0; train_set := []; test_set := [];
                potential := None; max_NN_radial := 0; max_NN_angular := 0;
                fid_loss_out := "" |};
     para := parameters f1 f1 f1; fitness := []; elite := []; out := [] |}.

Definition train3 : list Structure :=
  [{| num_atom := 2 |}; {| num_atom := 3 |}; {| num_atom := 1 |}].


End Example.

(** The state [s] after the events [evs] are written. *)
Definition emitted (s : Mem) (evs : list event) : Mem :=
  {| self := self s; para := para s; fitness := fitness s; elite := elite s;
     out := out s ++ evs |}.

(** The tables of a dataset describe structures inside a buffer of [size]
    values. *)
Definition tables_ok (d : Dataset) (size : Z) : bool :=
  (0 <=? Nc d)
  && (Z.of_nat (length (Na_cpu d)) =? Nc d)
  && (Z.of_nat (length (Na_sum_cpu d)) =? Nc d)
  && forallb (λ x, (0 <=? x.1) && (0 <=? x.2) && (x.1 + x.2 <=? size))
       (zip (Na_sum_cpu d) (Na_cpu d)).

(** The files a trace opens, in order. *)
Definition opened (evs : list event) : list string :=
  omap (λ e, match e with Fopen path _ => Some path | _ => None end) evs.

(** The arguments of the lines a trace prints to the file [path]. *)
Definition printed (path : string) (evs : list event) : list (list arg) :=
  omap (λ e, match e with
             | Fprintf p _ args => if String.eqb p path then Some args else None
             | _ => None
             end) evs.

(** The datasets of a [Fitness] object have the shape [ds_ok] asks for and
    the host copy of the scaler has [q] entries. *)
Definition shaped (deviceCount : Z) (q : nat) (s : Mem) : Prop :=
  fit_ok deviceCount (self s) = true
  ∧ forallb (forallb (ds_ok q)) (train_set (self s)) = true
  ∧ forallb (ds_ok q) (test_set (self s)) = true
  ∧ length (q_scaler_cpu (para s)) = q.

(** [s'] differs from [s] by lines printed to files that are open. *)
Definition prints (s s' : Mem) : Prop :=
  self s' = self s ∧ para s' = para s ∧ fitness s' = fitness s
  ∧ elite s' = elite s
  ∧ ∃ evs, out s' = out s ++ evs ∧ opened evs = [].

(** [s'] differs from [s] by the contents of datasets and by the events
    [evs]. *)
Definition evolves (deviceCount : Z) (q : nat) (s s' : Mem)
    (evs : list event) : Prop :=
  shaped deviceCount q s'
  ∧ num_batches (self s') = num_batches (self s)
  ∧ potential (self s') = potential (self s)
  ∧ fid_loss_out (self s') = fid_loss_out (self s)
  ∧ fitness s' = fitness s ∧ elite s' = elite s
  ∧ out s' = out s ++ evs.

(** The vector of datasets a reference names, and its replacement. *)
Definition vec_of (f : Fitness) (r : vec_ref) : option (list Dataset) :=
  match r with
  | TrainSet b => at_ (train_set f) b
  | TestSet => Some (test_set f)
  end.

Definition with_vec (f : Fitness) (r : vec_ref) (v : list Dataset) : Fitness :=
  match r with
  | TrainSet b => with_train_set f (<[Z.to_nat b := v]> (train_set f))
  | TestSet => with_test_set f v
  end.




Section Rows.

Context `{Collaborators}.

(** The datasets of batch [batch_id], one per device, and those of the test
    set, as the constructor builds them. *)
Definition batch_row (input_dir : string) (deviceCount : Z)
    (train : list Structure) (p : Parameters) (batch_id : Z) : list Dataset :=
  (λ device_id,
     construct input_dir p train
       (batch_n1 (batch_size p) batch_id)
       (batch_n2 (Z.of_nat (length train)) (batch_size p) batch_id) device_id)
    <$> seqZ 0 deviceCount.

Definition test_row (input_dir : string) (deviceCount : Z)
    (test : list Structure) (p : Parameters) : list Dataset :=
  (λ device_id,
     construct input_dir p test 0
       (Mach.to_int (Z.of_nat (length test))) device_id)
    <$> seqZ 0 deviceCount.

End Rows.

(** ** What a computation that ends has kept *)

(** Whenever [m] ends, the states before and after it are related by [R]. *)
Definition preserves {A} (R : Mem → Mem → Prop) (m : M A) : Prop :=
  ∀ s a s', m s = Some (a, s') → R s s'.

(** A line printed to one of the files [paths]. *)
Definition line_to (paths : list string) (e : event) : Prop :=
  match e with
  | Fprintf p _ _ => p ∈ paths
  | _ => False
  end.

(** [s'] differs from [s] by lines printed to the files [paths]. *)
Definition writes_to (paths : list string) (s s' : Mem) : Prop :=
  self s' = self s ∧ para s' = para s ∧ fitness s' = fitness s
  ∧ elite s' = elite s
  ∧ ∃ evs, out s' = out s ++ evs ∧ Forall (line_to paths) evs.

(** What a checkpoint keeps: the [fitness] buffer, the length of [elite],
    the parameters other than the host copy of the scaler, the members of
    the [Fitness] object other than the contents of the datasets, the
    output written before, and the shape of the state. *)
Definition checkpointed (s s' : Mem) : Prop :=
  fitness s' = fitness s
  ∧ length (elite s') = length (elite s)
  ∧ with_q_scaler_cpu (para s') (q_scaler_cpu (para s)) = para s
  ∧ num_batches (self s') = num_batches (self s)
  ∧ potential (self s') = potential (self s)
  ∧ fid_loss_out (self s') = fid_loss_out (self s)
  ∧ max_NN_radial (self s') = max_NN_radial (self s)
  ∧ max_NN_angular (self s') = max_NN_angular (self s)
  ∧ (∃ evs, out s' = out s ++ evs)
  ∧ ∀ dc q, shaped dc q s → shaped dc q s'.

Section LossLine.

Context `{Collaborators}.

(** The values of the line a checkpoint prints to the screen and to
    loss.out: the generation counted from one, the three losses, the errors
    of the dataset [d] of the training batch and those of the dataset [t] of
    the test set. *)
Definition loss_line (generation : Z) (loss_total loss_L1 loss_L2 : float)
    (p : Parameters) (d t : Dataset) : list arg :=
  [AInt (generation + 1); AFloat loss_total; AFloat loss_L1; AFloat loss_L2;
   AFloat (get_rmse_energy d false true 0).1;
   AFloat (get_rmse_force d p false 0);
   AFloat (get_rmse_virial d false 0);
   AFloat (get_rmse_energy t false false 0).1;
   AFloat (get_rmse_force t p false 0);
   AFloat (get_rmse_virial t false 0)].

End LossLine.

(** [s'] differs from [s] by the contents of the [Fitness] object and by
    lines printed to the files [paths]. *)
Definition dumps (paths : list string) (s s' : Mem) : Prop :=
  para s' = para s ∧ fitness s' = fitness s ∧ elite s' = elite s
  ∧ ∃ evs, out s' = out s ++ evs ∧ Forall (line_to paths) evs.

(** ** The lines of the dump files *)

(** One row per atom: the three components of [v], which holds them as
    three blocks of [n] values. *)
Definition xyz (v : list float) (n : Z) : list (list arg) :=
  zip_with (λ x yz, AFloat x :: yz) v
    (zip_with (λ y z, [AFloat y; AFloat z]) (offset v n) (offset v (n * 2))).

(** The rows of the force file: predicted force, then reference force. *)
Definition force_rows (d : Dataset) : list (list arg) :=
  zip_with app (xyz (force_cpu d) (N d)) (xyz (force_ref_cpu d) (N d)).

(** The lines [update_energy_force_virial] is to print: to the force file
    the rows of the atoms of every structure, to the energy file one line
    per structure, and to the virial file one line per structure for each
    of the six components in turn. *)
Definition force_lines (fid : string) (d : Dataset) : list event :=
  x ← take (Z.to_nat (Nc d)) (zip (Na_sum_cpu d) (structures d));
  Fprintf fid "%g %g %g %g %g %g\n"
    <$> take (Z.to_nat (num_atom x.2)) (drop (Z.to_nat x.1) (force_rows d)).

Definition virial_lines (fid : string) (d : Dataset) : list event :=
  k ← seqZ 0 6;
  dump_lines fid d (offset (virial_cpu d) (N d * k))
    (offset (virial_ref_cpu d) (Nc d * k)).

Definition efv_lines (fid_energy fid_force fid_virial : string) (d : Dataset)
  : list event :=
  force_lines fid_force d
  ++ dump_lines fid_energy d (energy_cpu d) (energy_ref_cpu d)
  ++ virial_lines fid_virial d.

(** A progress message: a ruler, or a [printf] with one of the formats
    [fmts]. *)
Definition progress (fmts : list string) (e : event) : Prop :=
  match e with
  | PrintLine1 | PrintLine2 => True
  | Printf fmt _ => fmt ∈ fmts
  | _ => False
  end.

(** [s'] differs from [s] by the contents of the [Fitness] object and by
    progress messages. *)
Definition announces (fmts : list string) (s s' : Mem) : Prop :=
  para s' = para s ∧ fitness s' = fitness s ∧ elite s' = elite s
  ∧ ∃ evs, out s' = out s ++ evs ∧ Forall (progress fmts) evs.

(** The first dataset of every batch. *)
Definition heads (ts : list (list Dataset)) : list Dataset := omap head ts.

(** The largest of [init] and the values of [f] on the datasets [ds]. *)
Definition largest (f : Dataset → Z) (init : Z) (ds : list Dataset) : Z :=
  foldl Z.max init (f <$> ds).

(** ** Edge cases *)

Module Edge.

(** A population without individuals, on two devices. *)
Definition parameters : Parameters :=
  {| batch_size := 2; population_size := 0; number_of_variables := 1;
     number_of_variables_ann := 1;
     lambda_e := F32.one; lambda_f := F32.one; lambda_v := F32.one;
     version := 3; enable_zbl := false; num_types := 1; elements := ["C"];
     zbl_rc_inner := F32.zero; zbl_rc_outer := F32.zero;
     rc_radial := Example.f5; rc_angular := Example.f5;
     n_max_radial := 4; n_max_angular := 4;
     basis_size_radial := 8; basis_size_angular := 8;
     L_max := 4; L_max_4body := 0; L_max_5body := 0; num_neurons1 := 30;
     q_scaler_cpu := [] |}.

Definition no_individuals (deviceCount : Z) : Mem :=
  Example.memory parameters deviceCount
    [replicate (Z.to_nat deviceCount) Example.exact]
    (replicate (Z.to_nat deviceCount) Example.exact) [F32.zero].

(** A dataset whose second structure has no atoms. *)
Definition hollow : Dataset :=
  {| N := 2; Nc := 2; ds_max_NN_radial := 0; ds_max_NN_angular := 0;
     Na_cpu := [2; 0]; Na_sum_cpu := [0; 2];
     structures := [{| num_atom := 2 |}; {| num_atom := 0 |}];
     energy := [F32.one; F32.one];
     virial := Model.zeros 12; force := Model.zeros 6;
     energy_cpu := [F32.one; F32.one]; virial_cpu := Model.zeros 12;
     force_cpu := Model.zeros 6;
     energy_ref_cpu := [F32.one; F32.zero];
     virial_ref_cpu := Model.zeros 12; force_ref_cpu := Model.zeros 6;
     q_scaler_gpu := [] |}.

End Edge.

(** A line of nep.txt that holds one number. *)
Definition number_line (fid : string) (x : float) : event :=
  Fprintf fid "%15.7e\n" [AFloat x].

(** A dataset after its device buffers are copied to the host. *)
Definition host_synced (d : Dataset) : Dataset :=
  with_host d (energy d) (virial d) (force d).

(** ** What a generation leaves alone *)

(** Nothing is printed; the parameters, [elite] and the members of the
    [Fitness] object other than the contents of the datasets are as
    before. *)
Definition frame (s s' : Mem) : Prop :=
  para s' = para s ∧ elite s' = elite s ∧ out s' = out s
  ∧ num_batches (self s') = num_batches (self s)
  ∧ potential (self s') = potential (self s)
  ∧ fid_loss_out (self s') = fid_loss_out (self s)
  ∧ max_NN_radial (self s') = max_NN_radial (self s)
  ∧ max_NN_angular (self s') = max_NN_angular (self s)
  ∧ length (train_set (self s')) = length (train_set (self s))
  ∧ length (fitness s') = length (fitness s).

(** Generation 0: the [fitness] buffer is as before too. *)
Definition warmed (s s' : Mem) : Prop :=
  frame s s' ∧ fitness s' = fitness s.

(** A later generation on batch [b]: the test set and the other batches of
    the training set are as before. *)
Definition scored (b : Z) (s s' : Mem) : Prop :=
  frame s s'
  ∧ test_set (self s') = test_set (self s)
  ∧ ∀ b', b' ≠ b →
          at_ (train_set (self s')) b' = at_ (train_set (self s)) b'.

(** ** The life of a [Fitness] object *)

(** [Fitness::~Fitness]. *)
Definition Fitness_delete : M unit :=
  f ← get_self; emit (Fclose (fid_loss_out f)).

(** A call of one of the two public member functions. *)
Inductive call :=
| Compute (deviceCount generation : Z) (population : list float)
| ReportError (input_dir : string) (generation : Z)
    (loss_total loss_L1 loss_L2 : float).

(** What calls leave of the object: the members the constructor sets once,
    and the output written before. *)
Definition object_kept (s s' : Mem) : Prop :=
  num_batches (self s') = num_batches (self s)
  ∧ potential (self s') = potential (self s)
  ∧ fid_loss_out (self s') = fid_loss_out (self s)
  ∧ max_NN_radial (self s') = max_NN_radial (self s)
  ∧ max_NN_angular (self s') = max_NN_angular (self s)
  ∧ ∃ evs, out s' = out s ++ evs.

Section Life.

Context `{Collaborators}.

Definition do_call (c : call) : M unit :=
  match c with
  | Compute deviceCount generation population =>
      compute deviceCount generation population
  | ReportError input_dir generation loss_total loss_L1 loss_L2 =>
      report_error input_dir generation loss_total loss_L1 loss_L2
  end.

(** An object is constructed, used and destroyed. *)
Definition life (input_dir : string) (deviceCount : Z)
    (structures_train structures_test : list Structure) (calls : list call)
  : M unit :=
  Fitness_new input_dir deviceCount structures_train structures_test;;
  for_each calls do_call;;
  Fitness_delete.

End Life.

(** * Proofs *)

(** ** Running the monad *)

Lemma bind_run {A B} (m : M A) (k : A → M B) s :
  (m ≫= k) s = match m s with Some (a, s') => k a s' | None => None end.
Proof. reflexivity. Qed.

Lemma bind_Some {A B} (m : M A) (k : A → M B) s a s1 :
  m s = Some (a, s1) → (m ≫= k) s = k a s1.
Proof. intros E. rewrite bind_run, E. reflexivity. Qed.

Lemma lift_Some {A} (o : option A) a s : o = Some a → lift o s = Some (a, s).
Proof. intros ->. reflexivity. Qed.

Lemma for_each_inv {A} (l : list A) (body : A → M unit)
    (I : nat → Mem → Prop) :
  (∀ i x s, l !! i = Some x → I i s →
            ∃ s', body x s = Some (tt, s') ∧ I (S i) s') →
  ∀ s, I O s → ∃ s', for_each l body s = Some (tt, s') ∧ I (length l) s'.
Proof.
  revert I. induction l as [|x l IH]; intros I Hstep s Hs.
  - exists s. split; [reflexivity | exact Hs].
  - destruct (Hstep O x s eq_refl Hs) as (s1 & E1 & H1).
    destruct (IH (λ i, I (S i)) (λ i y, Hstep (S i) y) s1 H1) as (s2 & E2 & H2).
    exists s2. split; [| exact H2].
    cbn [for_each]. rewrite (bind_Some _ _ _ _ _ E1). exact E2.
Qed.

Lemma for_int_inv (lo hi : Z) (body : Z → M unit) (I : Z → Mem → Prop) :
  lo ≤ hi →
  (∀ i s, lo ≤ i < hi → I i s → ∃ s', body i s = Some (tt, s') ∧ I (i + 1) s') →
  ∀ s, I lo s → ∃ s', for_int lo hi body s = Some (tt, s') ∧ I hi s'.
Proof.
  intros Hle Hstep s Hs. unfold for_int.
  destruct (for_each_inv (seqZ lo (hi - lo)) body (λ i, I (lo + Z.of_nat i)))
    with (s := s) as (s' & E & H').
  - intros i x s1 Hx Hi. apply lookup_seqZ in Hx as [-> Hlt].
    destruct (Hstep (lo + Z.of_nat i) s1 ltac:(lia) Hi) as (s2 & E2 & H2).
    exists s2. split; [exact E2 |].
    replace (lo + Z.of_nat (S i)) with (lo + Z.of_nat i + 1) by lia. exact H2.
  - replace (lo + Z.of_nat 0) with lo by lia. exact Hs.
  - exists s'. split; [exact E |].
    rewrite length_seqZ in H'.
    replace (lo + Z.of_nat (Z.to_nat (hi - lo))) with hi in H' by lia.
    exact H'.
Qed.

Lemma for_int_empty (lo hi : Z) (body : Z → M unit) s :
  hi ≤ lo → for_int lo hi body s = Some (tt, s).
Proof. intros Hle. unfold for_int. rewrite seqZ_nil by lia. reflexivity. Qed.

Lemma lift_pure {A} (a : A) s : lift (Some a) s = Some (a, s).
Proof. reflexivity. Qed.

(** ** Buffers *)

Lemma new_vector_Some {A} (n : Z) (x : A) :
  0 ≤ n → new_vector n x = Some (replicate (Z.to_nat n) x).
Proof.
  intros Hn. unfold new_vector. destruct (Z.ltb_spec n 0); [lia | reflexivity].
Qed.

Lemma new_vector_inv {A} (n : Z) (x : A) v :
  new_vector n x = Some v → 0 ≤ n ∧ v = replicate (Z.to_nat n) x.
Proof.
  unfold new_vector. destruct (Z.ltb_spec n 0); [discriminate |].
  intros [= <-]. split; [assumption | reflexivity].
Qed.

Lemma file_name_fits (input_dir name : string) :
  (String.length input_dir + String.length name < 200)%nat →
  file_name input_dir name = Some (input_dir +:+ name).
Proof.
  intros Hlen. unfold file_name.
  destruct (Nat.ltb_spec (String.length input_dir + String.length name) 200);
    [reflexivity | lia].
Qed.

Lemma file_name_inv (input_dir name path : string) :
  file_name input_dir name = Some path →
  path = input_dir +:+ name
  ∧ (String.length input_dir + String.length name < 200)%nat.
Proof.
  unfold file_name.
  destruct (Nat.ltb_spec (String.length input_dir + String.length name) 200);
    [| discriminate].
  intros [= <-]. split; [reflexivity | assumption].
Qed.

Lemma at_Some {A} (v : list A) (i : Z) (x : A) :
  at_ v i = Some x ↔ 0 ≤ i ∧ v !! Z.to_nat i = Some x.
Proof.
  unfold at_. destruct (Z.ltb_spec i 0); split.
  - discriminate.
  - intros [? _]. lia.
  - intros E. split; [lia | exact E].
  - intros [_ E]. exact E.
Qed.

Lemma at_in_range {A} (v : list A) (i : Z) :
  0 ≤ i < Z.of_nat (length v) → ∃ x, at_ v i = Some x.
Proof.
  intros Hi. destruct (lookup_lt_is_Some_2 v (Z.to_nat i)) as [x Hx]; [lia |].
  exists x. apply at_Some. split; [lia | exact Hx].
Qed.

Lemma at_lt {A} (v : list A) (i : Z) (x : A) :
  at_ v i = Some x → 0 ≤ i < Z.of_nat (length v).
Proof.
  intros [H0 Hx]%at_Some. apply lookup_lt_Some in Hx. lia.
Qed.

Lemma set_at_Some {A} (v : list A) (i : Z) (x : A) :
  0 ≤ i < Z.of_nat (length v) → set_at v i x = Some (<[Z.to_nat i := x]> v).
Proof.
  intros Hi. unfold set_at.
  destruct (Z.leb_spec 0 i); [| lia].
  destruct (Z.ltb_spec i (Z.of_nat (length v))); [reflexivity | lia].
Qed.

Lemma at_nat {A} (v : list A) (i : nat) : at_ v (Z.of_nat i) = v !! i.
Proof.
  unfold at_. destruct (Z.ltb_spec (Z.of_nat i) 0); [lia |].
  rewrite Nat2Z.id. reflexivity.
Qed.

Lemma at_offset {A} (v : list A) (k i : Z) :
  0 ≤ k → 0 ≤ i → at_ (offset v k) i = at_ v (k + i).
Proof.
  intros Hk Hi. unfold at_, offset.
  destruct (Z.ltb_spec i 0); [lia |].
  destruct (Z.ltb_spec (k + i) 0); [lia |].
  rewrite lookup_drop. f_equal. lia.
Qed.

(** ** Blocks of a fixed size cover a range *)

(** Blocks [s*n, s*n + min s (size - s*n)) for [n = 0 .. j-1], one after the
    other, are the range [0, min size (s*j)). *)
Lemma blocks_cover (s size : Z) (j : nat) :
  0 ≤ s → 0 ≤ size →
  seqZ 0 (Z.of_nat j) ≫= (λ n, seqZ (s * n) (Z.min s (size - s * n)))
  = seqZ 0 (Z.min size (s * Z.of_nat j)).
Proof.
  intros Hs Hsize. induction j as [|j IH].
  - rewrite (seqZ_nil 0 (Z.of_nat 0)) by lia.
    rewrite seqZ_nil by lia. reflexivity.
  - rewrite seqZ_S, bind_app, IH, bind_singleton. rewrite Z.add_0_l.
    destruct (Z.le_gt_cases size (s * Z.of_nat j)) as [Hge | Hlt].
    + rewrite (seqZ_nil (s * Z.of_nat j)) by lia.
      rewrite app_nil_r. f_equal. lia.
    + replace (Z.min size (s * Z.of_nat j)) with (s * Z.of_nat j) by lia.
      pose proof (seqZ_app 0 (s * Z.of_nat j)
                    (Z.min s (size - s * Z.of_nat j))
                    ltac:(lia) ltac:(lia)) as E.
      rewrite Z.add_0_l in E. rewrite <- E. f_equal. lia.
Qed.

Lemma blocks_cover_all (s size k : Z) :
  0 ≤ s → 0 ≤ size → 0 ≤ k → size ≤ s * k →
  seqZ 0 k ≫= (λ n, seqZ (s * n) (Z.min s (size - s * n))) = seqZ 0 size.
Proof.
  intros Hs Hsize Hk Hle.
  rewrite <- (Z2Nat.id k) at 1 by lia.
  rewrite blocks_cover by lia. f_equal. lia.
Qed.

(** The quotient [(a - 1) / b + 1] is the ceiling of [a / b]. *)
Lemma ceil_bounds (a b : Z) :
  0 < a → 0 < b →
  b * ((a - 1) / b + 1 - 1) < a ≤ b * ((a - 1) / b + 1).
Proof.
  intros Ha Hb.
  pose proof (Z.div_mod (a - 1) b ltac:(lia)) as E.
  pose proof (Z.mod_pos_bound (a - 1) b Hb) as B.
  lia.
Qed.

Lemma ceil_unique (a b k : Z) :
  0 < b → b * (k - 1) < a ≤ b * k → k = (a - 1) / b + 1.
Proof.
  intros Hb Hk.
  pose proof (Z.div_mod (a - 1) b ltac:(lia)) as E.
  pose proof (Z.mod_pos_bound (a - 1) b Hb) as B.
  nia.
Qed.

(** ** The batch partition of the constructor *)

Lemma size_t_small (z : Z) : 0 ≤ z < 2 ^ 64 → Mach.size_t z = z.
Proof. intros Hz. unfold Mach.size_t. apply Z.mod_small. exact Hz. Qed.

Lemma to_int_small (z : Z) : - 2 ^ 31 ≤ z < 2 ^ 31 → Mach.to_int z = z.
Proof.
  intros Hz. unfold Mach.to_int. rewrite Z.mod_small; lia.
Qed.

Lemma ceil_size_spec (size d : Z) :
  0 < size ≤ Mach.INT_MAX → 0 < d ≤ Mach.INT_MAX →
  ceil_size size d = Some ((size - 1) / d + 1).
Proof.
  unfold Mach.INT_MAX. intros Hsize Hd. unfold ceil_size, Mach.size_div.
  assert (0 ≤ (size - 1) / d ≤ size - 1) as Hq.
  { split; [apply Z.div_pos; lia |].
    apply Z.div_le_upper_bound; [lia | nia]. }
  rewrite !(size_t_small (size - 1)) by lia.
  rewrite (size_t_small d) by lia.
  destruct (Z.eqb_spec d 0); [lia |]. cbn.
  rewrite size_t_small by lia. rewrite to_int_small by lia. reflexivity.
Qed.

Lemma batch_ranges_cover (size s nb : Z) :
  0 ≤ size ≤ Mach.INT_MAX → 0 ≤ s → 0 ≤ nb → size ≤ s * nb →
  batch_ranges size s nb ≫= (λ r, seqZ r.1 (r.2 - r.1)) = seqZ 0 size.
Proof.
  unfold Mach.INT_MAX. intros Hsize Hs Hnb Hle. unfold batch_ranges.
  rewrite <- (blocks_cover_all s size nb) by lia.
  induction (seqZ 0 nb) as [|n l IH]; [reflexivity |].
  rewrite fmap_cons, !bind_cons, IH. f_equal. cbn [fst snd].
  unfold batch_n2, batch_n1. rewrite to_int_small by lia.
  f_equal; lia.
Qed.

(** ** The dispatch of the population *)

Lemma min_population_iter_spec (P dc : Z) :
  0 < P → 0 < dc → min_population_iter P dc = Some ((P - 1) / dc + 1).
Proof.
  intros HP Hdc. unfold min_population_iter, Mach.int_div.
  destruct (Z.eqb_spec dc 0); [lia |]. cbn.
  rewrite Z.quot_div_nonneg by lia. reflexivity.
Qed.

Lemma dispatch_individuals (P dc iters : Z) :
  0 ≤ P → 0 ≤ dc → 0 ≤ iters → P ≤ dc * iters →
  (λ x, x.2) <$> dispatch P dc iters = seqZ 0 P.
Proof.
  intros HP Hdc Hit Hle. unfold dispatch.
  rewrite <- (blocks_cover_all dc P iters) by lia.
  induction (seqZ 0 iters) as [|n l IH]; [reflexivity |].
  rewrite !bind_cons, fmap_app, IH. f_equal.
  unfold device_in_this_iter.
  generalize (Z.min dc (P - dc * n)). intros k.
  replace (seqZ (dc * n) k) with (Z.add (dc * n) <$> seqZ 0 k)
    by (rewrite fmap_add_seqZ; f_equal; lia).
  induction (seqZ 0 k) as [|m l' IH']; [reflexivity |].
  rewrite bind_cons, fmap_app, IH'. reflexivity.
Qed.

Lemma elem_of_dispatch (P dc iters n m i : Z) :
  (n, m, i) ∈ dispatch P dc iters ↔
  0 ≤ n < iters ∧ 0 ≤ m < device_in_this_iter P dc n ∧ i = dc * n + m.
Proof.
  unfold dispatch. rewrite list_elem_of_bind. split.
  - intros (n' & Hin & Hn). apply elem_of_seqZ in Hn.
    apply list_elem_of_bind in Hin as (m' & Hin & Hm).
    apply elem_of_seqZ in Hm. apply list_elem_of_singleton in Hin.
    injection Hin as -> -> ->. lia.
  - intros (Hn & Hm & ->). exists n. split; [| apply elem_of_seqZ; lia].
    apply list_elem_of_bind. exists m.
    split; [apply list_elem_of_singleton; reflexivity | apply elem_of_seqZ; lia].
Qed.

(** ** The [fitness] buffer *)

Lemma write3_length (P : Z) v i t : length (write3 P v i t) = length v.
Proof. unfold write3. rewrite !length_insert. reflexivity. Qed.

Lemma write3_other (P : Z) v i t (j : nat) :
  j ≠ Z.to_nat (i + 0 * P) → j ≠ Z.to_nat (i + 1 * P) →
  j ≠ Z.to_nat (i + 2 * P) → write3 P v i t !! j = v !! j.
Proof.
  intros H0 H1 H2. unfold write3.
  rewrite !list_lookup_insert_ne by congruence. reflexivity.
Qed.

Lemma write3_same (P : Z) v i t :
  0 ≤ i → 0 < P → i + 2 * P < Z.of_nat (length v) →
  write3 P v i t !! Z.to_nat i = Some t.1.1
  ∧ write3 P v i t !! Z.to_nat (i + P) = Some t.1.2
  ∧ write3 P v i t !! Z.to_nat (i + 2 * P) = Some t.2.
Proof.
  intros Hi HP Hlen. unfold write3. repeat split.
  - rewrite !list_lookup_insert_ne by lia.
    replace (i + 0 * P) with i by lia.
    apply list_lookup_insert_eq. lia.
  - rewrite list_lookup_insert_ne by lia.
    replace (i + 1 * P) with (i + P) by lia.
    apply list_lookup_insert_eq. rewrite length_insert. lia.
  - apply list_lookup_insert_eq. rewrite !length_insert. lia.
Qed.

Lemma stored_S (P : Z) t v (n : nat) :
  stored P t v (Z.of_nat (S n))
  = write3 P (stored P t v (Z.of_nat n)) (Z.of_nat n) (t (Z.of_nat n)).
Proof. unfold stored. rewrite seqZ_S, foldl_snoc. reflexivity. Qed.

Lemma stored_succ (P : Z) t v (cnt : Z) :
  0 ≤ cnt →
  stored P t v (cnt + 1) = write3 P (stored P t v cnt) cnt (t cnt).
Proof.
  intros Hc. assert (∃ n : nat, cnt = Z.of_nat n) as [n ->]
    by (exists (Z.to_nat cnt); lia).
  rewrite <- stored_S. f_equal. lia.
Qed.

Lemma stored_length (P : Z) t v (cnt : Z) :
  length (stored P t v cnt) = length v.
Proof.
  destruct (Z.le_gt_cases cnt 0) as [Hle | Hgt].
  { unfold stored. rewrite seqZ_nil by lia. reflexivity. }
  assert (∃ n : nat, cnt = Z.of_nat n) as [n ->]
    by (exists (Z.to_nat cnt); lia). clear Hgt.
  induction n as [|n IH]; [reflexivity |].
  rewrite stored_S, write3_length. exact IH.
Qed.

(** Slots that belong to no stored individual keep their value. *)
Lemma stored_frame (P : Z) t v (cnt : Z) (j : nat) :
  (∀ i, 0 ≤ i < cnt →
        j ≠ Z.to_nat i ∧ j ≠ Z.to_nat (i + P) ∧ j ≠ Z.to_nat (i + 2 * P)) →
  stored P t v cnt !! j = v !! j.
Proof.
  destruct (Z.le_gt_cases cnt 0) as [Hle | Hgt].
  { intros _. unfold stored. rewrite seqZ_nil by lia. reflexivity. }
  assert (∃ n : nat, cnt = Z.of_nat n) as [n ->]
    by (exists (Z.to_nat cnt); lia). clear Hgt.
  induction n as [|n IH]; intros Hj; [reflexivity |].
  rewrite stored_S.
  destruct (Hj (Z.of_nat n) ltac:(lia)) as (H0 & H1 & H2).
  rewrite write3_other.
  - apply IH. intros i Hi. apply Hj. lia.
  - replace (Z.of_nat n + 0 * P) with (Z.of_nat n) by lia. exact H0.
  - replace (Z.of_nat n + 1 * P) with (Z.of_nat n + P) by lia. exact H1.
  - exact H2.
Qed.

(** The slots of a stored individual hold its three values. *)
Lemma stored_lookup (P : Z) t v (cnt i : Z) :
  0 ≤ cnt ≤ P → 3 * P ≤ Z.of_nat (length v) → 0 ≤ i < cnt →
  stored P t v cnt !! Z.to_nat i = Some (t i).1.1
  ∧ stored P t v cnt !! Z.to_nat (i + P) = Some (t i).1.2
  ∧ stored P t v cnt !! Z.to_nat (i + 2 * P) = Some (t i).2.
Proof.
  intros Hcnt Hlen Hi.
  assert (∃ n : nat, cnt = Z.of_nat n) as [n ->]
    by (exists (Z.to_nat cnt); lia).
  induction n as [|n IH]; [lia |].
  rewrite stored_S.
  destruct (Z.eq_dec i (Z.of_nat n)) as [-> | Hne].
  - apply write3_same; [lia | lia |]. rewrite stored_length. lia.
  - destruct IH as (E0 & E1 & E2); [lia | lia |].
    rewrite !write3_other by lia. auto.
Qed.

(** ** Steps of [compute] *)

Ltac mrun :=
  cbv beta iota;
  repeat (rewrite bind_run;
          cbn [get_self get_para get_fitness get_elite self para fitness
               elite out upd];
          cbv beta iota).

(** The step that builds a file name that fits its buffer. *)
Ltac named :=
  rewrite bind_run, file_name_fits, lift_pure
    by (cbn [String.length]; lia);
  cbv beta iota.

Section Steps.

Context `{Collaborators}.

Lemma run_find_force_train x b flag k s pot ds :
  potential (self s) = Some pot →
  at_ (train_set (self s)) b = Some ds →
  potential_find_force x (TrainSet b) flag k s
  = Some (tt, upd s (with_train_set (self s)
                       (<[Z.to_nat b := find_force pot (para s) x ds flag k]>
                          (train_set (self s))))
                  (fitness s)).
Proof.
  intros Hpot Hds. unfold potential_find_force. mrun.
  rewrite (lift_Some _ _ _ Hpot). mrun.
  unfold load_vec. mrun. rewrite (lift_Some _ _ _ Hds).
  unfold store_vec. mrun.
  rewrite (lift_Some _ _ _ (set_at_Some _ _ _ (at_lt _ _ _ Hds))).
  reflexivity.
Qed.

Lemma run_find_force_test x flag k s pot :
  potential (self s) = Some pot →
  potential_find_force x TestSet flag k s
  = Some (tt, upd s (with_test_set (self s)
                       (find_force pot (para s) x (test_set (self s)) flag k))
                  (fitness s)).
Proof.
  intros Hpot. unfold potential_find_force. mrun.
  rewrite (lift_Some _ _ _ Hpot). mrun. reflexivity.
Qed.

Lemma run_load_ds_train b m s v d :
  at_ (train_set (self s)) b = Some v → at_ v m = Some d →
  load_ds (TrainSet b) m s = Some (d, s).
Proof.
  intros Hv Hd. unfold load_ds, load_vec. mrun.
  rewrite (lift_Some _ _ _ Hv). apply lift_Some. exact Hd.
Qed.

Lemma run_load_ds_test m s d :
  at_ (test_set (self s)) m = Some d → load_ds TestSet m s = Some (d, s).
Proof.
  intros Hd. unfold load_ds, load_vec. mrun. apply lift_Some. exact Hd.
Qed.

Lemma run_store_fitness i x s :
  0 ≤ i < Z.of_nat (length (fitness s)) →
  store_fitness i x s
  = Some (tt, upd s (self s) (<[Z.to_nat i := x]> (fitness s))).
Proof.
  intros Hi. unfold store_fitness. mrun.
  rewrite (lift_Some _ _ _ (set_at_Some _ _ _ Hi)). reflexivity.
Qed.

Lemma run_score dc bid n m s v d :
  at_ (train_set (self s)) bid = Some v → at_ v m = Some d →
  0 ≤ dc * n + m → 0 < population_size (para s) →
  dc * n + m + 2 * population_size (para s) < Z.of_nat (length (fitness s)) →
  score dc bid n m s
  = Some (tt, upd s (self s)
                (write3 (population_size (para s)) (fitness s) (dc * n + m)
                   (F32.mul (lambda_e (para s)) (get_rmse_energy d true true m).1,
                    F32.mul (lambda_f (para s)) (get_rmse_force d (para s) true m),
                    F32.mul (lambda_v (para s)) (get_rmse_virial d true m)))).
Proof.
  intros Hv Hd Hi HP Hlen. unfold score. mrun.
  rewrite (run_load_ds_train _ _ _ _ _ Hv Hd). mrun.
  rewrite run_store_fitness by lia. mrun.
  rewrite (run_load_ds_train bid m (upd s _ _) v d Hv Hd). mrun.
  rewrite run_store_fitness by (cbn [fitness upd]; rewrite length_insert; lia).
  mrun.
  rewrite (run_load_ds_train bid m (upd _ _ _) v d Hv Hd). mrun.
  rewrite run_store_fitness
    by (cbn [fitness upd]; rewrite !length_insert; lia).
  reflexivity.
Qed.

End Steps.

(** ** A scoring generation *)

Lemma fit_ok_inv dc f :
  fit_ok dc f = true →
  (∃ pot, potential f = Some pot) ∧ 0 < dc ∧ 0 < num_batches f
  ∧ Z.of_nat (length (train_set f)) = num_batches f
  ∧ (∀ b v, train_set f !! b = Some v → Z.of_nat (length v) = dc)
  ∧ Z.of_nat (length (test_set f)) = dc.
Proof.
  unfold fit_ok. rewrite !andb_true_iff.
  intros (((((Hp & Hdc) & Hnb) & Hlen) & Hall) & Ht).
  apply bool_decide_eq_true in Hp. destruct Hp as [pot Hpot].
  rewrite forallb_forall in Hall.
  repeat split; try lia.
  - exists pot. exact Hpot.
  - intros b v Hv. apply list_elem_of_lookup_2, list_elem_of_In in Hv.
    specialize (Hall v Hv). lia.
Qed.

Lemma mem_eta s : upd s (self s) (fitness s) = s.
Proof. destruct s. reflexivity. Qed.

Lemma with_train_set_id f : with_train_set f (train_set f) = f.
Proof. destruct f. reflexivity. Qed.

Section Scoring.

Context `{Contract}.

Lemma evaluated_length pot p dc pop v n :
  length (evaluated pot p dc pop v n) = length v.
Proof.
  induction n as [|n IH]; cbn [evaluated]; rewrite find_force_length; auto.
Qed.

Lemma before_chunk_length pot p dc pop v n :
  length (before_chunk pot p dc pop v n) = length v.
Proof. destruct n; [reflexivity | apply evaluated_length]. Qed.

Lemma evaluated_step pot p dc pop v n :
  evaluated pot p dc pop v n
  = find_force pot p
      (offset pop (dc * Z.of_nat n * number_of_variables p))
      (before_chunk pot p dc pop v n) false
      (device_in_this_iter (population_size p) dc (Z.of_nat n)).
Proof. destruct n; reflexivity. Qed.

Variables (s0 : Mem) (pot : NEP3) (dc bid : Z) (pop : list float)
          (v0 : list Dataset).

Hypothesis Hpot : potential (self s0) = Some pot.
Hypothesis Hv0 : at_ (train_set (self s0)) bid = Some v0.
Hypothesis Hdc : Z.of_nat (length v0) = dc.
Hypothesis Hdcpos : 0 < dc.
Hypothesis HP : 0 < population_size (para s0).
Hypothesis Hlen : 3 * population_size (para s0) ≤ Z.of_nat (length (fitness s0)).

#[local] Abbreviation P := (population_size (para s0)).
#[local] Abbreviation St := (scoring_state s0 pot dc bid pop v0).

Lemma scoring_state_start : St O 0 = s0.
Proof.
  unfold scoring_state. cbn [before_chunk]. unfold stored.
  rewrite seqZ_nil by lia. cbn [foldl].
  apply at_Some in Hv0 as [_ Hv]. rewrite list_insert_id by exact Hv.
  rewrite with_train_set_id. apply mem_eta.
Qed.

Lemma scoring_state_train n cnt :
  at_ (train_set (self (St n cnt))) bid
  = Some (before_chunk pot (para s0) dc pop v0 n).
Proof.
  unfold scoring_state. cbn [self upd train_set with_train_set].
  pose proof (at_lt _ _ _ Hv0) as Hb.
  apply at_Some. split; [lia |].
  apply list_lookup_insert_eq. lia.
Qed.

Lemma run_score_state (n : nat) (m : Z) :
  0 ≤ m < device_in_this_iter P dc (Z.of_nat n) →
  score dc bid (Z.of_nat n) m (St (S n) (dc * Z.of_nat n + m))
  = Some (tt, St (S n) (dc * Z.of_nat n + m + 1)).
Proof.
  unfold device_in_this_iter. intros Hm.
  assert (0 < dc) as Hpos by lia.
  destruct (at_in_range (before_chunk pot (para s0) dc pop v0 (S n)) m)
    as [d Hd].
  { rewrite before_chunk_length. lia. }
  rewrite (run_score dc bid (Z.of_nat n) m _ _ d (scoring_state_train _ _) Hd).
  - f_equal. f_equal. unfold scoring_state.
    cbn [self para fitness upd]. f_equal.
    rewrite stored_succ by nia. f_equal.
    unfold scores.
    replace ((dc * Z.of_nat n + m) `div` dc) with (Z.of_nat n)
      by (apply (Z.div_unique _ _ _ m); lia).
    replace ((dc * Z.of_nat n + m) `mod` dc) with m
      by (apply (Z.mod_unique _ _ (Z.of_nat n)); lia).
    rewrite Nat2Z.id.
    apply at_Some in Hd as [_ Hd]. cbn [before_chunk] in Hd.
    rewrite (list_lookup_total_correct _ _ _ Hd). reflexivity.
  - nia.
  - exact HP.
  - unfold scoring_state. cbn [para fitness upd].
    rewrite stored_length. nia.
Qed.

Lemma run_chunk_state (n : nat) :
  dc * Z.of_nat n < P →
  chunk dc bid pop (Z.of_nat n) (St n (dc * Z.of_nat n))
  = Some (tt, St (S n) (Z.min P (dc * (Z.of_nat n + 1)))).
Proof.
  intros Hn. unfold chunk. mrun.
  rewrite (run_find_force_train _ _ _ _ (St n (dc * Z.of_nat n)) pot _
             Hpot (scoring_state_train _ _)).
  mrun.
  set (k := device_in_this_iter P dc (Z.of_nat n)).
  assert (0 < k ≤ dc ∧ dc * Z.of_nat n + k = Z.min P (dc * (Z.of_nat n + 1)))
    as [Hk Hend] by (unfold k, device_in_this_iter; lia).
  destruct (for_int_inv 0 k (score dc bid (Z.of_nat n))
              (λ m s, s = St (S n) (dc * Z.of_nat n + m)))
    with (s := St (S n) (dc * Z.of_nat n + 0)) as (s' & E & ->).
  - lia.
  - intros m s Hm ->. eexists. split; [apply run_score_state; exact Hm |].
    f_equal. lia.
  - reflexivity.
  - rewrite <- Hend, <- E. f_equal.
    unfold scoring_state. cbn [self para fitness elite out upd train_set
                                 with_train_set].
    rewrite list_insert_insert_eq, Z.add_0_r.
    change (before_chunk pot (para s0) dc pop v0 (S n))
      with (evaluated pot (para s0) dc pop v0 n).
    rewrite (evaluated_step pot (para s0) dc pop v0 n). reflexivity.
Qed.

Lemma run_chunks (iters : Z) :
  0 ≤ iters → dc * (iters - 1) < P →
  for_int 0 iters (chunk dc bid pop) s0
  = Some (tt, St (Z.to_nat iters) (Z.min P (dc * iters))).
Proof.
  intros Hit Hlast.
  destruct (for_int_inv 0 iters (chunk dc bid pop)
              (λ n s, s = St (Z.to_nat n) (Z.min P (dc * n))))
    with (s := s0) as (s' & E & ->).
  - exact Hit.
  - intros n s Hn ->. eexists. split.
    + replace (Z.min P (dc * n)) with (dc * n) by nia.
      rewrite <- (Z2Nat.id n) at 1 3 by lia.
      apply run_chunk_state. nia.
    + replace (Z.to_nat (n + 1)) with (S (Z.to_nat n)) by lia.
      f_equal. f_equal. lia.
  - rewrite Z.mul_0_r, Z.min_r by lia. symmetry. apply scoring_state_start.
  - exact E.
Qed.

End Scoring.

Section ComputeScoring.

Context `{Contract}.

(** A scoring generation ends, in the state [scoring_state] describes. *)
Lemma compute_scoring dc g pop s0 :
  fit_ok dc (self s0) = true → 0 < g →
  0 < population_size (para s0) →
  3 * population_size (para s0) ≤ Z.of_nat (length (fitness s0)) →
  ∃ pot v0,
    potential (self s0) = Some pot
    ∧ at_ (train_set (self s0)) (g mod num_batches (self s0)) = Some v0
    ∧ Z.of_nat (length v0) = dc
    ∧ compute dc g pop s0
      = Some (tt, scoring_state s0 pot dc (g mod num_batches (self s0)) pop v0
                    (Z.to_nat ((population_size (para s0) - 1) / dc + 1))
                    (population_size (para s0))).
Proof.
  intros Hok Hg HP Hlen.
  destruct (fit_ok_inv _ _ Hok) as ([pot Hpot] & Hdc & Hnb & Hts & Hrow & _).
  set (nb := num_batches (self s0)) in *.
  set (P := population_size (para s0)) in *.
  pose proof (Z.mod_pos_bound g nb Hnb) as Hbid.
  destruct (at_in_range (train_set (self s0)) (g mod nb)) as [v0 Hv0]; [lia |].
  assert (Z.of_nat (length v0) = dc) as Hv0len.
  { apply at_Some in Hv0 as [_ Hv0]. exact (Hrow _ _ Hv0). }
  exists pot, v0. repeat split; try assumption.
  unfold compute. mrun. fold P.
  rewrite (lift_Some _ _ _ (min_population_iter_spec P dc HP Hdc)). mrun.
  destruct (Z.eqb_spec g 0); [lia |].
  assert (batch_id_of g nb = Some (g mod nb)) as Hbatch.
  { unfold batch_id_of, Mach.int_rem. destruct (Z.eqb_spec nb 0); [lia |].
    rewrite Z.rem_mod_nonneg by lia. reflexivity. }
  fold nb. mrun. rewrite (lift_Some _ _ _ Hbatch). mrun.
  pose proof (ceil_bounds P dc HP Hdc) as Hceil.
  pose proof (Z.div_pos (P - 1) dc ltac:(lia) Hdc) as Hq.
  rewrite (run_chunks s0 pot dc (g mod nb) pop v0 Hpot Hv0 Hv0len Hdc HP Hlen)
    by lia.
  f_equal. f_equal. f_equal. fold P. lia.
Qed.

End ComputeScoring.

(** The modelled potential keeps the datasets. *)
Lemma model_contract : @Contract Model.collaborators.
Proof. split; intros; [reflexivity | assumption]. Qed.

(** ** The fitness layout *)

(** The slots of a scoring generation. *)
Lemma compute_slots `{Contract} dc g pop s :
  fit_ok dc (self s) = true → 0 < g →
  0 < population_size (para s) →
  3 * population_size (para s) ≤ Z.of_nat (length (fitness s)) →
  ∃ pot v s',
    potential (self s) = Some pot
    ∧ at_ (train_set (self s)) (g mod num_batches (self s)) = Some v
    ∧ compute dc g pop s = Some (tt, s')
    ∧ length (fitness s') = length (fitness s)
    ∧ (∀ j, 3 * population_size (para s) ≤ j →
            at_ (fitness s') j = at_ (fitness s) j)
    ∧ para s' = para s ∧ elite s' = elite s ∧ out s' = out s
    ∧ ∀ n m, 0 ≤ n →
        0 ≤ m < device_in_this_iter (population_size (para s)) dc n →
        ∃ d, at_ (evaluated pot (para s) dc pop v (Z.to_nat n)) m = Some d
          ∧ at_ (fitness s') (dc * n + m)
            = Some (F32.mul (lambda_e (para s))
                            (get_rmse_energy d true true m).1)
          ∧ at_ (fitness s') (dc * n + m + population_size (para s))
            = Some (F32.mul (lambda_f (para s))
                            (get_rmse_force d (para s) true m))
          ∧ at_ (fitness s') (dc * n + m + 2 * population_size (para s))
            = Some (F32.mul (lambda_v (para s))
                            (get_rmse_virial d true m)).
Proof.
  intros Hok Hg HP Hlen.
  destruct (compute_scoring dc g pop s Hok Hg HP Hlen)
    as (pot & v & Hpot & Hv & Hvlen & E).
  exists pot, v. eexists. split; [exact Hpot |]. split; [exact Hv |].
  split; [exact E |].
  set (P := population_size (para s)) in *.
  unfold scoring_state. cbn [fitness para elite out upd].
  split; [apply stored_length |]. split.
  { intros j Hj. unfold at_. destruct (Z.ltb_spec j 0); [reflexivity |].
    apply stored_frame. intros i Hi. lia. }
  repeat (split; [reflexivity |]).
  intros n m Hn Hm. unfold device_in_this_iter in Hm. fold P in Hm.
  assert (0 < dc) as Hdc by lia.
  destruct (at_in_range (evaluated pot (para s) dc pop v (Z.to_nat n)) m)
    as [d Hd].
  { rewrite evaluated_length. lia. }
  exists d. split; [exact Hd |].
  destruct (stored_lookup P (scores pot (para s) dc pop v) (fitness s) P
              (dc * n + m)) as (E0 & E1 & E2); [lia | lia | nia |].
  assert (scores pot (para s) dc pop v (dc * n + m)
          = (F32.mul (lambda_e (para s)) (get_rmse_energy d true true m).1,
             F32.mul (lambda_f (para s)) (get_rmse_force d (para s) true m),
             F32.mul (lambda_v (para s)) (get_rmse_virial d true m))) as ET.
  { unfold scores.
    replace ((dc * n + m) `div` dc) with n
      by (apply (Z.div_unique _ _ _ m); lia).
    replace ((dc * n + m) `mod` dc) with m
      by (apply (Z.mod_unique _ _ n); lia).
    apply at_Some in Hd as [_ Hd].
    rewrite (list_lookup_total_correct _ _ _ Hd). reflexivity. }
  rewrite ET in E0, E1, E2. cbn [fst snd] in E0, E1, E2.
  repeat split; (apply at_Some; split; [nia | assumption]).
Qed.

(** C1.  In a scoring generation ([generation > 0]) [compute] ends, and for
    the individual of chunk [n] on device [m], of index
    [i = deviceCount * n + m], the [fitness] buffer holds at [i],
    [i + population_size] and [i + 2 * population_size] the products of
    [lambda_e], [lambda_f] and [lambda_v] with the energy, force and virial
    RMSE of the dataset of device [m] of the selected batch, as the potential
    left it when it evaluated chunk [n].  These are the only stores: the
    length of the buffer and everything from [3 * population_size] on are
    unchanged, and so are [para], [elite] and the output. *)
Theorem compute_fitness_components `{Contract} dc g pop s :
  fit_ok dc (self s) = true → 0 < g →
  0 < population_size (para s) →
  3 * population_size (para s) ≤ Z.of_nat (length (fitness s)) →
  ∃ pot v s',
    potential (self s) = Some pot
    ∧ at_ (train_set (self s)) (g mod num_batches (self s)) = Some v
    ∧ compute dc g pop s = Some (tt, s')
    ∧ length (fitness s') = length (fitness s)
    ∧ (∀ j, 3 * population_size (para s) ≤ j →
            at_ (fitness s') j = at_ (fitness s) j)
    ∧ para s' = para s ∧ elite s' = elite s ∧ out s' = out s
    ∧ ∀ n m, 0 ≤ n →
        0 ≤ m < device_in_this_iter (population_size (para s)) dc n →
        ∃ d, at_ (evaluated pot (para s) dc pop v (Z.to_nat n)) m = Some d
          ∧ at_ (fitness s') (dc * n + m)
            = Some (F32.mul (lambda_e (para s))
                            (get_rmse_energy d true true m).1)
          ∧ at_ (fitness s') (dc * n + m + population_size (para s))
            = Some (F32.mul (lambda_f (para s))
                            (get_rmse_force d (para s) true m))
          ∧ at_ (fitness s') (dc * n + m + 2 * population_size (para s))
            = Some (F32.mul (lambda_v (para s))
                            (get_rmse_virial d true m)).
Proof. exact (compute_slots dc g pop s). Qed.

Lemma compute_fitness_components_witness :
  ∃ pot v s',
    potential (self Example.mem_exact) = Some pot
    ∧ at_ (train_set (self Example.mem_exact))
          (1 mod num_batches (self Example.mem_exact)) = Some v
    ∧ compute (H := Model.collaborators) 1 1 Example.population
        Example.mem_exact = Some (tt, s')
    ∧ length (fitness s') = length (fitness Example.mem_exact)
    ∧ (∀ j, 3 * population_size (para Example.mem_exact) ≤ j →
            at_ (fitness s') j = at_ (fitness Example.mem_exact) j)
    ∧ para s' = para Example.mem_exact ∧ elite s' = elite Example.mem_exact
    ∧ out s' = out Example.mem_exact
    ∧ ∀ n m, 0 ≤ n →
        0 ≤ m < device_in_this_iter
                  (population_size (para Example.mem_exact)) 1 n →
        ∃ d, at_ (evaluated (H := Model.collaborators) pot
                    (para Example.mem_exact) 1 Example.population v
                    (Z.to_nat n)) m = Some d
          ∧ at_ (fitness s') (1 * n + m)
            = Some (F32.mul (lambda_e (para Example.mem_exact))
                            (Model.rmse_energy d true true m).1)
          ∧ at_ (fitness s')
                (1 * n + m + population_size (para Example.mem_exact))
            = Some (F32.mul (lambda_f (para Example.mem_exact))
                            (Model.rmse_force d (para Example.mem_exact)
                               true m))
          ∧ at_ (fitness s')
                (1 * n + m + 2 * population_size (para Example.mem_exact))
            = Some (F32.mul (lambda_v (para Example.mem_exact))
                            (Model.rmse_virial d true m)).
Proof.
  apply (compute_fitness_components (H0 := model_contract) 1 1
           Example.population Example.mem_exact);
    [reflexivity | lia | reflexivity | vm_compute; discriminate].
Defined.

(** ** The dispatch of the population *)

Lemma stored_dispatch (P dc iters : Z) t v :
  0 ≤ P → 0 ≤ dc → 0 ≤ iters → P ≤ dc * iters →
  stored P t v P
  = foldl (λ buf x, write3 P buf x.2 (t x.2)) v (dispatch P dc iters).
Proof.
  intros HP Hdc Hit Hle. unfold stored.
  rewrite <- (dispatch_individuals P dc iters HP Hdc Hit Hle).
  rewrite foldl_fmap. reflexivity.
Qed.

(** C3.  In a scoring generation the population is gone through in
    [ceil (population_size / deviceCount)] chunks, one after the other;
    chunk [n] gives individual [deviceCount * n + d] to device [d], for [d]
    from [0] to [min deviceCount (population_size - deviceCount * n)]
    excluded; the individuals so dispatched are [0], [1], ...,
    [population_size - 1], each of them once, and they are the ones
    [compute] stores the values of. *)
Theorem dispatch_covers_population `{Contract} dc g pop s :
  fit_ok dc (self s) = true → 0 < g →
  0 < population_size (para s) →
  3 * population_size (para s) ≤ Z.of_nat (length (fitness s)) →
  ∃ iters pot v s',
    min_population_iter (population_size (para s)) dc = Some iters
    ∧ dc * (iters - 1) < population_size (para s) ≤ dc * iters
    ∧ (∀ n m i,
         (n, m, i) ∈ dispatch (population_size (para s)) dc iters ↔
         0 ≤ n < iters
         ∧ 0 ≤ m < Z.min dc (population_size (para s) - dc * n)
         ∧ i = dc * n + m)
    ∧ (λ x, x.2) <$> dispatch (population_size (para s)) dc iters
      = seqZ 0 (population_size (para s))
    ∧ potential (self s) = Some pot
    ∧ at_ (train_set (self s)) (g mod num_batches (self s)) = Some v
    ∧ compute dc g pop s = Some (tt, s')
    ∧ fitness s'
      = foldl (λ buf x,
                 write3 (population_size (para s)) buf x.2
                   (scores pot (para s) dc pop v x.2))
              (fitness s) (dispatch (population_size (para s)) dc iters).
Proof.
  intros Hok Hg HP Hlen.
  destruct (compute_scoring dc g pop s Hok Hg HP Hlen)
    as (pot & v & Hpot & Hv & Hvlen & E).
  destruct (fit_ok_inv _ _ Hok) as (_ & Hdc & _).
  set (P := population_size (para s)) in *.
  pose proof (ceil_bounds P dc HP Hdc) as Hceil.
  pose proof (Z.div_pos (P - 1) dc ltac:(lia) Hdc) as Hq.
  exists ((P - 1) / dc + 1), pot, v. eexists.
  split; [apply min_population_iter_spec; assumption |].
  split; [lia |].
  split; [intros n m i; apply elem_of_dispatch |].
  split; [apply dispatch_individuals; lia |].
  split; [exact Hpot |]. split; [exact Hv |]. split; [exact E |].
  unfold scoring_state. cbn [fitness upd]. fold P.
  apply stored_dispatch; lia.
Qed.

Lemma dispatch_covers_population_witness :
  ∃ iters pot v s',
    min_population_iter 3 1 = Some iters
    ∧ 1 * (iters - 1) < 3 ≤ 1 * iters
    ∧ (∀ n m i,
         (n, m, i) ∈ dispatch 3 1 iters ↔
         0 ≤ n < iters ∧ 0 ≤ m < Z.min 1 (3 - 1 * n) ∧ i = 1 * n + m)
    ∧ (λ x, x.2) <$> dispatch 3 1 iters = seqZ 0 3
    ∧ potential (self Example.mem_exact) = Some pot
    ∧ at_ (train_set (self Example.mem_exact))
          (1 mod num_batches (self Example.mem_exact)) = Some v
    ∧ compute (H := Model.collaborators) 1 1 Example.population
        Example.mem_exact = Some (tt, s')
    ∧ fitness s'
      = foldl (λ buf x,
                 write3 3 buf x.2
                   (scores (H := Model.collaborators) pot
                      (para Example.mem_exact) 1 Example.population v x.2))
              (fitness Example.mem_exact) (dispatch 3 1 iters).
Proof.
  apply (dispatch_covers_population (H0 := model_contract) 1 1
           Example.population Example.mem_exact);
    [reflexivity | lia | reflexivity | vm_compute; discriminate].
Defined.

(** ** The rotation of the batches *)

Lemma batch_id_of_spec (g nb : Z) :
  0 ≤ g → 0 < nb → batch_id_of g nb = Some (g mod nb).
Proof.
  intros Hg Hnb. unfold batch_id_of, Mach.int_rem.
  destruct (Z.eqb_spec nb 0); [lia |].
  rewrite Z.rem_mod_nonneg by lia. reflexivity.
Qed.

(** C4.  For a generation [g > 0] the batch scored is
    [g mod num_batches], a function of [g] and [num_batches] alone:
    [compute] hands the datasets of that batch to the potential, chunk after
    chunk, and leaves them as the potential leaves them; the values it
    stores in [fitness] are the errors of those datasets; the test set and
    the other batches are left as they are.  The batch is the same for [g]
    and [g + num_batches], and so is what [compute] does; among any
    [num_batches] generations in a row every batch is the selected one
    exactly once. *)
Theorem batch_rotation `{Contract} dc g pop s :
  fit_ok dc (self s) = true → 0 < g →
  0 < population_size (para s) →
  3 * population_size (para s) ≤ Z.of_nat (length (fitness s)) →
  ∃ pot v s',
    potential (self s) = Some pot
    ∧ batch_id_of g (num_batches (self s)) = Some (g mod num_batches (self s))
    ∧ at_ (train_set (self s)) (g mod num_batches (self s)) = Some v
    ∧ compute dc g pop s = Some (tt, s')
    ∧ at_ (train_set (self s')) (g mod num_batches (self s))
      = Some (evaluated pot (para s) dc pop v
                (Z.to_nat ((population_size (para s) - 1) / dc)))
    ∧ fitness s'
      = stored (population_size (para s))
          (scores pot (para s) dc pop v) (fitness s)
          (population_size (para s))
    ∧ num_batches (self s') = num_batches (self s)
    ∧ test_set (self s') = test_set (self s)
    ∧ (∀ b, b ≠ g mod num_batches (self s) →
            at_ (train_set (self s')) b = at_ (train_set (self s)) b)
    ∧ batch_id_of (g + num_batches (self s)) (num_batches (self s))
      = batch_id_of g (num_batches (self s))
    ∧ compute dc (g + num_batches (self s)) pop s = compute dc g pop s
    ∧ (∀ g0 b, 0 < g0 → 0 ≤ b < num_batches (self s) →
         ∃ g1, g0 ≤ g1 < g0 + num_batches (self s)
           ∧ batch_id_of g1 (num_batches (self s)) = Some b
           ∧ ∀ g2, g0 ≤ g2 < g0 + num_batches (self s) →
                   batch_id_of g2 (num_batches (self s)) = Some b → g2 = g1).
Proof.
  intros Hok Hg HP Hlen.
  destruct (fit_ok_inv _ _ Hok) as (_ & Hdc & Hnb & Hts & _).
  set (nb := num_batches (self s)) in *.
  pose proof (Z.mod_pos_bound g nb Hnb) as Hbid.
  assert ((g + nb) mod nb = g mod nb) as Hper.
  { rewrite <- (Z.mul_1_l nb) at 1. apply Z.mod_add. lia. }
  destruct (compute_scoring dc g pop s Hok Hg HP Hlen)
    as (pot & v & Hpot & Hv & Hvlen & E).
  destruct (compute_scoring dc (g + nb) pop s Hok ltac:(lia) HP Hlen)
    as (pot' & v' & Hpot' & Hv' & _ & E').
  fold nb in Hv, E, Hv', E'. rewrite Hper in Hv', E'.
  assert (pot' = pot) as -> by congruence.
  assert (v' = v) as -> by congruence.
  exists pot, v. eexists.
  split; [exact Hpot |].
  split; [apply batch_id_of_spec; lia |].
  split; [exact Hv |]. split; [exact E |].
  unfold scoring_state.
  cbn [self fitness upd num_batches test_set train_set with_train_set].
  split.
  { apply at_Some. split; [lia |].
    rewrite list_lookup_insert_eq by lia.
    assert (0 ≤ (population_size (para s) - 1) / dc)
      by (apply Z.div_pos; lia).
    replace (Z.to_nat ((population_size (para s) - 1) / dc + 1))
      with (S (Z.to_nat ((population_size (para s) - 1) / dc))) by lia.
    reflexivity. }
  split; [reflexivity |]. split; [reflexivity |]. split; [reflexivity |].
  split.
  { intros b Hb. unfold at_. destruct (Z.ltb_spec b 0); [reflexivity |].
    apply list_lookup_insert_ne. lia. }
  split; [rewrite !batch_id_of_spec by lia; f_equal; exact Hper |].
  split; [rewrite E, E'; reflexivity |].
  intros g0 b Hg0 Hb.
  exists (g0 + (b - g0) mod nb).
  pose proof (Z.mod_pos_bound (b - g0) nb Hnb) as Hr.
  assert ((g0 + (b - g0) mod nb) mod nb = b) as Hmod.
  { rewrite Zplus_mod_idemp_r. replace (g0 + (b - g0)) with b by lia.
    apply Z.mod_small. lia. }
  split; [lia |]. split; [rewrite batch_id_of_spec by lia; congruence |].
  intros g2 Hg2 E2. rewrite batch_id_of_spec in E2 by lia.
  injection E2 as E2.
  assert ((g2 - (g0 + (b - g0) mod nb)) mod nb = 0) as Hz.
  { rewrite Zminus_mod, E2, Hmod, Z.sub_diag. apply Z.mod_0_l. lia. }
  apply Z.mod_divide in Hz; [| lia]. destruct Hz as [k Hk].
  assert (k = 0) as -> by nia. lia.
Qed.

Lemma batch_rotation_witness :
  ∃ pot v s',
    potential (self (Example.mem_two 1)) = Some pot
    ∧ batch_id_of 3 (num_batches (self (Example.mem_two 1)))
      = Some (3 mod num_batches (self (Example.mem_two 1)))
    ∧ at_ (train_set (self (Example.mem_two 1)))
          (3 mod num_batches (self (Example.mem_two 1))) = Some v
    ∧ compute (H := Model.collaborators) 1 3 Example.population
        (Example.mem_two 1) = Some (tt, s')
    ∧ at_ (train_set (self s'))
          (3 mod num_batches (self (Example.mem_two 1)))
      = Some (evaluated (H := Model.collaborators) pot
                (para (Example.mem_two 1)) 1 Example.population v
                (Z.to_nat ((population_size (para (Example.mem_two 1)) - 1)
                           / 1)))
    ∧ fitness s'
      = stored (population_size (para (Example.mem_two 1)))
          (scores (H := Model.collaborators) pot (para (Example.mem_two 1))
             1 Example.population v)
          (fitness (Example.mem_two 1))
          (population_size (para (Example.mem_two 1)))
    ∧ num_batches (self s') = num_batches (self (Example.mem_two 1))
    ∧ test_set (self s') = test_set (self (Example.mem_two 1))
    ∧ (∀ b, b ≠ 3 mod num_batches (self (Example.mem_two 1)) →
            at_ (train_set (self s')) b
            = at_ (train_set (self (Example.mem_two 1))) b)
    ∧ batch_id_of (3 + num_batches (self (Example.mem_two 1)))
        (num_batches (self (Example.mem_two 1)))
      = batch_id_of 3 (num_batches (self (Example.mem_two 1)))
    ∧ compute (H := Model.collaborators)
        1 (3 + num_batches (self (Example.mem_two 1))) Example.population
        (Example.mem_two 1)
      = compute (H := Model.collaborators) 1 3 Example.population
          (Example.mem_two 1)
    ∧ (∀ g0 b, 0 < g0 → 0 ≤ b < num_batches (self (Example.mem_two 1)) →
         ∃ g1, g0 ≤ g1 < g0 + num_batches (self (Example.mem_two 1))
           ∧ batch_id_of g1 (num_batches (self (Example.mem_two 1))) = Some b
           ∧ ∀ g2, g0 ≤ g2 < g0 + num_batches (self (Example.mem_two 1)) →
                   batch_id_of g2 (num_batches (self (Example.mem_two 1)))
                   = Some b → g2 = g1).
Proof.
  apply (batch_rotation (H0 := model_contract) 1 3
           Example.population (Example.mem_two 1));
    [reflexivity | lia | reflexivity | vm_compute; discriminate].
Defined.

(** ** The warm-up generation *)

Lemma insert_take_drop {A} (f : A → A) (l : list A) (n : nat) (x : A) :
  l !! n = Some x →
  <[n := f x]> (take n (f <$> l) ++ drop n l)
  = take (S n) (f <$> l) ++ drop (S n) l.
Proof.
  intros Hx.
  assert (length (take n (f <$> l)) = n) as Hlen.
  { rewrite length_take, length_fmap. apply lookup_lt_Some in Hx. lia. }
  rewrite insert_app_r_alt by lia. rewrite Hlen, Nat.sub_diag.
  rewrite (drop_S l x n Hx). cbn [list_insert insert].
  rewrite (take_S_r (f <$> l) n (f x)).
  - rewrite <- app_assoc. reflexivity.
  - rewrite list_lookup_fmap, Hx. reflexivity.
Qed.

Section WarmUp.

Context `{Collaborators}.

Lemma run_warm_up s pot dc :
  potential (self s) = Some pot →
  for_int 0 (Z.of_nat (length (train_set (self s)))) (λ n,
    potential_find_force (all_ones (para s)) (TrainSet n) true dc;;
    potential_find_force (all_ones (para s)) TestSet true 1) s
  = Some (tt, upd s
                (with_test_set
                   (with_train_set (self s)
                      (warm_train pot (para s) dc <$> train_set (self s)))
                   (warm_test pot (para s) (test_set (self s))
                      (length (train_set (self s)))))
                (fitness s)).
Proof.
  intros Hpot.
  set (ts := train_set (self s)). set (p := para s).
  set (W := λ i : Z,
         upd s
           (with_test_set
              (with_train_set (self s)
                 (take (Z.to_nat i) (warm_train pot p dc <$> ts)
                  ++ drop (Z.to_nat i) ts))
              (warm_test pot p (test_set (self s)) (Z.to_nat i)))
           (fitness s)).
  destruct (for_int_inv 0 (Z.of_nat (length ts))
              (λ n, potential_find_force (all_ones p) (TrainSet n) true dc;;
                    potential_find_force (all_ones p) TestSet true 1)
              (λ i s', s' = W i)) with (s := s) as (s' & E & ->).
  - lia.
  - intros n s1 Hn ->.
    destruct (lookup_lt_is_Some_2 ts (Z.to_nat n)) as [v Hv]; [lia |].
    assert (at_ (train_set (self (W n))) n = Some v) as Hat.
    { apply at_Some. split; [lia |]. unfold W.
      cbn [self upd train_set with_train_set with_test_set].
      rewrite lookup_app_r by (rewrite length_take, length_fmap; lia).
      rewrite length_take, length_fmap, lookup_drop.
      rewrite <- Hv. f_equal. lia. }
    eexists. split.
    + mrun.
      rewrite (run_find_force_train _ _ _ _ (W n) pot v Hpot Hat). mrun.
      rewrite (run_find_force_test _ _ _ _ pot) by exact Hpot.
      reflexivity.
    + unfold W. cbn [self para fitness upd train_set test_set
                       with_train_set with_test_set].
      replace (Z.to_nat (n + 1)) with (S (Z.to_nat n)) by lia.
      fold p. rewrite <- (insert_take_drop _ _ _ _ Hv). reflexivity.
  - unfold W. cbn [Z.to_nat take drop app warm_test].
    rewrite with_train_set_id. destruct s as [f ? ? ? ?]. destruct f.
    reflexivity.
  - rewrite E. unfold W. rewrite Nat2Z.id.
    rewrite take_ge by (rewrite length_fmap; lia).
    rewrite drop_ge by lia. rewrite app_nil_r. reflexivity.
Qed.

(** C5.  At [generation == 0], for a [number_of_variables] that is the
    length of a vector (not negative), [compute] ends; the vector it
    evaluates has [number_of_variables] entries, all of them [1.0f]; every
    training batch is handed to the potential with this vector, the warm-up
    flag set and all devices, and so is the test set, on one device, once
    per batch; nothing is stored into the [fitness] buffer, which is left as
    it was, as are [para], [elite] and the output. *)
Theorem warm_up_leaves_fitness dc pop s :
  fit_ok dc (self s) = true → 0 ≤ number_of_variables (para s) →
  ∃ pot s',
    potential (self s) = Some pot
    ∧ compute dc 0 pop s = Some (tt, s')
    ∧ fitness s' = fitness s
    ∧ para s' = para s ∧ elite s' = elite s ∧ out s' = out s
    ∧ new_vector (number_of_variables (para s)) F32.one
      = Some (all_ones (para s))
    ∧ Z.of_nat (length (all_ones (para s))) = number_of_variables (para s)
    ∧ (∀ x, x ∈ all_ones (para s) → x = F32.one)
    ∧ train_set (self s')
      = (λ v, find_force pot (para s) (all_ones (para s)) v true dc)
          <$> train_set (self s)
    ∧ 0 < num_batches (self s)
    ∧ test_set (self s')
      = warm_test pot (para s) (test_set (self s))
          (Z.to_nat (num_batches (self s))).
Proof.
  intros Hok Hnv.
  destruct (fit_ok_inv _ _ Hok) as ([pot Hpot] & Hdc & Hnb & Hts & _).
  exists pot. eexists. split; [exact Hpot |]. split.
  { unfold compute. mrun.
    unfold min_population_iter, Mach.int_div.
    destruct (Z.eqb_spec dc 0); [lia |]. cbn [mbind option_bind lift]. mrun.
    cbn [Z.eqb]. rewrite (new_vector_Some _ _ Hnv), bind_run, lift_pure.
    cbv beta iota.
    rewrite <- Hts. apply (run_warm_up s pot dc Hpot). }
  cbn [fitness para elite out self upd train_set test_set with_train_set
       with_test_set].
  repeat (split; [reflexivity |]).
  split; [apply new_vector_Some; exact Hnv |].
  split; [unfold all_ones; rewrite length_replicate; lia |].
  split; [intros x Hx; unfold all_ones in Hx;
          apply elem_of_replicate in Hx as [-> _]; reflexivity |].
  split; [reflexivity |]. split; [exact Hnb |].
  rewrite <- Hts, Nat2Z.id. reflexivity.
Qed.

End WarmUp.

Lemma warm_up_leaves_fitness_witness :
  ∃ pot s',
    potential (self Example.mem_exact) = Some pot
    ∧ compute (H := Model.collaborators) 1 0 Example.population
        Example.mem_exact = Some (tt, s')
    ∧ fitness s' = fitness Example.mem_exact
    ∧ para s' = para Example.mem_exact ∧ elite s' = elite Example.mem_exact
    ∧ out s' = out Example.mem_exact
    ∧ new_vector (number_of_variables (para Example.mem_exact)) F32.one
      = Some (all_ones (para Example.mem_exact))
    ∧ Z.of_nat (length (all_ones (para Example.mem_exact)))
      = number_of_variables (para Example.mem_exact)
    ∧ (∀ x, x ∈ all_ones (para Example.mem_exact) → x = F32.one)
    ∧ train_set (self s')
      = (λ v, Model.keep pot (para Example.mem_exact)
                (all_ones (para Example.mem_exact)) v true 1)
          <$> train_set (self Example.mem_exact)
    ∧ 0 < num_batches (self Example.mem_exact)
    ∧ test_set (self s')
      = warm_test (H := Model.collaborators) pot (para Example.mem_exact)
          (test_set (self Example.mem_exact))
          (Z.to_nat (num_batches (self Example.mem_exact))).
Proof.
  apply (warm_up_leaves_fitness (H := Model.collaborators) 1
           Example.population Example.mem_exact);
    [reflexivity | vm_compute; discriminate].
Defined.

(** ** The energy and virial dumps *)

Lemma emitted_nil s : emitted s [] = s.
Proof. destruct s. unfold emitted. cbn. rewrite app_nil_r. reflexivity. Qed.

Lemma emitted_app s a b : emitted (emitted s a) b = emitted s (a ++ b).
Proof. unfold emitted. cbn. rewrite app_assoc. reflexivity. Qed.

Lemma run_emit e s : emit e s = Some (tt, emitted s [e]).
Proof. reflexivity. Qed.

Lemma sum_atoms_spec (data : list float) (off na : Z) :
  0 ≤ off → 0 ≤ na → off + na ≤ Z.of_nat (length data) →
  sum_atoms data off na = Some (structure_sum data off na).
Proof.
  intros Hoff Hna Hlen.
  assert (∃ n : nat, na = Z.of_nat n) as [n ->]
    by (exists (Z.to_nat na); lia). clear Hna.
  unfold sum_atoms, structure_sum. rewrite Nat2Z.id.
  induction n as [|n IH]; [reflexivity |].
  rewrite seqZ_S, foldl_snoc, IH by lia. cbn [mbind option_bind].
  destruct (lookup_lt_is_Some_2 data (Z.to_nat off + n)) as [x Hx]; [lia |].
  assert (at_ data (off + (0 + Z.of_nat n)) = Some x) as ->.
  { apply at_Some. split; [lia |]. rewrite <- Hx. f_equal. lia. }
  cbn [mbind option_bind]. f_equal.
  rewrite (take_S_r _ n x) by (rewrite lookup_drop; exact Hx).
  rewrite foldl_snoc. reflexivity.
Qed.

Lemma tables_ok_inv d size :
  tables_ok d size = true →
  0 ≤ Nc d
  ∧ Z.of_nat (length (Na_cpu d)) = Nc d
  ∧ Z.of_nat (length (Na_sum_cpu d)) = Nc d
  ∧ ∀ nc off na, Na_sum_cpu d !! nc = Some off → Na_cpu d !! nc = Some na →
                 0 ≤ off ∧ 0 ≤ na ∧ off + na ≤ size.
Proof.
  unfold tables_ok. rewrite !andb_true_iff.
  intros (((H0 & H1) & H2) & Hall).
  split; [lia |]. split; [lia |]. split; [lia |].
  intros nc off na Hoff Hna.
  rewrite forallb_forall in Hall.
  assert (In (off, na) (zip (Na_sum_cpu d) (Na_cpu d))) as Hin.
  { apply list_elem_of_In, (list_elem_of_lookup_2 _ nc).
    rewrite lookup_zip_with, Hoff. cbn. rewrite Hna. reflexivity. }
  specialize (Hall _ Hin). cbn [fst snd] in Hall.
  rewrite !andb_true_iff in Hall. lia.
Qed.

Lemma dump_lines_lookup fid d data ref (nc : nat) off na r :
  Na_sum_cpu d !! nc = Some off → Na_cpu d !! nc = Some na →
  ref !! nc = Some r → (nc < Z.to_nat (Nc d))%nat →
  dump_lines fid d data ref !! nc
  = Some (Fprintf fid "%g %g\n"
            [AFloat (F32.div (structure_sum data off na) (F32.of_int na));
             AFloat r]).
Proof.
  intros Hoff Hna Hr Hnc. unfold dump_lines, per_structure.
  rewrite !lookup_zip_with, Hoff. cbn [mbind option_bind].
  rewrite Hna. cbn [mbind option_bind].
  rewrite lookup_take_lt by exact Hnc. rewrite Hr. reflexivity.
Qed.

Lemma dump_lines_length fid d data ref :
  Z.of_nat (length (Na_cpu d)) = Nc d →
  Z.of_nat (length (Na_sum_cpu d)) = Nc d →
  Nc d ≤ Z.of_nat (length ref) →
  Z.of_nat (length (dump_lines fid d data ref)) = Nc d.
Proof.
  intros H1 H2 H3. unfold dump_lines, per_structure.
  rewrite !length_zip_with, length_take. lia.
Qed.

Lemma run_predict fid data ref d s :
  tables_ok d (Z.of_nat (length data)) = true →
  Nc d ≤ Z.of_nat (length ref) →
  predict_energy_or_stress fid data ref d s
  = Some (tt, emitted s (dump_lines fid d data ref)).
Proof.
  intros Hok Href.
  destruct (tables_ok_inv _ _ Hok) as (HNc & HNa & HNs & Hin).
  pose proof (dump_lines_length fid d data ref HNa HNs Href) as Hlen.
  unfold predict_energy_or_stress.
  match goal with |- for_int 0 _ ?b _ = _ => set (body := b) end.
  destruct (for_int_inv 0 (Nc d) body
              (λ nc s', s' = emitted s (take (Z.to_nat nc)
                                          (dump_lines fid d data ref))))
    with (s := s) as (s' & E & ->).
  - exact HNc.
  - intros nc s1 Hnc ->.
    destruct (lookup_lt_is_Some_2 (Na_sum_cpu d) (Z.to_nat nc)) as [off Hoff];
      [lia |].
    destruct (lookup_lt_is_Some_2 (Na_cpu d) (Z.to_nat nc)) as [na Hna];
      [lia |].
    destruct (lookup_lt_is_Some_2 ref (Z.to_nat nc)) as [r Hr]; [lia |].
    destruct (Hin _ _ _ Hoff Hna) as (Hoff0 & Hna0 & Hfit).
    eexists. split.
    + unfold body. mrun.
      rewrite (lift_Some _ _ _ (proj2 (at_Some _ _ _) (conj (proj1 Hnc) Hoff))).
      mrun.
      rewrite (lift_Some _ _ _ (proj2 (at_Some _ _ _) (conj (proj1 Hnc) Hna))).
      mrun.
      rewrite (lift_Some _ _ _ (sum_atoms_spec data off na Hoff0 Hna0 Hfit)).
      mrun.
      rewrite (lift_Some _ _ _ (proj2 (at_Some _ _ _) (conj (proj1 Hnc) Hr))).
      mrun. rewrite run_emit. reflexivity.
    + rewrite emitted_app. f_equal.
      replace (Z.to_nat (nc + 1)) with (S (Z.to_nat nc)) by lia.
      symmetry. apply take_S_r.
      apply dump_lines_lookup; [assumption .. | lia].
  - cbn [Z.to_nat take]. symmetry. apply emitted_nil.
  - rewrite E, take_ge by lia. reflexivity.
Qed.

(** C10.  [predict_energy_or_stress] ends and writes one line per structure
    of the dataset, in the order of the structures; the line of structure
    [nc] holds the sum of [data] over the [Na_cpu[nc]] atoms that start at
    [Na_sum_cpu[nc]], divided by [Na_cpu[nc]], and then [ref[nc]] as it is
    stored; nothing else changes. *)
Theorem predict_energy_or_stress_lines fid data ref d s :
  tables_ok d (Z.of_nat (length data)) = true →
  Nc d ≤ Z.of_nat (length ref) →
  ∃ lines,
    predict_energy_or_stress fid data ref d s = Some (tt, emitted s lines)
    ∧ Z.of_nat (length lines) = Nc d
    ∧ ∀ nc, 0 ≤ nc < Nc d →
        ∃ off na r,
          at_ (Na_sum_cpu d) nc = Some off ∧ at_ (Na_cpu d) nc = Some na
          ∧ at_ ref nc = Some r
          ∧ at_ lines nc
            = Some (Fprintf fid "%g %g\n"
                      [AFloat (F32.div
                                 (foldl F32.add F32.zero
                                    (take (Z.to_nat na)
                                       (drop (Z.to_nat off) data)))
                                 (F32.of_int na));
                       AFloat r]).
Proof.
  intros Hok Href.
  destruct (tables_ok_inv _ _ Hok) as (HNc & HNa & HNs & Hin).
  exists (dump_lines fid d data ref).
  split; [apply run_predict; assumption |].
  split; [apply dump_lines_length; assumption |].
  intros nc Hnc.
  destruct (lookup_lt_is_Some_2 (Na_sum_cpu d) (Z.to_nat nc)) as [off Hoff];
    [lia |].
  destruct (lookup_lt_is_Some_2 (Na_cpu d) (Z.to_nat nc)) as [na Hna]; [lia |].
  destruct (lookup_lt_is_Some_2 ref (Z.to_nat nc)) as [r Hr]; [lia |].
  exists off, na, r.
  repeat split; try (apply at_Some; split; [lia | assumption]).
  apply at_Some. split; [lia |].
  apply dump_lines_lookup; [assumption .. | lia].
Qed.

Lemma predict_energy_or_stress_lines_witness :
  ∃ lines,
    predict_energy_or_stress "energy_test.out" (energy Example.exact)
      (energy_ref_cpu Example.exact) Example.exact Example.mem_exact
    = Some (tt, emitted Example.mem_exact lines)
    ∧ Z.of_nat (length lines) = Nc Example.exact
    ∧ ∀ nc, 0 ≤ nc < Nc Example.exact →
        ∃ off na r,
          at_ (Na_sum_cpu Example.exact) nc = Some off
          ∧ at_ (Na_cpu Example.exact) nc = Some na
          ∧ at_ (energy_ref_cpu Example.exact) nc = Some r
          ∧ at_ lines nc
            = Some (Fprintf "energy_test.out" "%g %g\n"
                      [AFloat (F32.div
                                 (foldl F32.add F32.zero
                                    (take (Z.to_nat na)
                                       (drop (Z.to_nat off)
                                          (energy Example.exact))))
                                 (F32.of_int na));
                       AFloat r]).
Proof.
  apply (predict_energy_or_stress_lines "energy_test.out"
           (energy Example.exact) (energy_ref_cpu Example.exact)
           Example.exact Example.mem_exact);
    [reflexivity | vm_compute; discriminate].
Defined.

(** ** Shapes *)

Lemma ds_ok_inv q d :
  ds_ok q d = true →
  0 ≤ N d ∧ 0 ≤ Nc d
  ∧ Z.of_nat (length (Na_cpu d)) = Nc d
  ∧ Z.of_nat (length (Na_sum_cpu d)) = Nc d
  ∧ Z.of_nat (length (structures d)) = Nc d
  ∧ (∀ nc off na st,
       Na_sum_cpu d !! nc = Some off → Na_cpu d !! nc = Some na →
       structures d !! nc = Some st →
       0 ≤ off ∧ 0 ≤ na ∧ off + na ≤ N d
       ∧ 0 ≤ num_atom st ∧ off + num_atom st ≤ N d)
  ∧ Z.of_nat (length (energy d)) = N d
  ∧ Z.of_nat (length (energy_cpu d)) = N d
  ∧ Z.of_nat (length (virial d)) = 6 * N d
  ∧ Z.of_nat (length (virial_cpu d)) = 6 * N d
  ∧ Z.of_nat (length (force d)) = 3 * N d
  ∧ Z.of_nat (length (force_cpu d)) = 3 * N d
  ∧ Z.of_nat (length (energy_ref_cpu d)) = Nc d
  ∧ Z.of_nat (length (virial_ref_cpu d)) = 6 * Nc d
  ∧ Z.of_nat (length (force_ref_cpu d)) = 3 * N d
  ∧ (length (q_scaler_gpu d) ≤ q)%nat.
Proof.
  unfold ds_ok. rewrite !andb_true_iff.
  intros (((((((((((((((H1 & H2) & H3) & H4) & H5) & Hall) & H6) & H7) & H8)
                  & H9) & H10) & H11) & H12) & H13) & H14) & H15).
  apply Nat.leb_le in H15.
  repeat (split; [lia |]). split; [| repeat (split; [lia |]); exact H15].
  intros nc off na st Hoff Hna Hst.
  rewrite forallb_forall in Hall.
  assert (In (off, na, st)
            (zip (zip (Na_sum_cpu d) (Na_cpu d)) (structures d))) as Hin.
  { apply list_elem_of_In, (list_elem_of_lookup_2 _ nc).
    rewrite !lookup_zip_with, Hoff. cbn. rewrite Hna. cbn. rewrite Hst.
    reflexivity. }
  specialize (Hall _ Hin). unfold structure_ok in Hall.
  rewrite !andb_true_iff in Hall. lia.
Qed.

Lemma ds_ok_tables q d size :
  ds_ok q d = true → N d ≤ size → tables_ok d size = true.
Proof.
  intros Hok Hsize.
  destruct (ds_ok_inv _ _ Hok) as (HN & HNc & HNa & HNs & HSt & Hin & _).
  unfold tables_ok. rewrite !andb_true_iff.
  repeat split; try lia.
  apply forallb_forall. intros [off na] Hx.
  apply list_elem_of_In, list_elem_of_lookup_1 in Hx as [nc Hx].
  apply lookup_zip_with_Some in Hx as (off' & na' & E & Hoff & Hna).
  injection E as <- <-.
  destruct (lookup_lt_is_Some_2 (structures d) nc) as [st Hst].
  { apply lookup_lt_Some in Hoff. lia. }
  destruct (Hin _ _ _ _ Hoff Hna Hst) as (? & ? & ? & _).
  cbn [fst snd]. rewrite !andb_true_iff. lia.
Qed.

Lemma ds_ok_with_host q d :
  ds_ok q d = true →
  ds_ok q (with_host d (energy d) (virial d) (force d)) = true.
Proof.
  intros Hok. pose proof (ds_ok_inv _ _ Hok) as Hinv.
  unfold ds_ok in *. cbn [with_host N Nc Na_cpu Na_sum_cpu structures energy
    virial force energy_cpu virial_cpu force_cpu energy_ref_cpu
    virial_ref_cpu force_ref_cpu q_scaler_gpu].
  rewrite !andb_true_iff in *.
  destruct Hok as (((((((((((((((H1 & H2) & H3) & H4) & H5) & Hall) & H6) & H7)
                  & H8) & H9) & H10) & H11) & H12) & H13) & H14) & H15).
  repeat split; assumption.
Qed.

Lemma copy_to_host_same (src dst : list float) :
  length src = length dst → copy_to_host src dst = Some src.
Proof.
  intros E. unfold copy_to_host.
  destruct (Nat.leb_spec (length src) (length dst)); [| lia].
  rewrite drop_ge by lia. rewrite app_nil_r. reflexivity.
Qed.

Lemma copy_to_host_length (src dst r : list float) :
  copy_to_host src dst = Some r → length r = length dst.
Proof.
  unfold copy_to_host.
  destruct (Nat.leb_spec (length src) (length dst)); [| discriminate].
  intros [= <-]. rewrite length_app, length_drop. lia.
Qed.

Lemma copy_to_host_le (src dst : list float) :
  (length src ≤ length dst)%nat →
  ∃ r, copy_to_host src dst = Some r ∧ length r = length dst.
Proof.
  intros Hle. unfold copy_to_host.
  destruct (Nat.leb_spec (length src) (length dst)); [| lia].
  eexists. split; [reflexivity |]. rewrite length_app, length_drop. lia.
Qed.

Lemma length_offset {A} (v : list A) (k : Z) :
  0 ≤ k → Z.of_nat (length (offset v k)) = Z.max 0 (Z.of_nat (length v) - k).
Proof. intros Hk. unfold offset. rewrite length_drop. lia. Qed.

(** ** Lines printed to open files *)

Lemma prints_refl s : prints s s.
Proof.
  repeat split. exists []. split; [rewrite app_nil_r |]; reflexivity.
Qed.

Lemma prints_trans s1 s2 s3 : prints s1 s2 → prints s2 s3 → prints s1 s3.
Proof.
  intros (A1 & A2 & A3 & A4 & e1 & A5 & A6) (B1 & B2 & B3 & B4 & e2 & B5 & B6).
  repeat split; try congruence.
  exists (e1 ++ e2). split.
  - rewrite B5, A5, app_assoc. reflexivity.
  - unfold opened in *. rewrite omap_app, A6, B6. reflexivity.
Qed.

Lemma prints_emitted s evs : opened evs = [] → prints s (emitted s evs).
Proof. intros Hev. repeat split. exists evs. split; [reflexivity | exact Hev]. Qed.

Lemma opened_dump_lines fid d data ref : opened (dump_lines fid d data ref) = [].
Proof.
  unfold dump_lines.
  generalize (per_structure d data) (take (Z.to_nat (Nc d)) ref).
  intros l1. induction l1 as [|x l1 IH]; intros [|r l2]; try reflexivity.
  cbn. apply IH.
Qed.

Lemma for_int_prints (lo hi : Z) (body : Z → M unit) s :
  lo ≤ hi →
  (∀ i s1, lo ≤ i < hi → prints s s1 →
           ∃ s2, body i s1 = Some (tt, s2) ∧ prints s1 s2) →
  ∃ s', for_int lo hi body s = Some (tt, s') ∧ prints s s'.
Proof.
  intros Hle Hstep.
  destruct (for_int_inv lo hi body (λ _ s1, prints s s1)) with (s := s)
    as (s' & E & Hp).
  - exact Hle.
  - intros i s1 Hi Hs1. destruct (Hstep i s1 Hi Hs1) as (s2 & E2 & H2).
    exists s2. split; [exact E2 |]. exact (prints_trans _ _ _ Hs1 H2).
  - apply prints_refl.
  - exists s'. split; assumption.
Qed.

Section Dumps.

Context `{Collaborators}.

Lemma run_force_line fid q d n s :
  ds_ok q d = true → 0 ≤ n < N d →
  ∃ s', force_line fid d n s = Some (tt, s') ∧ prints s s'.
Proof.
  intros Hok Hn.
  destruct (ds_ok_inv _ _ Hok) as (_ & _ & _ & _ & _ & _ & _ & _ & _ & _ & _
                                    & Hf & _ & _ & Hr & _).
  destruct (at_in_range (force_cpu d) n) as [fx Hfx]; [lia |].
  destruct (at_in_range (force_cpu d) (n + N d)) as [fy Hfy]; [lia |].
  destruct (at_in_range (force_cpu d) (n + N d * 2)) as [fz Hfz]; [lia |].
  destruct (at_in_range (force_ref_cpu d) n) as [rx Hrx]; [lia |].
  destruct (at_in_range (force_ref_cpu d) (n + N d)) as [ry Hry]; [lia |].
  destruct (at_in_range (force_ref_cpu d) (n + N d * 2)) as [rz Hrz]; [lia |].
  eexists. split.
  - unfold force_line. mrun.
    rewrite (lift_Some _ _ _ Hfx). mrun. rewrite (lift_Some _ _ _ Hfy). mrun.
    rewrite (lift_Some _ _ _ Hfz). mrun. rewrite (lift_Some _ _ _ Hrx). mrun.
    rewrite (lift_Some _ _ _ Hry). mrun. rewrite (lift_Some _ _ _ Hrz). mrun.
    apply run_emit.
  - apply prints_emitted. reflexivity.
Qed.

Lemma run_force_lines fid q d s :
  ds_ok q d = true →
  ∃ s',
    for_int 0 (Nc d) (λ nc,
      off ← lift (at_ (Na_sum_cpu d) nc);
      st ← lift (at_ (structures d) nc);
      for_int 0 (num_atom st) (λ m, force_line fid d (off + m))) s
    = Some (tt, s')
    ∧ prints s s'.
Proof.
  intros Hok.
  destruct (ds_ok_inv _ _ Hok) as (HN & HNc & HNa & HNs & HSt & Hin & _).
  apply for_int_prints; [exact HNc |].
  intros nc s1 Hnc _.
  destruct (lookup_lt_is_Some_2 (Na_sum_cpu d) (Z.to_nat nc)) as [off Hoff];
    [lia |].
  destruct (lookup_lt_is_Some_2 (Na_cpu d) (Z.to_nat nc)) as [na Hna]; [lia |].
  destruct (lookup_lt_is_Some_2 (structures d) (Z.to_nat nc)) as [st Hst];
    [lia |].
  destruct (Hin _ _ _ _ Hoff Hna Hst) as (Hoff0 & _ & _ & Hst0 & Hfit).
  destruct (for_int_prints 0 (num_atom st)
              (λ m, force_line fid d (off + m)) s1) as (s2 & E2 & H2).
  - exact Hst0.
  - intros m s3 Hm _. apply (run_force_line fid q); [exact Hok | lia].
  - exists s2. split; [| exact H2]. mrun.
    rewrite (lift_Some _ _ _ (proj2 (at_Some _ _ _) (conj (proj1 Hnc) Hoff))).
    mrun.
    rewrite (lift_Some _ _ _ (proj2 (at_Some _ _ _) (conj (proj1 Hnc) Hst))).
    mrun. exact E2.
Qed.

Lemma run_predict_prints fid q d data ref s :
  ds_ok q d = true → N d ≤ Z.of_nat (length data) →
  Nc d ≤ Z.of_nat (length ref) →
  ∃ s', predict_energy_or_stress fid data ref d s = Some (tt, s')
        ∧ prints s s'.
Proof.
  intros Hok Hdata Href. eexists. split.
  - apply run_predict; [| exact Href]. apply (ds_ok_tables q); assumption.
  - apply prints_emitted, opened_dump_lines.
Qed.

End Dumps.

(** ** References *)

Section References.

Context `{Collaborators}.

Lemma run_load_vec r s v :
  vec_of (self s) r = Some v → load_vec r s = Some (v, s).
Proof.
  intros Hv. unfold load_vec. mrun. destruct r; cbn [vec_of] in Hv.
  - apply lift_Some. exact Hv.
  - injection Hv as <-. reflexivity.
Qed.

Lemma run_store_vec r s v0 v :
  vec_of (self s) r = Some v0 →
  store_vec r v s = Some (tt, upd s (with_vec (self s) r v) (fitness s)).
Proof.
  intros Hv. unfold store_vec. mrun. destruct r; cbn [vec_of] in Hv.
  - mrun.
    rewrite (lift_Some _ _ _ (set_at_Some _ _ _ (at_lt _ _ _ Hv))).
    reflexivity.
  - reflexivity.
Qed.

Lemma run_find_force x r flag k s pot ds :
  potential (self s) = Some pot → vec_of (self s) r = Some ds →
  potential_find_force x r flag k s
  = Some (tt, upd s (with_vec (self s) r
                       (find_force pot (para s) x ds flag k))
                  (fitness s)).
Proof.
  intros Hpot Hds. unfold potential_find_force. mrun.
  rewrite (lift_Some _ _ _ Hpot). mrun.
  rewrite (run_load_vec _ _ _ Hds). mrun.
  apply (run_store_vec _ _ ds). exact Hds.
Qed.

Lemma run_load_ds r m s v d :
  vec_of (self s) r = Some v → at_ v m = Some d →
  load_ds r m s = Some (d, s).
Proof.
  intros Hv Hd. unfold load_ds. mrun.
  rewrite (run_load_vec _ _ _ Hv). mrun. apply lift_Some. exact Hd.
Qed.

Lemma run_store_ds r m s v d :
  vec_of (self s) r = Some v → 0 ≤ m < Z.of_nat (length v) →
  store_ds r m d s
  = Some (tt, upd s (with_vec (self s) r (<[Z.to_nat m := d]> v)) (fitness s)).
Proof.
  intros Hv Hm. unfold store_ds. mrun.
  rewrite (run_load_vec _ _ _ Hv). mrun.
  rewrite (lift_Some _ _ _ (set_at_Some _ _ _ Hm)). mrun.
  apply (run_store_vec _ _ v). exact Hv.
Qed.

End References.

Lemma vec_of_with_vec f r v0 v :
  vec_of f r = Some v0 → vec_of (with_vec f r v) r = Some v.
Proof.
  destruct r as [b|]; cbn [vec_of with_vec with_train_set with_test_set
                            train_set test_set]; [| reflexivity].
  intros Hv. pose proof (at_lt _ _ _ Hv) as Hb. apply at_Some.
  split; [lia |]. apply list_lookup_insert_eq. lia.
Qed.

Lemma forallb_insert {A} (P : A → bool) (l : list A) (i : nat) (x : A) :
  forallb P l = true → P x = true → forallb P (<[i := x]> l) = true.
Proof.
  revert i. induction l as [|y l IH]; intros i Hl Hx; [exact Hl |].
  cbn in Hl. apply andb_true_iff in Hl as [Hy Hl].
  destruct i as [|i]; cbn; apply andb_true_iff; split; auto.
Qed.

Lemma forallb_lookup {A} (P : A → bool) (l : list A) (i : nat) (x : A) :
  forallb P l = true → l !! i = Some x → P x = true.
Proof.
  intros Hl Hx. rewrite forallb_forall in Hl. apply Hl.
  apply list_elem_of_In, (list_elem_of_lookup_2 _ i). exact Hx.
Qed.

Lemma shaped_vec dc q s r :
  shaped dc q s →
  match r with TrainSet b => 0 ≤ b < num_batches (self s) | TestSet => True end →
  ∃ v, vec_of (self s) r = Some v ∧ Z.of_nat (length v) = dc
       ∧ forallb (ds_ok q) v = true.
Proof.
  intros (Hfit & Htrain & Htest & Hq) Hr.
  destruct (fit_ok_inv _ _ Hfit) as (_ & Hdc & Hnb & Hts & Hrow & Hte).
  destruct r as [b|]; cbn [vec_of].
  - destruct (at_in_range (train_set (self s)) b) as [v Hv]; [lia |].
    exists v. split; [exact Hv |]. apply at_Some in Hv as [_ Hv]. split.
    + exact (Hrow _ _ Hv).
    + exact (forallb_lookup _ _ _ _ Htrain Hv).
  - exists (test_set (self s)). auto.
Qed.

Lemma shaped_with_vec dc q s r v0 v w :
  shaped dc q s → vec_of (self s) r = Some v0 →
  length v = length v0 → forallb (ds_ok q) v = true →
  shaped dc q (upd s (with_vec (self s) r v) w).
Proof.
  intros (Hfit & Htrain & Htest & Hq) Hv0 Hlen Hok.
  destruct (fit_ok_inv _ _ Hfit) as (Hpot & Hdc & Hnb & Hts & Hrow & Hte).
  unfold shaped. cbn [self para upd].
  destruct r as [b|]; cbn [vec_of] in Hv0;
    cbn [with_vec with_train_set with_test_set train_set test_set].
  - split; [| split; [| split]]; try assumption.
    + unfold fit_ok in *.
      cbn [potential num_batches train_set test_set with_train_set].
      rewrite length_insert. rewrite !andb_true_iff in *.
      destruct Hfit as (((((F1 & F2) & F3) & F4) & F5) & F6).
      repeat split; try assumption.
      apply forallb_insert; [assumption |].
      apply at_Some in Hv0 as [_ Hv0]. rewrite Hlen.
      pose proof (Hrow _ _ Hv0). lia.
    + apply forallb_insert; assumption.
  - injection Hv0 as <-.
    split; [| split; [| split]]; try assumption.
    unfold fit_ok in *.
    cbn [potential num_batches train_set test_set with_test_set].
    rewrite !andb_true_iff in *.
    destruct Hfit as (((((F1 & F2) & F3) & F4) & F5) & F6).
    repeat split; try assumption. rewrite Hlen. assumption.
Qed.

Lemma with_vec_frame f r v :
  num_batches (with_vec f r v) = num_batches f
  ∧ potential (with_vec f r v) = potential f
  ∧ fid_loss_out (with_vec f r v) = fid_loss_out f
  ∧ max_NN_radial (with_vec f r v) = max_NN_radial f
  ∧ max_NN_angular (with_vec f r v) = max_NN_angular f.
Proof. destruct r; repeat split. Qed.

(** ** Steps of a checkpoint *)

Lemma shaped_same dc q s s' :
  shaped dc q s → self s' = self s → para s' = para s → shaped dc q s'.
Proof. unfold shaped. intros Hs -> ->. exact Hs. Qed.

Lemma evolves_refl dc q s : shaped dc q s → evolves dc q s s [].
Proof. intros Hs. repeat split; try apply Hs. rewrite app_nil_r. reflexivity. Qed.

Lemma evolves_trans dc q s1 s2 s3 e1 e2 :
  evolves dc q s1 s2 e1 → evolves dc q s2 s3 e2 →
  evolves dc q s1 s3 (e1 ++ e2).
Proof.
  intros (A0 & A1 & A2 & A3 & A4 & A5 & A6) (B0 & B1 & B2 & B3 & B4 & B5 & B6).
  repeat split; try apply B0; try congruence.
  rewrite B6, A6, app_assoc. reflexivity.
Qed.

Lemma evolves_prints dc q s s' :
  shaped dc q s → prints s s' →
  ∃ evs, evolves dc q s s' evs ∧ opened evs = [].
Proof.
  intros Hs (P1 & P2 & P3 & P4 & evs & P5 & P6). exists evs.
  split; [| exact P6].
  pose proof (shaped_same _ _ _ _ Hs P1 P2) as Hs'.
  repeat split; try apply Hs'; try congruence.
Qed.

Lemma evolves_emit dc q s e :
  shaped dc q s → evolves dc q s (emitted s [e]) [e].
Proof. intros Hs. repeat split; apply Hs. Qed.

Lemma opened_app a b : opened (a ++ b) = opened a ++ opened b.
Proof. apply omap_app. Qed.

Section CheckpointSteps.

Context `{Contract}.

Lemma run_find_force_evolves dc q x r flag k s :
  shaped dc q s →
  match r with TrainSet b => 0 ≤ b < num_batches (self s) | TestSet => True end →
  ∃ pot ds s',
    potential (self s) = Some pot ∧ vec_of (self s) r = Some ds
    ∧ potential_find_force x r flag k s = Some (tt, s')
    ∧ evolves dc q s s' []
    ∧ para s' = para s
    ∧ vec_of (self s') r = Some (find_force pot (para s) x ds flag k).
Proof.
  intros Hs Hr.
  destruct (shaped_vec dc q s r Hs Hr) as (ds & Hds & Hlen & Hok).
  destruct (fit_ok_inv _ _ (proj1 Hs)) as ([pot Hpot] & _).
  exists pot, ds. eexists. split; [exact Hpot |]. split; [exact Hds |].
  split; [apply run_find_force; eassumption |].
  pose proof (with_vec_frame (self s) r (find_force pot (para s) x ds flag k))
    as (F1 & F2 & F3 & _).
  split; [| split; [reflexivity | apply (vec_of_with_vec _ _ ds); exact Hds]].
  split.
  { apply (shaped_with_vec _ _ _ _ ds); try assumption.
    - apply find_force_length.
    - apply find_force_shape. exact Hok. }
  cbn [self fitness elite out upd]. rewrite app_nil_r. repeat split; assumption.
Qed.

Lemma run_load_ds_shaped dc q r m s :
  shaped dc q s →
  match r with TrainSet b => 0 ≤ b < num_batches (self s) | TestSet => True end →
  0 ≤ m < dc →
  ∃ v d, vec_of (self s) r = Some v ∧ at_ v m = Some d
         ∧ load_ds r m s = Some (d, s) ∧ ds_ok q d = true.
Proof.
  intros Hs Hr Hm.
  destruct (shaped_vec dc q s r Hs Hr) as (v & Hv & Hlen & Hok).
  destruct (at_in_range v m) as [d Hd]; [lia |].
  exists v, d. split; [exact Hv |]. split; [exact Hd |].
  split; [apply (run_load_ds _ _ _ v); assumption |].
  apply at_Some in Hd as [_ Hd]. exact (forallb_lookup _ _ _ _ Hok Hd).
Qed.

Lemma run_update_efv dc q fe ff fv r m s :
  shaped dc q s →
  match r with TrainSet b => 0 ≤ b < num_batches (self s) | TestSet => True end →
  0 ≤ m < dc →
  ∃ s' evs,
    update_energy_force_virial fe ff fv r m s = Some (tt, s')
    ∧ evolves dc q s s' evs ∧ para s' = para s ∧ opened evs = [].
Proof.
  intros Hs Hr Hm.
  destruct (run_load_ds_shaped dc q r m s Hs Hr Hm)
    as (v & d & Hv & Hd & Eload & Hok).
  pose proof (ds_ok_inv _ _ Hok)
    as (HN & HNc & HNa & HNs & HSt & Hin & He & Hec & Hv6 & Hvc & Hf & Hfc
        & Her & Hvr & Hfr & Hq).
  set (d' := with_host d (energy d) (virial d) (force d)).
  pose proof (ds_ok_with_host _ _ Hok) as Hok'. fold d' in Hok'.
  set (s1 := upd s (with_vec (self s) r (<[Z.to_nat m := d']> v)) (fitness s)).
  assert (shaped dc q s1) as Hs1.
  { apply (shaped_with_vec _ _ _ _ v); try assumption.
    - apply length_insert.
    - apply forallb_insert; [| exact Hok'].
      destruct (shaped_vec dc q s r Hs Hr) as (v2 & Hv2 & _ & Hall).
      congruence. }
  assert (∃ s', update_energy_force_virial fe ff fv r m s = Some (tt, s')
                ∧ prints s1 s') as (s' & E & Hp).
  { unfold update_energy_force_virial. mrun. rewrite Eload. mrun.
    rewrite (lift_Some _ _ _ (copy_to_host_same (energy d) (energy_cpu d)
                             ltac:(lia))). mrun.
    rewrite (lift_Some _ _ _ (copy_to_host_same (virial d) (virial_cpu d)
                             ltac:(lia))). mrun.
    rewrite (lift_Some _ _ _ (copy_to_host_same (force d) (force_cpu d)
                             ltac:(lia))). mrun.
    fold d'.
    rewrite (run_store_ds r m s v d' Hv) by (apply at_lt in Hd; lia). mrun.
    fold s1.
    destruct (run_force_lines ff q d' s1 Hok') as (s2 & E2 & P2).
    rewrite E2. mrun.
    assert (N d' = N d ∧ Nc d' = Nc d) as [EN ENc] by (split; reflexivity).
    destruct (run_predict_prints fe q d' (energy_cpu d') (energy_ref_cpu d') s2
                Hok') as (s3 & E3 & P3); [cbn; lia | cbn; lia |].
    rewrite E3. mrun.
    destruct (run_predict_prints fv q d' (virial_cpu d') (virial_ref_cpu d') s3
                Hok') as (s4 & E4 & P4); [cbn; lia | cbn; lia |].
    rewrite E4. mrun.
    destruct (run_predict_prints fv q d' (offset (virial_cpu d') (N d'))
                (offset (virial_ref_cpu d') (Nc d')) s4 Hok')
      as (s5 & E5 & P5);
      [rewrite length_offset by lia; cbn; lia
      | rewrite length_offset by lia; cbn; lia |].
    rewrite E5. mrun.
    destruct (run_predict_prints fv q d' (offset (virial_cpu d') (N d' * 2))
                (offset (virial_ref_cpu d') (Nc d' * 2)) s5 Hok')
      as (s6 & E6 & P6);
      [rewrite length_offset by lia; cbn; lia
      | rewrite length_offset by lia; cbn; lia |].
    rewrite E6. mrun.
    destruct (run_predict_prints fv q d' (offset (virial_cpu d') (N d' * 3))
                (offset (virial_ref_cpu d') (Nc d' * 3)) s6 Hok')
      as (s7 & E7 & P7);
      [rewrite length_offset by lia; cbn; lia
      | rewrite length_offset by lia; cbn; lia |].
    rewrite E7. mrun.
    destruct (run_predict_prints fv q d' (offset (virial_cpu d') (N d' * 4))
                (offset (virial_ref_cpu d') (Nc d' * 4)) s7 Hok')
      as (s8 & E8 & P8);
      [rewrite length_offset by lia; cbn; lia
      | rewrite length_offset by lia; cbn; lia |].
    rewrite E8. mrun.
    destruct (run_predict_prints fv q d' (offset (virial_cpu d') (N d' * 5))
                (offset (virial_ref_cpu d') (Nc d' * 5)) s8 Hok')
      as (s9 & E9 & P9);
      [rewrite length_offset by lia; cbn; lia
      | rewrite length_offset by lia; cbn; lia |].
    exists s9. split; [exact E9 |].
    repeat (eapply prints_trans; [eassumption |]). apply prints_refl. }
  destruct (evolves_prints dc q s1 s' Hs1 Hp) as (evs & Hev & Hop).
  exists s', evs. split; [exact E |]. split; [| split; [| exact Hop]].
  - pose proof (with_vec_frame (self s) r (<[Z.to_nat m := d']> v))
      as (F1 & F2 & F3 & _).
    destruct Hev as (A0 & A1 & A2 & A3 & A4 & A5 & A6).
    unfold s1 in A1, A2, A3, A4, A5, A6. cbn [self fitness elite out upd] in *.
    repeat split; try apply A0; congruence.
  - destruct Hp as (_ & P2 & _). exact P2.
Qed.

End CheckpointSteps.

(** ** The snapshot nep.txt *)

Lemma prints_bind (m k : M unit) s :
  (∃ s1, m s = Some (tt, s1) ∧ prints s s1) →
  (∀ s1, prints s s1 → ∃ s2, k s1 = Some (tt, s2) ∧ prints s1 s2) →
  ∃ s2, (m;; k) s = Some (tt, s2) ∧ prints s s2.
Proof.
  intros (s1 & E1 & P1) Hk. destruct (Hk s1 P1) as (s2 & E2 & P2).
  exists s2. split.
  - rewrite (bind_Some _ _ _ _ _ E1). exact E2.
  - exact (prints_trans _ _ _ P1 P2).
Qed.

Lemma step_prints {B} (m : M unit) (k : unit → M B) s (Q : B * Mem → Prop) :
  (∃ s1, m s = Some (tt, s1) ∧ prints s s1) →
  (∀ s1, prints s s1 → ∃ r, k tt s1 = Some r ∧ Q r) →
  ∃ r, (m ≫= k) s = Some r ∧ Q r.
Proof.
  intros (s1 & E1 & P1) Hk. destruct (Hk s1 P1) as (r & E2 & HQ).
  exists r. split; [| exact HQ].
  rewrite (bind_Some _ _ _ _ _ E1). exact E2.
Qed.

Lemma prints_emit e s :
  opened [e] = [] → ∃ s1, emit e s = Some (tt, s1) ∧ prints s s1.
Proof.
  intros He. exists (emitted s [e]). split; [reflexivity |].
  apply prints_emitted. exact He.
Qed.

Lemma prints_ret s : ∃ s1, (ret tt : M unit) s = Some (tt, s1) ∧ prints s s1.
Proof. exists s. split; [reflexivity | apply prints_refl]. Qed.

Ltac printer :=
  repeat first
    [ apply prints_ret
    | apply prints_emit; reflexivity
    | apply prints_bind; [| intros ? _] ].

Lemma run_nep_header fid p s :
  ∃ s1, nep_header fid p s = Some (tt, s1) ∧ prints s s1.
Proof.
  unfold nep_header.
  destruct (version p =? 2); [destruct (enable_zbl p); printer |].
  destruct (version p =? 3); [destruct (enable_zbl p); printer |].
  printer.
Qed.

Lemma run_nep_basis fid p f s :
  ∃ s1, nep_basis fid p f s = Some (tt, s1) ∧ prints s s1.
Proof. unfold nep_basis. destruct (version p =? 3); printer. Qed.

Lemma string_app_inj (a b c : string) : a +:+ b = a +:+ c → b = c.
Proof.
  induction a as [|x a IH]; cbn; [auto |]. intros [= E]. auto.
Qed.

Section Snapshot.

Context `{Contract}.

Lemma run_elements_loop fid p s :
  num_types p ≤ Z.of_nat (length (elements p)) →
  ∃ s1,
    for_int 0 (num_types p) (λ n,
      e ← lift (at_ (elements p) n);
      emit (Fprintf fid "%s " [AStr e])) s = Some (tt, s1)
    ∧ prints s s1.
Proof.
  intros Hty.
  destruct (Z.le_gt_cases (num_types p) 0) as [Hle | Hgt].
  { exists s. split; [apply for_int_empty; lia | apply prints_refl]. }
  apply for_int_prints; [lia |]. intros n s3 Hn _.
  destruct (at_in_range (elements p) n) as [e He]; [lia |].
  eexists. split.
  - mrun. rewrite (lift_Some _ _ _ He). mrun. apply run_emit.
  - apply prints_emitted. reflexivity.
Qed.

Lemma run_elite_loop fid (n : Z) s :
  n ≤ Z.of_nat (length (elite s)) →
  ∃ s1,
    for_int 0 n (λ m,
      v ← get_elite;
      x ← lift (at_ v m);
      emit (Fprintf fid "%15.7e\n" [AFloat x])) s = Some (tt, s1)
    ∧ prints s s1.
Proof.
  intros Hn.
  destruct (Z.le_gt_cases n 0) as [Hle | Hgt].
  { exists s. split; [apply for_int_empty; lia | apply prints_refl]. }
  apply for_int_prints; [lia |]. intros m s1 Hm (_ & _ & _ & Hel & _).
  destruct (at_in_range (elite s1) m) as [x Hx]; [rewrite Hel; lia |].
  eexists. split.
  - mrun. rewrite (lift_Some _ _ _ Hx). mrun. apply run_emit.
  - apply prints_emitted. reflexivity.
Qed.

Lemma run_scaler_loop fid (q : list float) s :
  ∃ s1,
    for_int 0 (Z.of_nat (length q)) (λ d,
      x ← lift (at_ q d);
      emit (Fprintf fid "%15.7e\n" [AFloat x])) s = Some (tt, s1)
    ∧ prints s s1.
Proof.
  apply for_int_prints; [lia |]. intros m s1 Hm _.
  destruct (at_in_range q m) as [x Hx]; [lia |].
  eexists. split.
  - mrun. rewrite (lift_Some _ _ _ Hx). mrun. apply run_emit.
  - apply prints_emitted. reflexivity.
Qed.

Lemma run_write_nep dc q input_dir s :
  (String.length input_dir ≤ 191)%nat →
  shaped dc q s →
  number_of_variables (para s) ≤ Z.of_nat (length (elite s)) →
  num_types (para s) ≤ Z.of_nat (length (elements (para s))) →
  ∃ r,
    write_nep input_dir s = Some r
    ∧ ∃ evs, evolves dc q s r.2 evs
             ∧ self r.2 = self s
             ∧ opened evs = [input_dir +:+ "/nep.txt"].
Proof.
  intros Hlen Hs Hel Hty.
  destruct (fit_ok_inv _ _ (proj1 Hs)) as (_ & Hdc & Hnb & _).
  destruct (run_load_ds_shaped dc q (TrainSet 0) 0 s Hs ltac:(cbn; lia)
              ltac:(lia))
    as (v00 & d00 & Hv00 & Hd00 & _ & Hok00).
  destruct (ds_ok_inv _ _ Hok00) as (_ & _ & _ & _ & _ & _ & _ & _ & _ & _ & _
                                     & _ & _ & _ & _ & Hq00).
  destruct (copy_to_host_le (q_scaler_gpu d00) (q_scaler_cpu (para s)))
    as (q' & Hcopy & Hq'); [destruct Hs as (_ & _ & _ & Hq); lia |].
  unfold write_nep. named. mrun. rewrite run_emit. mrun.
  set (s1 := emitted s [Fopen (input_dir +:+ "/nep.txt") "w"]).
  apply step_prints; [apply run_nep_header |]. intros s2 P2.
  apply step_prints; [apply run_elements_loop; exact Hty |]. intros s3 P3.
  pose proof (prints_trans _ _ _ P2 P3) as P13.
  apply step_prints; [apply prints_emit; reflexivity |]. intros s4 P4.
  pose proof (prints_trans _ _ _ P13 P4) as P14.
  apply step_prints; [destruct (enable_zbl (para s)); printer |]. intros s5 P5.
  pose proof (prints_trans _ _ _ P14 P5) as P15.
  apply step_prints; [apply run_nep_basis |]. intros s6 P6.
  pose proof (prints_trans _ _ _ P15 P6) as P16.
  apply step_prints; [apply prints_emit; reflexivity |]. intros s7 P7.
  pose proof (prints_trans _ _ _ P16 P7) as P17.
  apply step_prints.
  { apply run_elite_loop. destruct P17 as (_ & _ & _ & -> & _). exact Hel. }
  intros sa Pa. pose proof (prints_trans _ _ _ P17 Pa) as P1a.
  clear P2 P3 P13 P4 P14 P5 P15 P6 P16 P7 P17 Pa s2 s3 s4 s5 s6 s7.
  destruct P1a as (Aself & Apara & Afit & Ael & ea & Aout & Aop).
  cbn [s1 emitted self para fitness elite out] in Aself, Apara, Afit, Ael, Aout.
  rewrite bind_run.
  rewrite (run_load_ds (TrainSet 0) 0 sa v00 d00)
    by (try rewrite Aself; assumption).
  mrun. rewrite (lift_Some _ _ _ Hcopy). cbv beta iota.
  rewrite bind_run. unfold set_para. cbv beta iota.
  match goal with
  | |- ∃ r, (_ ≫= _) ?st = _ ∧ _ => set (sb := st)
  end.
  apply step_prints; [apply run_scaler_loop |]. intros sc Pc.
  destruct (prints_emit (Fclose (input_dir +:+ "/nep.txt")) sc eq_refl)
    as (sd & Ed & Pd).
  exists (tt, sd). split; [exact Ed |].
  destruct (prints_trans _ _ _ Pc Pd)
    as (Bself & Bpara & Bfit & Bel & eb & Bout & Bop).
  cbn [sb self para fitness elite out] in Bself, Bpara, Bfit, Bel, Bout.
  exists ([Fopen (input_dir +:+ "/nep.txt") "w"] ++ ea ++ eb).
  cbn [snd]. split; [| split].
  - destruct Hs as (Hfit & Htr & Hte & Hq).
    unfold evolves, shaped.
    rewrite Bself, Aself, Bpara, Bfit, Afit, Bel, Ael, Bout, Aout.
    cbn [q_scaler_cpu with_q_scaler_cpu with_batch_size_q].
    rewrite <- !app_assoc.
    repeat split; try assumption. lia.
  - congruence.
  - rewrite !opened_app, Aop, Bop. reflexivity.
Qed.

End Snapshot.

(** ** The dump of the training set and the checkpoint *)

Ltac mrune :=
  cbv beta iota;
  repeat (first [rewrite run_emit | rewrite lift_pure | rewrite bind_run];
          cbn [get_self get_para get_fitness get_elite self para fitness
               elite out upd];
          cbv beta iota).

Section Checkpoint.

Context `{Contract}.

Lemma step_evolves {B} dc q (m : M unit) (k : unit → M B) s
    (Q : B * Mem → Prop) :
  (∃ s1 evs, m s = Some (tt, s1) ∧ evolves dc q s s1 evs) →
  (∀ s1, (m s = Some (tt, s1)) → ∃ r, k tt s1 = Some r ∧ Q r) →
  ∃ r, (m ≫= k) s = Some r ∧ Q r.
Proof.
  intros (s1 & evs & E1 & _) Hk. destruct (Hk s1 E1) as (r & E2 & HQ).
  exists r. split; [| exact HQ].
  rewrite (bind_Some _ _ _ _ _ E1). exact E2.
Qed.

Lemma run_dump_train dc q input_dir s :
  (String.length input_dir ≤ 182)%nat →
  shaped dc q s → num_batches (self s) ≤ dc →
  ∃ s' evs,
    dump_train input_dir s = Some (tt, s')
    ∧ evolves dc q s s' evs
    ∧ opened evs = [input_dir +:+ "/force_train.out";
                    input_dir +:+ "/energy_train.out";
                    input_dir +:+ "/virial_train.out"].
Proof.
  intros Hlen Hs Hnb.
  destruct (fit_ok_inv _ _ (proj1 Hs)) as (_ & Hdc & Hnb0 & _).
  set (ff := input_dir +:+ "/force_train.out").
  set (fe := input_dir +:+ "/energy_train.out").
  set (fv := input_dir +:+ "/virial_train.out").
  set (s1 := emitted s [Fopen ff "w"; Fopen fe "w"; Fopen fv "w"]).
  assert (evolves dc q s s1 [Fopen ff "w"; Fopen fe "w"; Fopen fv "w"])
    as Hs1 by (repeat split; apply Hs).
  set (body := λ batch_id : Z,
         v ← get_elite;
         potential_find_force v (TrainSet batch_id) false 1;;
         update_energy_force_virial fe ff fv (TrainSet 0) batch_id).
  destruct (for_int_inv 0 (num_batches (self s)) body
              (λ _ s2, ∃ evs, evolves dc q s1 s2 evs ∧ opened evs = []))
    with (s := s1) as (s2 & E2 & evs2 & Hev2 & Hop2).
  - lia.
  - intros b sa Hb (ea & Ha & Hopa).
    pose proof Ha as (Sa & Na & _).
    cbn [s1 emitted self num_batches] in Na.
    destruct (run_find_force_evolves dc q (elite sa) (TrainSet b) false 1 sa Sa)
      as (pot & ds & sb & _ & _ & Eb & Hb' & _); [cbn; lia |].
    pose proof Hb' as (Sb & Nb & _).
    destruct (run_update_efv dc q fe ff fv (TrainSet 0) b sb Sb)
      as (sc & ec & Ec & Hc & _ & Hopc); [cbn; lia | lia |].
    exists sc. split.
    + unfold body. mrun. rewrite Eb. mrun. exact Ec.
    + exists (ea ++ [] ++ ec). split.
      * exact (evolves_trans _ _ _ _ _ _ _ Ha
                 (evolves_trans _ _ _ _ _ _ _ Hb' Hc)).
      * rewrite !opened_app, Hopa, Hopc. reflexivity.
  - exists []. split; [apply evolves_refl; apply Hs1 | reflexivity].
  - exists (emitted s2 [Fclose fe; Fclose ff; Fclose fv]).
    exists ([Fopen ff "w"; Fopen fe "w"; Fopen fv "w"] ++ evs2
            ++ [Fclose fe; Fclose ff; Fclose fv]).
    split; [| split].
    + unfold dump_train. named. rewrite bind_run, run_emit. cbv beta iota.
      named. rewrite bind_run, run_emit. cbv beta iota. named.
      fold ff fe fv. mrune.
      rewrite !emitted_app. cbn [app]. fold s1.
      change (self s1) with (self s). fold body. rewrite E2. mrune.
      rewrite !emitted_app. reflexivity.
    + apply (evolves_trans _ _ _ _ _ _ _ Hs1).
      apply (evolves_trans _ _ _ _ _ _ _ Hev2).
      repeat split; apply Hev2.
    + rewrite !opened_app, Hop2. reflexivity.
Qed.


Lemma evolves_emitted dc q s evs :
  shaped dc q s → evolves dc q s (emitted s evs) evs.
Proof. intros Hs. repeat split; apply Hs. Qed.

Lemma mem_ok_inv dc s :
  mem_ok dc s = true →
  shaped dc (length (q_scaler_cpu (para s))) s
  ∧ 0 < number_of_variables_ann (para s) ≤ Z.of_nat (length (elite s))
  ∧ number_of_variables (para s) ≤ Z.of_nat (length (elite s))
  ∧ num_types (para s) ≤ Z.of_nat (length (elements (para s))).
Proof.
  unfold mem_ok, shaped. rewrite !andb_true_iff.
  intros ((((((H1 & H2) & H3) & H4) & H5) & H6) & H7).
  repeat split; try assumption; lia.
Qed.

Lemma run_add_elite i x s old :
  at_ (elite s) i = Some old →
  add_elite i x s
  = Some (tt, {| self := self s; para := para s; fitness := fitness s;
                 elite := <[Z.to_nat i := F32.add old x]> (elite s);
                 out := out s |}).
Proof.
  intros Hold. unfold add_elite. mrun.
  rewrite (lift_Some _ _ _ Hold). mrun.
  rewrite (lift_Some _ _ _ (set_at_Some _ _ _ (at_lt _ _ _ Hold))).
  reflexivity.
Qed.

Lemma fires_rem g : (0 =? Z.rem (g + 1) 100) = fires g.
Proof.
  unfold fires. destruct (Z.eqb_spec 0 (Z.rem (g + 1) 100)) as [E | E];
    destruct (Z.eqb_spec ((g + 1) mod 100) 0) as [E' | E']; try reflexivity.
  - symmetry in E. apply Z.rem_mod_eq_0 in E; [contradiction | lia].
  - apply Z.rem_mod_eq_0 in E'; [congruence | lia].
Qed.

Lemma fires_train_rem g : (0 =? Z.rem (g + 1) 1000) = fires_train g.
Proof.
  unfold fires_train. destruct (Z.eqb_spec 0 (Z.rem (g + 1) 1000)) as [E | E];
    destruct (Z.eqb_spec ((g + 1) mod 1000) 0) as [E' | E']; try reflexivity.
  - symmetry in E. apply Z.rem_mod_eq_0 in E; [contradiction | lia].
  - apply Z.rem_mod_eq_0 in E'; [congruence | lia].
Qed.

(** A checkpoint that fires reaches the test of the 1000th generation;
    what it has done to [elite] by then and which files it has opened. *)
Lemma run_checkpoint dc input_dir g lt l1 l2 s :
  (String.length input_dir ≤ 183)%nat →
  mem_ok dc s = true → 0 ≤ g → fires g = true →
  ∃ pot ds d old sg evs,
    potential (self s) = Some pot
    ∧ at_ (train_set (self s)) (g mod num_batches (self s)) = Some ds
    ∧ at_ (find_force pot (para s) (elite s) ds false 1) 0 = Some d
    ∧ at_ (elite s) (number_of_variables_ann (para s) - 1) = Some old
    ∧ report_error input_dir g lt l1 l2 s
      = (if fires_train g then dump_train input_dir else ret tt) sg
    ∧ shaped dc (length (q_scaler_cpu (para s))) sg
    ∧ num_batches (self sg) = num_batches (self s)
    ∧ elite sg
      = <[Z.to_nat (number_of_variables_ann (para s) - 1) :=
            F32.add old (get_rmse_energy d false true 0).2]> (elite s)
    ∧ fitness sg = fitness s
    ∧ out sg = out s ++ evs
    ∧ opened evs
      = [input_dir +:+ "/nep.txt"; input_dir +:+ "/force_test.out";
         input_dir +:+ "/energy_test.out"; input_dir +:+ "/virial_test.out"].
Proof.
  intros Hlen Hok Hg Hfire.
  destruct (mem_ok_inv _ _ Hok) as (Hs & Hnva & Hnv & Hty).
  set (q := length (q_scaler_cpu (para s))) in *.
  destruct (fit_ok_inv _ _ (proj1 Hs)) as (_ & Hdc & Hnb & _).
  set (nb := num_batches (self s)) in *.
  pose proof (Z.mod_pos_bound g nb Hnb) as Hbid.
  (* the elite on its batch *)
  destruct (run_find_force_evolves dc q (elite s) (TrainSet (g mod nb)) false 1
              s Hs) as (pot & ds & sa & Hpot & Hds & Ea & Ha & Hpa & Hva);
    [cbn; fold nb; lia |].
  cbn [vec_of] in Hds.
  pose proof Ha as (Sa & Na & Pa & La & Fa & Ela & Oa).
  destruct (run_load_ds_shaped dc q (TrainSet (g mod nb)) 0 sa Sa)
    as (va & d & Hva' & Hd & Ed & Hdok); [cbn; fold nb; lia | lia |].
  rewrite Hva in Hva'. injection Hva' as <-.
  destruct (at_in_range (elite s) (number_of_variables_ann (para s) - 1))
    as [old Hold]; [lia |].
  exists pot, ds, d, old.
  (* the bias correction *)
  set (shift := (get_rmse_energy d false true 0).2).
  set (sb := {| self := self sa; para := para sa; fitness := fitness sa;
                elite := <[Z.to_nat (number_of_variables_ann (para s) - 1) :=
                             F32.add old shift]> (elite s);
                out := out sa |}).
  assert (add_elite (number_of_variables_ann (para s) - 1) shift sa
          = Some (tt, sb)) as Eb.
  { rewrite (run_add_elite _ _ _ old) by (rewrite Ela; exact Hold).
    unfold sb. rewrite Ela. reflexivity. }
  assert (shaped dc q sb) as Sb by exact Sa.
  (* the elite on the test set *)
  destruct (run_find_force_evolves dc q (elite sb) TestSet false 1 sb Sb I)
    as (pot' & ts & sc & _ & _ & Ec & Hc & Hpc & _).
  pose proof Hc as (Sc & Nc' & Pc & Lc & Fc & Elc & Oc).
  destruct (run_load_ds_shaped dc q TestSet 0 sc Sc I)
    as (vt & t & _ & _ & Et & _); [lia |].
  (* the snapshot *)
  destruct (run_write_nep dc q input_dir sc ltac:(lia) Sc)
    as ([[] sd] & Ed' & e_nep & Hd' & Sfd & Hopd).
  { rewrite Hpc. cbn [sb para]. rewrite Hpa, Elc. cbn [sb elite].
    rewrite length_insert. exact Hnv. }
  { rewrite Hpc. cbn [sb para]. rewrite Hpa. exact Hty. }
  cbn [snd] in Hd', Sfd.
  pose proof Hd' as (Sd & Nd & Pd & Ld & Fd & Eld & Od).
  (* the loss line and the dump of the test set *)
  set (rtrain := get_rmse_energy d false true 0).
  set (line := [AInt (g + 1); AFloat lt; AFloat l1; AFloat l2;
                AFloat rtrain.1; AFloat (get_rmse_force d (para s) false 0);
                AFloat (get_rmse_virial d false 0);
                AFloat (get_rmse_energy t false false 0).1;
                AFloat (get_rmse_force t (para s) false 0);
                AFloat (get_rmse_virial t false 0)]).
  set (e_loss := [Printf loss_format line; Fflush "stdout";
                  Fprintf (fid_loss_out (self s)) loss_format line;
                  Fflush (fid_loss_out (self s));
                  Fopen (input_dir +:+ "/force_test.out") "w";
                  Fopen (input_dir +:+ "/energy_test.out") "w";
                  Fopen (input_dir +:+ "/virial_test.out") "w"]).
  set (se := emitted sd e_loss).
  pose proof (evolves_emitted dc q sd e_loss Sd) as He. fold se in He.
  pose proof He as (Se & _).
  destruct (run_update_efv dc q (input_dir +:+ "/energy_test.out")
              (input_dir +:+ "/force_test.out")
              (input_dir +:+ "/virial_test.out") TestSet 0 se Se I)
    as (sf & e_test & Ef & Hf & _ & Hopf); [lia |].
  pose proof Hf as (Sf & Nf & _).
  set (e_close := [Fclose (input_dir +:+ "/energy_test.out");
                   Fclose (input_dir +:+ "/force_test.out");
                   Fclose (input_dir +:+ "/virial_test.out")]).
  set (sg := emitted sf e_close).
  pose proof (evolves_emitted dc q sf e_close Sf) as Hg'. fold sg in Hg'.
  pose proof Hg' as (Sg & Ng & _).
  exists sg, ([] ++ [] ++ e_nep ++ e_loss ++ e_test ++ e_close).
  split; [exact Hpot |]. split; [exact Hds |]. split; [exact Hd |].
  split; [exact Hold |]. split.
  { unfold report_error. rewrite fires_rem, Hfire.
    rewrite !file_name_fits by (cbn [String.length]; lia). mrun. fold nb.
    rewrite (lift_Some _ _ _ (batch_id_of_spec g nb Hg Hnb)). mrun.
    rewrite Ea. mrun. rewrite Ed. mrun.
    rewrite (surjective_pairing (get_rmse_energy d false true 0)).
    mrun. fold shift. rewrite Eb. mrun.
    rewrite Ec. mrun. rewrite Et. mrun. rewrite Ed'. mrune.
    rewrite !emitted_app. cbn [app].
    rewrite fires_train_rem. fold rtrain. fold line. fold e_loss. fold se.
    rewrite Ef. mrune. rewrite !emitted_app. cbn [app].
    fold e_close. fold sg. reflexivity. }
  split; [exact Sg |].
  split; [rewrite Ng, Nf; cbn [se emitted self]; rewrite Nd, Nc';
          cbn [sb self]; exact Na |].
  split.
  { destruct Hg' as (_ & _ & _ & _ & _ & -> & _).
    destruct Hf as (_ & _ & _ & _ & _ & -> & _).
    destruct He as (_ & _ & _ & _ & _ & -> & _).
    rewrite Eld, Elc. reflexivity. }
  split.
  { destruct Hg' as (_ & _ & _ & _ & -> & _).
    destruct Hf as (_ & _ & _ & _ & -> & _).
    destruct He as (_ & _ & _ & _ & -> & _).
    rewrite Fd, Fc. cbn [sb fitness]. exact Fa. }
  split.
  { pose proof (evolves_trans _ _ _ _ _ _ _ Hd'
                  (evolves_trans _ _ _ _ _ _ _ He
                     (evolves_trans _ _ _ _ _ _ _ Hf Hg')))
      as (_ & _ & _ & _ & _ & _ & Oall).
    rewrite Oall, Oc. cbn [sb out]. rewrite Oa.
    rewrite !app_nil_r, !app_nil_l. reflexivity. }
  rewrite !opened_app, Hopd, Hopf. reflexivity.
Qed.


(** A checkpoint that fires ends; what it does to [elite] and which files
    it opens. *)
Lemma run_report_error dc input_dir g lt l1 l2 s :
  (String.length input_dir ≤ 182)%nat →
  mem_ok dc s = true → 0 ≤ g → fires g = true →
  (fires_train g = true → num_batches (self s) ≤ dc) →
  ∃ pot ds d old s' evs,
    potential (self s) = Some pot
    ∧ at_ (train_set (self s)) (g mod num_batches (self s)) = Some ds
    ∧ at_ (find_force pot (para s) (elite s) ds false 1) 0 = Some d
    ∧ at_ (elite s) (number_of_variables_ann (para s) - 1) = Some old
    ∧ report_error input_dir g lt l1 l2 s = Some (tt, s')
    ∧ elite s'
      = <[Z.to_nat (number_of_variables_ann (para s) - 1) :=
            F32.add old (get_rmse_energy d false true 0).2]> (elite s)
    ∧ fitness s' = fitness s
    ∧ out s' = out s ++ evs
    ∧ opened evs
      = [input_dir +:+ "/nep.txt"; input_dir +:+ "/force_test.out";
         input_dir +:+ "/energy_test.out"; input_dir +:+ "/virial_test.out"]
        ++ (if fires_train g
            then [input_dir +:+ "/force_train.out";
                  input_dir +:+ "/energy_train.out";
                  input_dir +:+ "/virial_train.out"]
            else []).
Proof.
  intros Hlen Hok Hg Hfire Htrain.
  destruct (run_checkpoint dc input_dir g lt l1 l2 s ltac:(lia) Hok Hg Hfire)
    as (pot & ds & d & old & sg & evs & Hpot & Hds & Hd & Hold & E & Sg & Ng
        & Eg & Fg & Og & Hop).
  exists pot, ds, d, old.
  destruct (fires_train g) eqn:Ft.
  - destruct (run_dump_train dc _ input_dir sg Hlen Sg)
      as (s' & e_train & Et & Ht & Hopt); [rewrite Ng; auto |].
    destruct Ht as (_ & _ & _ & _ & Ft' & Et' & Ot').
    exists s', (evs ++ e_train).
    repeat (split; [assumption |]).
    split; [rewrite E; exact Et |].
    split; [congruence |]. split; [congruence |].
    split; [rewrite Ot', Og, app_assoc; reflexivity |].
    rewrite opened_app, Hop, Hopt. reflexivity.
  - exists sg, evs.
    repeat (split; [assumption |]).
    rewrite Hop. reflexivity.
Qed.

End Checkpoint.

(** ** The cadence of the checkpoints *)

Lemma report_error_idle `{Collaborators} input_dir g lt l1 l2 s :
  fires g = false → report_error input_dir g lt l1 l2 s = Some (tt, s).
Proof. intros Hf. unfold report_error. rewrite fires_rem, Hf. reflexivity. Qed.

Lemma fires_train_fires g : fires_train g = true → fires g = true.
Proof.
  unfold fires, fires_train. intros E%Z.eqb_eq. apply Z.eqb_eq.
  apply Z.mod_divide in E; [| lia]. destruct E as [k Hk].
  apply Z.mod_divide; [lia |]. exists (k * 10). lia.
Qed.

(** ** The dump of the whole training set *)

(** C8 fails on the code.  With two batches on two devices, the structures
    of batch 0 having the reference energies 1 and 2 and those of batch 1
    the reference energies 3 and 4, the checkpoint of generation 999 writes
    to energy_train.out the lines of batch 0 twice and no line of
    batch 1: after it has evaluated [train_set[batch_id]] it dumps
    [train_set[0][batch_id]]. *)
Lemma train_dump_repeats_batch_0 :
  ∃ s',
    report_error (H := Model.collaborators) "." 999 F32.zero F32.zero
      F32.zero (Example.mem_two 2) = Some (tt, s')
    ∧ printed "./energy_train.out" (out s')
      = [[AFloat Example.f1; AFloat Example.f1];
         [AFloat Example.f2; AFloat Example.f2];
         [AFloat Example.f1; AFloat Example.f1];
         [AFloat Example.f2; AFloat Example.f2]].
Proof. eexists. split; vm_compute; reflexivity. Qed.

(** The same defect with two batches on one device: [train_set[0][1]] does
    not exist. *)
Lemma train_dump_out_of_bounds :
  report_error (H := Model.collaborators) "." 999 F32.zero F32.zero
    F32.zero (Example.mem_two 1) = None.
Proof. vm_compute. reflexivity. Qed.

(** ** binary32 arithmetic on zero residuals *)










(** ** The zero-residual law *)

Lemma sub_diag (x : float) : F32.is_finite x = true → F32.sub x x = F32.zero.
Proof.
  destruct x as [[]|[]| |s m e]; try discriminate; intros _; try reflexivity.
  unfold F32.sub, SFsub. rewrite Z.sub_diag. reflexivity.
Qed.











(** ** The constructor *)

Lemma insert_mix {A} (T I : list A) (i : nat) (x : A) :
  length T = length I → T !! i = Some x →
  <[i := x]> (take i T ++ drop i I) = take (S i) T ++ drop (S i) I.
Proof.
  intros Hlen Hx. pose proof (lookup_lt_Some _ _ _ Hx) as Hi.
  assert (length (take i T) = i) as Ht by (rewrite length_take; lia).
  destruct (lookup_lt_is_Some_2 I i) as [y Hy]; [lia |].
  rewrite insert_app_r_alt by lia. rewrite Ht, Nat.sub_diag.
  rewrite (drop_S I y i Hy). cbn [list_insert insert].
  rewrite (take_S_r T i x Hx), <- app_assoc. reflexivity.
Qed.

Lemma mix_lookup {A} (T I : list A) (i : nat) :
  (i ≤ length T)%nat → (take i T ++ drop i I) !! i = I !! i.
Proof.
  intros Hi. rewrite lookup_app_r by (rewrite length_take; lia).
  rewrite length_take, lookup_drop. f_equal. lia.
Qed.

Lemma mix_length {A} (T I : list A) (i : nat) :
  length T = length I → length (take i T ++ drop i I) = length I.
Proof. intros E. rewrite length_app, length_take, length_drop. lia. Qed.

Ltac mrunx :=
  cbv beta iota;
  repeat (first [rewrite run_emit | rewrite lift_pure | rewrite bind_run];
          cbn [get_self get_para get_fitness get_elite self para fitness
               elite out upd emitted];
          cbv beta iota).

Section Constructor.

Context `{Collaborators}.

Lemma raise_max_Some (ts : list (list Dataset)) (nb : Z) init :
  (∀ n, 0 ≤ n < nb → ∃ d, (at_ ts n ≫= λ v, at_ v 0) = Some d) →
  ∃ r, raise_max ts nb init = Some r.
Proof.
  intros Hts. unfold raise_max.
  assert (∀ l acc, (∀ n, n ∈ l → 0 ≤ n < nb) →
            ∃ r, foldl (λ acc n,
                   '(Nm, Nr, Ng, r, a) ← acc;
                   d ← at_ ts n ≫= λ v, at_ v 0;
                   let Nm := if N d >? Nm then N d else Nm in
                   let Nr := if N d * ds_max_NN_radial d >? Nr
                             then N d * ds_max_NN_radial d else Nr in
                   let Ng := if N d * ds_max_NN_angular d >? Ng
                             then N d * ds_max_NN_angular d else Ng in
                   let r := if ds_max_NN_radial d >? r
                            then ds_max_NN_radial d else r in
                   let a := if ds_max_NN_angular d >? a
                            then ds_max_NN_angular d else a in
                   Some (Nm, Nr, Ng, r, a)) (Some acc) l = Some r) as Hgen.
  { induction l as [|n l IH]; intros acc Hl; [eexists; reflexivity |].
    cbn [foldl]. destruct acc as [[[[Nm Nr] Ng] r] a].
    destruct (Hts n) as [d Hd]; [apply Hl; left |].
    cbn [mbind option_bind]. rewrite Hd. cbn [mbind option_bind].
    apply IH. intros n' Hn'. apply Hl. right. exact Hn'. }
  apply Hgen. intros n Hn. apply elem_of_seqZ in Hn. lia.
Qed.

Variables (input_dir : string) (dc : Z) (train test : list Structure).

#[local] Abbreviation batch_row := (batch_row input_dir dc train).
#[local] Abbreviation test_row := (test_row input_dir dc test).

Lemma run_fill_row (r : vec_ref) (g : Z → Dataset) (fmt : string)
    s (others : list Dataset → Fitness) :
  0 ≤ dc →
  (∀ v, vec_of (others v) r = Some v) →
  (∀ v w, with_vec (others v) r w = others w) →
  self s = others (replicate (Z.to_nat dc) default_Dataset) →
  ∃ s',
    for_int 0 dc (λ device_id,
      emit PrintLine1;;
      emit (Printf fmt [AInt device_id]);;
      store_ds r device_id (g device_id);;
      emit PrintLine2) s = Some (tt, s')
    ∧ self s' = others (g <$> seqZ 0 dc) ∧ para s' = para s.
Proof.
  intros Hdc Hvec Hwith Hs.
  set (T := g <$> seqZ 0 dc). set (I := replicate (Z.to_nat dc) default_Dataset).
  assert (length T = length I) as Hlen
    by (unfold T, I; rewrite length_fmap, length_seqZ, length_replicate; lia).
  assert (length I = Z.to_nat dc) as HI by apply length_replicate.
  destruct (for_int_inv 0 dc
              (λ device_id,
                 emit PrintLine1;;
                 emit (Printf fmt [AInt device_id]);;
                 store_ds r device_id (g device_id);;
                 emit PrintLine2)
              (λ j s1, self s1 = others (take (Z.to_nat j) T
                                        ++ drop (Z.to_nat j) I)
                       ∧ para s1 = para s))
    with (s := s) as (s' & E & Hself & Hpara).
  - exact Hdc.
  - intros j s1 Hj [Hs1 Hp1].
    set (v := take (Z.to_nat j) T ++ drop (Z.to_nat j) I) in *.
    set (s2 := emitted s1 [PrintLine1; Printf fmt [AInt j]]).
    assert (vec_of (self s2) r = Some v) as Hv
      by (cbn [s2 emitted self]; rewrite Hs1; apply Hvec).
    assert (length v = Z.to_nat dc) as Hvl
      by (unfold v; rewrite mix_length by exact Hlen; exact HI).
    eexists. split.
    + mrune. rewrite !emitted_app. cbn [app]. fold s2.
      rewrite (run_store_ds r j s2 v _ Hv) by lia. mrune. reflexivity.
    + cbn [self para emitted upd s2]. split; [| exact Hp1].
      rewrite Hs1, Hwith. f_equal.
      replace (Z.to_nat (j + 1)) with (S (Z.to_nat j)) by lia.
      apply insert_mix; [exact Hlen |].
      unfold T. rewrite list_lookup_fmap.
      rewrite (lookup_seqZ_lt 0 dc (Z.to_nat j)) by lia.
      cbn. do 2 f_equal. lia.
  - split; [| reflexivity]. cbn [Z.to_nat take drop app]. exact Hs.
  - exists s'. split; [exact E |]. split; [| exact Hpara].
    rewrite Hself. f_equal.
    rewrite take_ge by lia. rewrite drop_ge by lia. apply app_nil_r.
Qed.

(** The loop that gives every batch a row of [deviceCount] datasets. *)
Lemma run_resize_rows (nb : Z) s (F : Fitness) :
  0 ≤ dc → 0 ≤ nb →
  self s = with_train_set F (replicate (Z.to_nat nb) []) →
  for_int 0 nb (λ batch_id,
    row ← lift (new_vector dc default_Dataset);
    store_vec (TrainSet batch_id) row) s
  = Some (tt, {| self := with_train_set F
                           (replicate (Z.to_nat nb)
                              (replicate (Z.to_nat dc) default_Dataset));
                 para := para s; fitness := fitness s; elite := elite s;
                 out := out s |}).
Proof.
  intros Hdc Hnb Hs.
  set (T := replicate (Z.to_nat nb) (replicate (Z.to_nat dc) default_Dataset)).
  set (I := replicate (Z.to_nat nb) (@nil Dataset)).
  assert (length T = length I) as Hlen
    by (unfold T, I; rewrite !length_replicate; reflexivity).
  assert (length I = Z.to_nat nb) as HI by apply length_replicate.
  destruct (for_int_inv 0 nb
              (λ batch_id,
                 row ← lift (new_vector dc default_Dataset);
                 store_vec (TrainSet batch_id) row)
              (λ i s1, s1 = {| self := with_train_set F
                                        (take (Z.to_nat i) T
                                         ++ drop (Z.to_nat i) I);
                               para := para s; fitness := fitness s;
                               elite := elite s; out := out s |}))
    with (s := s) as (s' & E & ->).
  - exact Hnb.
  - intros b s1 Hb ->.
    set (M := take (Z.to_nat b) T ++ drop (Z.to_nat b) I).
    assert (M !! Z.to_nat b = Some []) as HMb.
    { unfold M. rewrite mix_lookup by lia.
      unfold I. apply lookup_replicate_2. lia. }
    eexists. split.
    + rewrite bind_run, (new_vector_Some _ _ Hdc), lift_pure. cbv beta iota.
      apply (run_store_vec _ _ []). cbn [self vec_of with_train_set train_set].
      apply at_Some. split; [lia | exact HMb].
    + cbn [self para fitness elite out upd with_vec with_train_set train_set
           num_batches test_set potential max_NN_radial max_NN_angular
           fid_loss_out].
      replace (Z.to_nat (b + 1)) with (S (Z.to_nat b)) by lia.
      fold M. rewrite (insert_mix T I) by
        (first [exact Hlen | unfold T; apply lookup_replicate_2; lia]).
      reflexivity.
  - destruct s as [f ? ? ? ?]. cbn [self] in Hs. rewrite Hs. reflexivity.
  - rewrite E. rewrite take_ge by lia. rewrite drop_ge by lia.
    rewrite app_nil_r. reflexivity.
Qed.

(** The loop over the batches. *)
Lemma run_fill_train (p : Parameters) (nb : Z) s (F : Fitness) :
  0 ≤ dc → 0 ≤ nb →
  self s = with_train_set F
             (replicate (Z.to_nat nb)
                (replicate (Z.to_nat dc) default_Dataset)) →
  ∃ s',
    for_int 0 nb (λ batch_id,
      let n1 := batch_n1 (batch_size p) batch_id in
      let n2 := batch_n2 (Z.of_nat (length train)) (batch_size p) batch_id in
      emit (Printf "\nBatch %d:\n" [AInt batch_id]);;
      emit (Printf "Number of configurations = %d.\n" [AInt (n2 - n1)]);;
      for_int 0 dc (λ device_id,
        emit PrintLine1;;
        emit (Printf "Constructing train_set in device  %d.\n"
                [AInt device_id]);;
        store_ds (TrainSet batch_id) device_id
          (construct input_dir p train n1 n2 device_id);;
        emit PrintLine2)) s = Some (tt, s')
    ∧ self s' = with_train_set F (batch_row p <$> seqZ 0 nb)
    ∧ para s' = para s.
Proof.
  intros Hdc Hnb Hs.
  set (T := batch_row p <$> seqZ 0 nb).
  set (I := replicate (Z.to_nat nb) (replicate (Z.to_nat dc) default_Dataset)).
  assert (length T = length I) as Hlen
    by (unfold T, I; rewrite length_fmap, length_seqZ, length_replicate; lia).
  assert (length I = Z.to_nat nb) as HI by apply length_replicate.
  match goal with
  | |- ∃ s', for_int 0 nb ?b s = _ ∧ _ => set (body := b)
  end.
  destruct (for_int_inv 0 nb body
              (λ i s1, self s1 = with_train_set F
                                   (take (Z.to_nat i) T ++ drop (Z.to_nat i) I)
                       ∧ para s1 = para s))
    with (s := s) as (s' & E & Hself & Hpara).
  - exact Hnb.
  - intros b s1 Hb [Hs1 Hp1].
    set (M := take (Z.to_nat b) T ++ drop (Z.to_nat b) I) in *.
    assert (M !! Z.to_nat b = Some (replicate (Z.to_nat dc) default_Dataset))
      as HMb.
    { unfold M. rewrite mix_lookup by lia.
      unfold I. apply lookup_replicate_2. lia. }
    assert (length M = Z.to_nat nb) as HMl
      by (unfold M; rewrite mix_length by exact Hlen; exact HI).
    set (n1 := batch_n1 (batch_size p) b).
    set (n2 := batch_n2 (Z.of_nat (length train)) (batch_size p) b).
    set (s2 := emitted s1 [Printf "\nBatch %d:\n" [AInt b];
                           Printf "Number of configurations = %d.\n"
                             [AInt (n2 - n1)]]).
    destruct (run_fill_row (TrainSet b)
                (λ device_id, construct input_dir p train n1 n2 device_id)
                "Constructing train_set in device  %d.\n" s2
                (λ v, with_train_set F (<[Z.to_nat b := v]> M)) Hdc)
      as (s3 & E3 & S3 & P3).
    + intros v. cbn [vec_of with_train_set train_set]. apply at_Some.
      split; [lia |]. apply list_lookup_insert_eq. lia.
    + intros v w. cbn [with_vec with_train_set train_set num_batches test_set
                        potential max_NN_radial max_NN_angular fid_loss_out].
      rewrite list_insert_insert_eq. reflexivity.
    + cbn [s2 emitted self]. rewrite Hs1, (list_insert_id _ _ _ HMb).
      reflexivity.
    + exists s3. split.
      * unfold body. mrune. rewrite !emitted_app. cbn [app].
        fold n1 n2 s2. exact E3.
      * split; [| rewrite P3; exact Hp1]. rewrite S3. f_equal.
        replace (Z.to_nat (b + 1)) with (S (Z.to_nat b)) by lia.
        apply insert_mix; [exact Hlen |].
        unfold T. rewrite list_lookup_fmap.
        rewrite (lookup_seqZ_lt 0 nb (Z.to_nat b)) by lia.
        replace (0 + Z.of_nat (Z.to_nat b)) with b by lia. reflexivity.
  - split; [| reflexivity]. cbn [Z.to_nat take drop app]. exact Hs.
  - exists s'. split; [exact E |]. split; [| exact Hpara].
    rewrite Hself. f_equal.
    rewrite take_ge by lia. rewrite drop_ge by lia. apply app_nil_r.
Qed.

Lemma run_Fitness_new s :
  (String.length input_dir ≤ 190)%nat →
  0 < Z.of_nat (length train) ≤ Mach.INT_MAX →
  0 < batch_size (para s) ≤ Mach.INT_MAX → 0 < dc →
  ∃ s',
    Fitness_new input_dir dc train test s = Some (tt, s')
    ∧ num_batches (self s')
      = (Z.of_nat (length train) - 1) / batch_size (para s) + 1
    ∧ para s'
      = with_batch_size (para s)
          ((Z.of_nat (length train) - 1) / num_batches (self s') + 1)
    ∧ train_set (self s')
      = batch_row (para s') <$> seqZ 0 (num_batches (self s'))
    ∧ test_set (self s') = test_row (para s')
    ∧ is_Some (potential (self s'))
    ∧ fid_loss_out (self s') = input_dir +:+ "/loss.out".
Proof.
  intros Hlen Hsize Hb Hdc.
  set (size := Z.of_nat (length train)) in *.
  set (nb := (size - 1) / batch_size (para s) + 1).
  assert (0 < nb ≤ size) as Hnb.
  { unfold nb. split.
    - pose proof (Z.div_pos (size - 1) (batch_size (para s))). lia.
    - assert ((size - 1) / batch_size (para s) ≤ size - 1); [| lia].
      apply Z.div_le_upper_bound; [lia | nia]. }
  set (bs := (size - 1) / nb + 1).
  set (p' := with_batch_size (para s) bs).
  set (F := with_num_batches (self s) nb).
  unfold Fitness_new. fold size.
  rewrite file_name_fits by (cbn [String.length]; lia). mrunx.
  rewrite (lift_Some _ _ _ (ceil_size_spec size _ Hsize Hb)). fold nb. mrunx.
  unfold set_self. mrunx.
  rewrite (lift_Some _ _ _ (ceil_size_spec size nb Hsize
                              ltac:(unfold Mach.INT_MAX in *; lia))).
  fold bs. mrunx. unfold set_para. mrunx. fold p'.
  assert (∀ st : Mem,
            ∃ st', (if batch_size (para s) =? bs then ret tt
                    else emit (Printf
                      "Hello, I changed the batch_size from %d to %d.\n"
                      [AInt (batch_size (para s)); AInt bs])) st
                   = Some (tt, st')
                   ∧ self st' = self st ∧ para st' = para st) as Hhello.
  { intros st. destruct (batch_size (para s) =? bs); eexists;
      (split; [reflexivity | split; reflexivity]). }
  match goal with
  | |- ∃ s', match _ ?st with _ => _ end = _ ∧ _ =>
      destruct (Hhello st) as (s1 & E1 & S1 & P1)
  end.
  rewrite E1. mrunx. cbn [self para] in S1, P1.
  rewrite (new_vector_Some nb _ ltac:(lia)). mrunx.
  rewrite S1. fold F.
  match goal with
  | |- ∃ s', match for_int 0 nb _ ?st with _ => _ end = _ ∧ _ =>
      rewrite (run_resize_rows nb st F ltac:(lia) ltac:(lia) eq_refl)
  end.
  mrunx. rewrite P1. rewrite (new_vector_Some dc _ ltac:(lia)).
  match goal with
  | |- ∃ s', match for_int 0 nb _ ?st with _ => _ end = _ ∧ _ =>
      destruct (run_fill_train p' nb st F ltac:(lia) ltac:(lia) eq_refl)
        as (s2 & E2 & S2 & P2)
  end.
  cbn [para] in P2. cbv zeta in E2. fold size in E2. cbv zeta.
  rewrite E2. mrunx.   rewrite S2.
  set (F2 := with_train_set F (batch_row p' <$> seqZ 0 nb)).
  match goal with
  | |- ∃ s', match for_int 0 dc _ ?st with _ => _ end = _ ∧ _ =>
      destruct (run_fill_row TestSet
                  (λ device_id, construct input_dir p' test 0
                     (Mach.to_int (Z.of_nat (length test))) device_id)
                  "Constructing test_set in device  %d.\n" st
                  (λ v, with_test_set F2 v) ltac:(lia))
        as (s3 & E3 & S3 & P3);
        [intros v; reflexivity | intros v w; reflexivity | reflexivity |]
  end.
  cbn [para] in P3. rewrite E3. mrun.
  fold (test_row p') in S3.
  assert (∃ t0, at_ (test_row p') 0 = Some t0) as [t0 Ht0].
  { apply at_in_range. unfold test_row.
    rewrite length_fmap, length_seqZ. lia. }
  rewrite (run_load_ds TestSet 0 s3 (test_row p') t0)
    by (try rewrite S3; try reflexivity; exact Ht0).
  mrun. rewrite S3. cbn [train_set with_test_set F2 with_train_set].
  destruct (raise_max_Some (batch_row p' <$> seqZ 0 nb) nb
              (N t0, N t0 * ds_max_NN_radial t0, N t0 * ds_max_NN_angular t0,
               ds_max_NN_radial t0, ds_max_NN_angular t0))
    as ([[[[Nm Nr] Ng] r] a] & Er).
  { intros n Hn. 
    assert (at_ (batch_row p' <$> seqZ 0 nb) n = Some (batch_row p' n)) as ->.
    { apply at_Some. split; [lia |]. rewrite list_lookup_fmap.
      rewrite (lookup_seqZ_lt 0 nb (Z.to_nat n)) by lia. cbn.
      do 2 f_equal. lia. }
    cbn [mbind option_bind]. apply at_in_range. unfold batch_row.
    rewrite length_fmap, length_seqZ. lia. }
  rewrite (lift_Some _ _ _ Er). mrunx.
  eexists. split; [reflexivity |].
  cbn [self para emitted num_batches train_set test_set potential
       fid_loss_out with_fid_loss_out with_potential with_test_set
       with_train_set with_num_batches F2 F].
  rewrite P3, P2.
  repeat split; try reflexivity. eexists. reflexivity.
Qed.

End Constructor.

(** The constructor leaves a [Fitness] object of the shape the other
    methods rely on. *)
Lemma Fitness_new_fit_ok `{Collaborators} input_dir dc train test s :
  (String.length input_dir ≤ 190)%nat →
  0 < Z.of_nat (length train) ≤ Mach.INT_MAX →
  0 < batch_size (para s) ≤ Mach.INT_MAX → 0 < dc →
  ∃ s', Fitness_new input_dir dc train test s = Some (tt, s')
        ∧ fit_ok dc (self s') = true.
Proof.
  intros Hlen Hsize Hb Hdc.
  destruct (run_Fitness_new input_dir dc train test s Hlen Hsize Hb Hdc)
    as (s' & E & Hnb & Hp & Hts & Hte & Hpot & _).
  exists s'. split; [exact E |].
  assert (0 < num_batches (self s')) as Hpos.
  { rewrite Hnb.
    pose proof (Z.div_pos (Z.of_nat (length train) - 1) (batch_size (para s))).
    lia. }
  unfold fit_ok. rewrite !andb_true_iff. repeat split.
  - apply bool_decide_eq_true_2. exact Hpot.
  - apply Z.ltb_lt. exact Hdc.
  - apply Z.ltb_lt. exact Hpos.
  - apply Z.eqb_eq. rewrite Hts, length_fmap, length_seqZ. lia.
  - rewrite Hts. apply forallb_forall. intros v Hv.
    apply list_elem_of_In, list_elem_of_fmap in Hv as (b & -> & _).
    apply Z.eqb_eq. unfold batch_row. rewrite length_fmap, length_seqZ. lia.
  - apply Z.eqb_eq. rewrite Hte. unfold test_row.
    rewrite length_fmap, length_seqZ. lia.
Qed.

(** C2.  For a training set of [Nc_total > 0] structures and a requested
    batch size [b > 0] (both values of an [int]), at least one device and a
    directory name of at most 190 characters, so that the name of loss.out
    fits its buffer, the constructor ends; it sets [num_batches] to the
    ceiling of [Nc_total / b] and replaces [para.batch_size] by the ceiling
    [s] of [Nc_total / num_batches]; it builds the datasets of batch
    [batch_id], on every device, from the range
    [[batch_id * s, min Nc_total (batch_id * s + s))]; these ranges are not
    empty, and one after the other they are exactly [0], [1], ...,
    [Nc_total - 1].  The sums [batch_id * s + s] stay values of an [int]
    when [Nc_total + b] is one. *)
Theorem batch_partition `{Collaborators} input_dir dc train test s :
  (String.length input_dir ≤ 190)%nat →
  0 < Z.of_nat (length train) ≤ Mach.INT_MAX →
  0 < batch_size (para s) ≤ Mach.INT_MAX → 0 < dc →
  ∃ s' nb bs,
    Fitness_new input_dir dc train test s = Some (tt, s')
    ∧ num_batches (self s') = nb ∧ batch_size (para s') = bs
    ∧ batch_size (para s) * (nb - 1) < Z.of_nat (length train)
      ≤ batch_size (para s) * nb
    ∧ nb * (bs - 1) < Z.of_nat (length train) ≤ nb * bs
    ∧ train_set (self s')
      = (λ r, (λ device_id,
                 construct input_dir (para s') train r.1 r.2 device_id)
                <$> seqZ 0 dc)
          <$> batch_ranges (Z.of_nat (length train)) bs nb
    ∧ Z.of_nat (length (batch_ranges (Z.of_nat (length train)) bs nb)) = nb
    ∧ (∀ batch_id n1 n2,
         at_ (batch_ranges (Z.of_nat (length train)) bs nb) batch_id
         = Some (n1, n2) →
         n1 = batch_id * bs
         ∧ n2 = Z.min (Z.of_nat (length train)) (batch_id * bs + bs)
         ∧ 0 ≤ n1 < n2 ∧ n2 ≤ Z.of_nat (length train))
    ∧ batch_ranges (Z.of_nat (length train)) bs nb
        ≫= (λ r, seqZ r.1 (r.2 - r.1))
      = seqZ 0 (Z.of_nat (length train))
    ∧ (Z.of_nat (length train) + batch_size (para s) ≤ Mach.INT_MAX →
       ∀ batch_id, 0 ≤ batch_id < nb →
                   0 ≤ batch_id * bs ∧ batch_id * bs + bs ≤ Mach.INT_MAX).
Proof.
  intros Hlen Hsize Hb Hdc.
  destruct (run_Fitness_new input_dir dc train test s Hlen Hsize Hb Hdc)
    as (s' & E & Hnb & Hp & Hts & _).
  set (size := Z.of_nat (length train)) in *.
  set (b := batch_size (para s)) in *.
  exists s', (num_batches (self s')), (batch_size (para s')).
  set (nb := num_batches (self s')) in *.
  assert (batch_size (para s') = (size - 1) / nb + 1) as Hbs
    by (rewrite Hp; reflexivity).
  set (bs := batch_size (para s')) in *.
  pose proof (ceil_bounds size b ltac:(lia) ltac:(lia)) as Hc1.
  rewrite <- Hnb in Hc1.
  assert (0 < nb) as Hnbpos by (pose proof (Z.div_pos (size - 1) b); lia).
  pose proof (ceil_bounds size nb ltac:(lia) Hnbpos) as Hc2.
  rewrite <- Hbs in Hc2.
  assert (0 < bs ≤ b) as Hbsb.
  { split; [pose proof (Z.div_pos (size - 1) nb); lia |].
    assert ((size - 1) / nb < b); [| lia].
    apply Z.div_lt_upper_bound; lia. }
  split; [exact E |]. split; [reflexivity |]. split; [reflexivity |].
  split; [lia |]. split; [lia |].
  split.
  { rewrite Hts. unfold batch_ranges. rewrite <- list_fmap_compose.
    reflexivity. }
  split; [unfold batch_ranges; rewrite length_fmap, length_seqZ; lia |].
  split.
  - intros batch_id n1 n2 [Hid Hr]%at_Some.
    unfold batch_ranges in Hr. rewrite list_lookup_fmap in Hr.
    destruct (seqZ 0 nb !! Z.to_nat batch_id) as [k|] eqn:Ek; [| discriminate].
    apply lookup_seqZ in Ek as [-> Hlt]. injection Hr as <- <-.
    replace (0 + Z.of_nat (Z.to_nat batch_id)) with batch_id by lia.
    unfold batch_n2, batch_n1. unfold Mach.INT_MAX in Hsize.
    rewrite to_int_small by lia. fold size.
    assert (batch_id * bs ≤ (nb - 1) * bs) by nia. nia.
  - split; [apply batch_ranges_cover; lia |].
    intros Hsum batch_id Hid.
    assert (batch_id * bs ≤ (nb - 1) * bs) by nia. nia.
Qed.

Lemma batch_partition_witness :
  ∃ s' nb bs,
    Fitness_new (H := Model.collaborators) "." 1 Example.train3 [] Example.fresh
    = Some (tt, s')
    ∧ num_batches (self s') = nb ∧ batch_size (para s') = bs
    ∧ 2 * (nb - 1) < 3 ≤ 2 * nb
    ∧ nb * (bs - 1) < 3 ≤ nb * bs
    ∧ train_set (self s')
      = (λ r, (λ device_id,
                 Model.build "." (para s') Example.train3 r.1 r.2 device_id)
                <$> seqZ 0 1)
          <$> batch_ranges 3 bs nb
    ∧ Z.of_nat (length (batch_ranges 3 bs nb)) = nb
    ∧ (∀ batch_id n1 n2,
         at_ (batch_ranges 3 bs nb) batch_id = Some (n1, n2) →
         n1 = batch_id * bs ∧ n2 = Z.min 3 (batch_id * bs + bs)
         ∧ 0 ≤ n1 < n2 ∧ n2 ≤ 3)
    ∧ batch_ranges 3 bs nb ≫= (λ r, seqZ r.1 (r.2 - r.1)) = seqZ 0 3
    ∧ (3 + 2 ≤ Mach.INT_MAX →
       ∀ batch_id, 0 ≤ batch_id < nb →
                   0 ≤ batch_id * bs ∧ batch_id * bs + bs ≤ Mach.INT_MAX).
Proof.
  apply (batch_partition (H := Model.collaborators) "." 1 Example.train3 []
           Example.fresh);
    [simpl; lia
    | vm_compute; split; [reflexivity | discriminate]
    | vm_compute; split; [reflexivity | discriminate]
    | lia].
Defined.

(** * More of fitness.cu

    ** Reading a run backwards

    What is known of the steps of a computation that has ended. *)

Lemma bind_inv {A B} (m : M A) (k : A → M B) s r :
  (m ≫= k) s = Some r → ∃ a s1, m s = Some (a, s1) ∧ k a s1 = Some r.
Proof.
  rewrite bind_run. destruct (m s) as [[a s1]|]; [| discriminate].
  intros E. exists a, s1. split; [reflexivity | exact E].
Qed.

Lemma lift_inv {A} (o : option A) s a s' :
  lift o s = Some (a, s') → o = Some a ∧ s' = s.
Proof.
  unfold lift. destruct o; [| discriminate].
  intros E. injection E as -> ->. split; reflexivity.
Qed.

Lemma set_at_inv {A} (v : list A) (i : Z) (x : A) v' :
  set_at v i x = Some v' →
  0 ≤ i < Z.of_nat (length v) ∧ v' = <[Z.to_nat i := x]> v.
Proof.
  unfold set_at. destruct (Z.leb_spec 0 i); [| discriminate].
  destruct (Z.ltb_spec i (Z.of_nat (length v))); [| discriminate].
  cbn [andb]. intros E. injection E as <-. split; [lia | reflexivity].
Qed.

Section Inversion.

Context `{Collaborators}.

Lemma load_vec_inv r s v s' :
  load_vec r s = Some (v, s') → vec_of (self s) r = Some v ∧ s' = s.
Proof.
  unfold load_vec. rewrite bind_run. cbn [get_self]. cbv beta iota.
  destruct r; cbn [vec_of].
  - intros [E ->]%lift_inv. split; [exact E | reflexivity].
  - intros E. injection E as <- <-. split; reflexivity.
Qed.

Lemma store_vec_inv r v s a s' :
  store_vec r v s = Some (a, s') →
  (∃ v0, vec_of (self s) r = Some v0)
  ∧ s' = upd s (with_vec (self s) r v) (fitness s).
Proof.
  unfold store_vec. rewrite bind_run. cbn [get_self]. cbv beta iota.
  destruct r; cbn [vec_of with_vec].
  - intros (ts & s1 & [E ->]%lift_inv & E2)%bind_inv.
    apply set_at_inv in E as [Hb ->].
    injection E2 as _ <-. split; [| reflexivity].
    apply at_in_range. exact Hb.
  - intros E. injection E as _ <-. split; [eexists |]; reflexivity.
Qed.

Lemma load_ds_inv r m s d s' :
  load_ds r m s = Some (d, s') →
  (∃ v, vec_of (self s) r = Some v ∧ at_ v m = Some d) ∧ s' = s.
Proof.
  unfold load_ds.
  intros (v & s1 & [Ev ->]%load_vec_inv & [Ed ->]%lift_inv)%bind_inv.
  split; [exists v; split; assumption | reflexivity].
Qed.

Lemma store_ds_inv r m d s a s' :
  store_ds r m d s = Some (a, s') →
  ∃ v, vec_of (self s) r = Some v ∧ 0 ≤ m < Z.of_nat (length v)
       ∧ s' = upd s (with_vec (self s) r (<[Z.to_nat m := d]> v)) (fitness s).
Proof.
  unfold store_ds.
  intros (v & s1 & [Ev ->]%load_vec_inv & E)%bind_inv.
  apply bind_inv in E as (v' & s2 & [Es ->]%lift_inv & E).
  apply set_at_inv in Es as [Hm ->].
  apply store_vec_inv in E as [_ ->].
  exists v. repeat split; try assumption; lia.
Qed.

Lemma find_force_inv x r flag k s a s' :
  potential_find_force x r flag k s = Some (a, s') →
  ∃ pot ds,
    potential (self s) = Some pot ∧ vec_of (self s) r = Some ds
    ∧ s' = upd s (with_vec (self s) r (find_force pot (para s) x ds flag k))
             (fitness s).
Proof.
  unfold potential_find_force. rewrite bind_run. cbn [get_self].
  cbv beta iota.
  intros (pot & s1 & [Ep ->]%lift_inv & E)%bind_inv.
  rewrite bind_run in E. cbn [get_para] in E. cbv beta iota in E.
  apply bind_inv in E as (ds & s2 & [Ev ->]%load_vec_inv & E).
  apply store_vec_inv in E as [_ ->].
  exists pot, ds. repeat split; assumption.
Qed.

Lemma store_fitness_inv i x s a s' :
  store_fitness i x s = Some (a, s') →
  0 ≤ i < Z.of_nat (length (fitness s))
  ∧ s' = upd s (self s) (<[Z.to_nat i := x]> (fitness s)).
Proof.
  unfold store_fitness. rewrite bind_run. cbn [get_fitness]. cbv beta iota.
  intros (v & s1 & [E ->]%lift_inv & E2)%bind_inv.
  apply set_at_inv in E as [Hi ->]. injection E2 as _ <-.
  split; [exact Hi | reflexivity].
Qed.

Lemma add_elite_inv i x s a s' :
  add_elite i x s = Some (a, s') →
  ∃ old, at_ (elite s) i = Some old
    ∧ s' = {| self := self s; para := para s; fitness := fitness s;
              elite := <[Z.to_nat i := F32.add old x]> (elite s);
              out := out s |}.
Proof.
  unfold add_elite. rewrite bind_run. cbn [get_elite]. cbv beta iota.
  intros (old & s1 & [E ->]%lift_inv & E2)%bind_inv.
  apply bind_inv in E2 as (v & s2 & [Ev ->]%lift_inv & E2).
  apply set_at_inv in Ev as [_ ->]. injection E2 as _ <-.
  exists old. split; [exact E | reflexivity].
Qed.

End Inversion.

Lemma read_inv {A} (f : Mem → A) s a s' :
  (λ t, Some (f t, t)) s = Some (a, s') → s' = s ∧ a = f s.
Proof. intros E. injection E as <- <-. split; reflexivity. Qed.

Lemma ret_inv {A} (x : A) s a s' : ret x s = Some (a, s') → s' = s ∧ a = x.
Proof. intros E. injection E as <- <-. split; reflexivity. Qed.

Lemma emit_inv e s a s' : emit e s = Some (a, s') → s' = emitted s [e].
Proof. intros E. injection E as _ <-. reflexivity. Qed.

Lemma set_self_inv f s a s' :
  set_self f s = Some (a, s') →
  s' = {| self := f; para := para s; fitness := fitness s; elite := elite s;
          out := out s |}.
Proof. intros E. injection E as _ <-. reflexivity. Qed.

Lemma set_para_inv p s a s' :
  set_para p s = Some (a, s') →
  s' = {| self := self s; para := p; fitness := fitness s; elite := elite s;
          out := out s |}.
Proof. intros E. injection E as _ <-. reflexivity. Qed.

(** One step of a run that has ended: the state after it is written in
    terms of the state before it. *)
Ltac minv_value E :=
  match type of E with
  | ?x = _ => first [subst x | clear E]
  end.

Ltac minv_prim E :=
  first
    [ apply lift_inv in E as [E ->];
      try first [ apply file_name_inv in E as [-> _]
                | apply new_vector_inv in E as [_ ->] ]
    | apply (read_inv self) in E as [-> E]; minv_value E
    | apply (read_inv para) in E as [-> E]; minv_value E
    | apply (read_inv fitness) in E as [-> E]; minv_value E
    | apply (read_inv elite) in E as [-> E]; minv_value E
    | apply ret_inv in E as [-> E]; minv_value E
    | apply emit_inv in E as ->
    | apply set_self_inv in E as ->
    | apply set_para_inv in E as ->
    | apply load_vec_inv in E as [E ->]
    | apply load_ds_inv in E as [E ->]
    | apply store_vec_inv in E as [E ->]
    | apply store_ds_inv in E as (? & ? & ? & ->)
    | apply find_force_inv in E as (? & ? & ? & ? & ->)
    | apply store_fitness_inv in E as [E ->]
    | apply add_elite_inv in E as (? & E & ->) ].

Ltac minv_norm :=
  cbn [self para fitness elite out upd emitted] in *.

Ltac minv H :=
  lazymatch type of H with
  | (_ ≫= _) _ = Some _ =>
      let a := fresh "a" in
      let s1 := fresh "s" in
      let E := fresh "E" in
      apply bind_inv in H as (a & s1 & E & H); minv E; minv H
  | (let (_, _) := ?e in _) _ = Some _ =>
      first [ is_var e; destruct e
            | rewrite (surjective_pairing e) in H ];
      cbv beta iota in H; minv H
  | _ => try (minv_prim H; minv_norm)
  end.

Section Preserves.

Context (R : Mem → Mem → Prop) `{!PreOrder R}.

Lemma preserves_ret {A} (a : A) : preserves R (ret a).
Proof. intros s b s' E. injection E as _ <-. reflexivity. Qed.

Lemma preserves_read {A} (f : Mem → A) : preserves R (λ s, Some (f s, s)).
Proof. intros s b s' E. injection E as _ <-. reflexivity. Qed.

Lemma preserves_load_ds `{Collaborators} r m : preserves R (load_ds r m).
Proof. intros s b s' [_ ->]%load_ds_inv. reflexivity. Qed.

Lemma preserves_lift {A} (o : option A) : preserves R (lift o).
Proof. intros s b s' [_ ->]%lift_inv. reflexivity. Qed.

Lemma preserves_bind {A B} (m : M A) (k : A → M B) :
  preserves R m → (∀ a, preserves R (k a)) → preserves R (m ≫= k).
Proof.
  intros Hm Hk s b s' (a & s1 & E1 & E2)%bind_inv.
  transitivity s1; [exact (Hm _ _ _ E1) | exact (Hk _ _ _ _ E2)].
Qed.

Lemma preserves_for_each {A} (l : list A) (body : A → M unit) :
  (∀ x, x ∈ l → preserves R (body x)) → preserves R (for_each l body).
Proof.
  induction l as [|x l IH]; intros Hb.
  - apply preserves_ret.
  - cbn [for_each]. apply preserves_bind.
    + apply Hb. left.
    + intros _. apply IH. intros y Hy. apply Hb. right. exact Hy.
Qed.

Lemma preserves_for_int (lo hi : Z) (body : Z → M unit) :
  (∀ i, lo ≤ i < hi → preserves R (body i)) →
  preserves R (for_int lo hi body).
Proof.
  intros Hb. apply preserves_for_each. intros i Hi.
  apply elem_of_seqZ in Hi. apply Hb. lia.
Qed.

End Preserves.

(** ** The shape of the state is kept *)

Lemma fit_ok_intro dc f pot :
  potential f = Some pot → 0 < dc → 0 < num_batches f →
  Z.of_nat (length (train_set f)) = num_batches f →
  (∀ b v, train_set f !! b = Some v → Z.of_nat (length v) = dc) →
  Z.of_nat (length (test_set f)) = dc →
  fit_ok dc f = true.
Proof.
  intros Hpot Hdc Hnb Hts Hrow Hte. unfold fit_ok.
  rewrite !andb_true_iff. repeat split.
  - apply bool_decide_eq_true_2. rewrite Hpot. eexists. reflexivity.
  - apply Z.ltb_lt. exact Hdc.
  - apply Z.ltb_lt. exact Hnb.
  - apply Z.eqb_eq. exact Hts.
  - apply forallb_forall. intros v Hv.
    apply list_elem_of_In, list_elem_of_lookup in Hv as [b Hv].
    apply Z.eqb_eq. exact (Hrow b v Hv).
  - apply Z.eqb_eq. exact Hte.
Qed.

Lemma mem_ok_intro dc s :
  shaped dc (length (q_scaler_cpu (para s))) s →
  0 < number_of_variables_ann (para s) ≤ Z.of_nat (length (elite s)) →
  number_of_variables (para s) ≤ Z.of_nat (length (elite s)) →
  num_types (para s) ≤ Z.of_nat (length (elements (para s))) →
  mem_ok dc s = true.
Proof.
  intros (Hf & Htr & Hte & _) Ha Hv Ht. unfold mem_ok.
  rewrite Hf, Htr, Hte. cbn [andb]. rewrite !andb_true_iff.
  repeat split; first [apply Z.ltb_lt | apply Z.leb_le]; lia.
Qed.

Section ShapeKept.

Context `{Contract}.

Lemma evaluated_shape pot p dc pop v n q :
  forallb (ds_ok q) v = true →
  forallb (ds_ok q) (evaluated pot p dc pop v n) = true.
Proof.
  intros Hv. induction n as [|n IH]; cbn [evaluated];
    apply find_force_shape; assumption.
Qed.

Lemma before_chunk_shape pot p dc pop v n q :
  forallb (ds_ok q) v = true →
  forallb (ds_ok q) (before_chunk pot p dc pop v n) = true.
Proof.
  intros Hv. destruct n; [exact Hv | apply evaluated_shape; exact Hv].
Qed.

Lemma warm_test_length pot p v n : length (warm_test pot p v n) = length v.
Proof.
  induction n as [|n IH]; cbn [warm_test]; [reflexivity |].
  rewrite find_force_length. exact IH.
Qed.

Lemma warm_test_shape pot p v n q :
  forallb (ds_ok q) v = true → forallb (ds_ok q) (warm_test pot p v n) = true.
Proof.
  intros Hv. induction n as [|n IH]; cbn [warm_test]; [exact Hv |].
  apply find_force_shape. exact IH.
Qed.

Lemma shaped_warm_up dc q s pot :
  shaped dc q s → potential (self s) = Some pot →
  shaped dc q
    (upd s
       (with_test_set
          (with_train_set (self s)
             (warm_train pot (para s) dc <$> train_set (self s)))
          (warm_test pot (para s) (test_set (self s))
             (length (train_set (self s)))))
       (fitness s)).
Proof.
  intros (Hf & Htr & Hte & Hq) Hpot.
  destruct (fit_ok_inv _ _ Hf) as (_ & Hdc & Hnb & Hts & Hrow & Htl).
  repeat split; cbn [self para upd train_set test_set with_test_set
                     with_train_set]; [| | | exact Hq].
  - apply (fit_ok_intro dc _ pot); cbn; try assumption.
    + rewrite length_fmap. exact Hts.
    + intros b v Hv. rewrite list_lookup_fmap in Hv.
      destruct (train_set (self s) !! b) as [w|] eqn:Ew; [| discriminate].
      injection Hv as <-. unfold warm_train. rewrite find_force_length.
      exact (Hrow b w Ew).
    + rewrite warm_test_length. exact Htl.
  - apply forallb_forall. intros v Hv.
    apply list_elem_of_In, list_elem_of_fmap in Hv as (w & -> & Hw).
    unfold warm_train. apply find_force_shape.
    rewrite forallb_forall in Htr. apply Htr, list_elem_of_In. exact Hw.
  - apply warm_test_shape. exact Hte.
Qed.

End ShapeKept.

(** X1.  [Fitness::compute] keeps the state well formed: from a state that
    satisfies [mem_ok], with a [number_of_variables] that is not negative
    (and, for a scoring generation, with a population of at least one
    individual and a [fitness] buffer of at least [3 * population_size]
    values) it ends in a state that satisfies [mem_ok] again, with a
    [fitness] buffer of the same length and the same
    [number_of_variables].  So a generation can follow any generation or
    checkpoint. *)
Theorem compute_keeps_mem_ok `{Contract} dc g pop s :
  mem_ok dc s = true → 0 ≤ g → 0 ≤ number_of_variables (para s) →
  (g ≠ 0 → 0 < population_size (para s)
           ∧ 3 * population_size (para s) ≤ Z.of_nat (length (fitness s))) →
  ∃ s', compute dc g pop s = Some (tt, s')
        ∧ mem_ok dc s' = true
        ∧ length (fitness s') = length (fitness s)
        ∧ para s' = para s.
Proof.
  intros Hok Hg Hnv HP.
  destruct (mem_ok_inv _ _ Hok) as (Hsh & Ha & Hv & Ht).
  pose proof Hsh as (Hf & Htr & Hte & _).
  destruct (fit_ok_inv _ _ Hf) as ([pot Hpot] & Hdc & Hnb & Hts & Hrow & _).
  destruct (Z.eq_dec g 0) as [-> | Hg0].
  - eexists. split.
    { unfold compute. mrun.
      unfold min_population_iter, Mach.int_div.
      destruct (Z.eqb_spec dc 0); [lia |]. cbn [mbind option_bind lift]. mrun.
      cbn [Z.eqb]. rewrite (new_vector_Some _ _ Hnv), bind_run, lift_pure.
      cbv beta iota. rewrite <- Hts.
      apply (run_warm_up s pot dc Hpot). }
    split; [| split; reflexivity].
    apply mem_ok_intro; cbn [para elite upd]; try assumption.
    apply shaped_warm_up; assumption.
  - destruct (HP Hg0) as [HP1 HP2].
    destruct (compute_scoring dc g pop s Hf ltac:(lia) HP1 HP2)
      as (pot' & v0 & Hpot' & Hv0 & Hv0len & E).
    eexists. split; [exact E |]. unfold scoring_state.
    split; [| split; [cbn [fitness upd]; apply stored_length | reflexivity]].
    apply mem_ok_intro; cbn [para elite upd]; try assumption.
    apply (shaped_with_vec dc _ s (TrainSet (g mod num_batches (self s))) v0);
      [exact Hsh | exact Hv0 | apply before_chunk_length |].
    apply before_chunk_shape.
    apply at_Some in Hv0 as [_ Hv0].
    exact (forallb_lookup _ _ _ _ Htr Hv0).
Qed.

Lemma compute_keeps_mem_ok_witness :
  ∃ s', compute (H := Model.collaborators) 1 1 Example.population
          Example.mem_exact = Some (tt, s')
        ∧ mem_ok 1 s' = true
        ∧ length (fitness s') = length (fitness Example.mem_exact)
        ∧ para s' = para Example.mem_exact.
Proof.
  apply (compute_keeps_mem_ok (H := Model.collaborators) (H0 := model_contract)
           1 1 Example.population Example.mem_exact);
    [vm_compute; reflexivity | lia | vm_compute; discriminate
    | intros _; vm_compute; split; [reflexivity | discriminate]].
Defined.

(** ** Lines printed to files *)

Lemma writes_to_refl ps s : writes_to ps s s.
Proof.
  repeat split. exists []. split; [symmetry; apply app_nil_r | constructor].
Qed.

Lemma writes_to_trans ps s1 s2 s3 :
  writes_to ps s1 s2 → writes_to ps s2 s3 → writes_to ps s1 s3.
Proof.
  intros (A1 & B1 & C1 & D1 & e1 & O1 & F1) (A2 & B2 & C2 & D2 & e2 & O2 & F2).
  repeat split; try congruence.
  exists (e1 ++ e2). split; [rewrite O2, O1, app_assoc; reflexivity |].
  apply Forall_app. split; assumption.
Qed.

Lemma writes_to_after ps s1 s2 s3 :
  writes_to ps s2 s3 → writes_to ps s1 s2 → writes_to ps s1 s3.
Proof. intros W2 W1. exact (writes_to_trans ps s1 s2 s3 W1 W2). Qed.

Global Instance writes_to_preorder ps : PreOrder (writes_to ps).
Proof.
  split; [intros s; apply writes_to_refl
         | intros s1 s2 s3; apply writes_to_trans].
Qed.

Lemma writes_to_mono ps qs s s' :
  (∀ p, p ∈ ps → p ∈ qs) → writes_to ps s s' → writes_to qs s s'.
Proof.
  intros Hsub (A & B & C & D & evs & O & F). repeat split; try assumption.
  exists evs. split; [exact O |].
  revert F. apply Forall_impl. intros [] He; cbn in *; auto.
Qed.

Lemma writes_to_sub p qs s s' :
  p ∈ qs → writes_to [p] s s' → writes_to qs s s'.
Proof.
  intros Hp. apply writes_to_mono. intros p' ->%list_elem_of_singleton.
  exact Hp.
Qed.

Lemma writes_to_emit ps p fmt args s :
  p ∈ ps → writes_to ps s (emitted s [Fprintf p fmt args]).
Proof.
  intros Hp. repeat split. eexists. split; [reflexivity |].
  constructor; [exact Hp | constructor].
Qed.

Lemma writes_to_intro ps s s' evs :
  self s' = self s → para s' = para s → fitness s' = fitness s →
  elite s' = elite s → out s' = out s ++ evs → Forall (line_to ps) evs →
  writes_to ps s s'.
Proof. intros A B C D O F. repeat split; try assumption. exists evs. auto. Qed.

Ltac lines :=
  first
    [ apply writes_to_refl
    | eapply writes_to_intro;
      [ reflexivity | reflexivity | reflexivity | reflexivity
      | cbn [out emitted]; rewrite <- ?app_assoc; reflexivity
      | repeat first [ apply Forall_nil_2
                     | apply Forall_cons_2; [cbn; repeat constructor |] ] ] ].

Lemma opened_lines ps evs : Forall (line_to ps) evs → opened evs = [].
Proof.
  induction 1 as [|e evs He _ IH]; [reflexivity |].
  destruct e; try contradiction. exact IH.
Qed.

Lemma writes_to_prints ps s s' : writes_to ps s s' → prints s s'.
Proof.
  intros (A & B & C & D & evs & O & F). repeat split; try assumption.
  exists evs. split; [exact O | exact (opened_lines ps evs F)].
Qed.

Lemma preserves_mono {A} (R Q : Mem → Mem → Prop) (m : M A) :
  (∀ s s', R s s' → Q s s') → preserves R m → preserves Q m.
Proof. intros HRQ Hm s a s' E. apply HRQ. exact (Hm s a s' E). Qed.

Section Lines.

Context `{Collaborators}.

Lemma predict_writes fid data ref d :
  preserves (writes_to [fid]) (predict_energy_or_stress fid data ref d).
Proof.
  unfold predict_energy_or_stress. apply preserves_for_int; [apply _ |].
  intros nc _ s a s' E. minv E. lines.
Qed.

Lemma force_line_writes fid d n :
  preserves (writes_to [fid]) (force_line fid d n).
Proof.
  intros s a s' E. unfold force_line in E. minv E. lines.
Qed.

End Lines.

(** ** What a checkpoint keeps *)

Lemma with_q_scaler_cpu_id p : with_q_scaler_cpu p (q_scaler_cpu p) = p.
Proof. destruct p; reflexivity. Qed.

Lemma checkpointed_refl s : checkpointed s s.
Proof.
  split; [reflexivity |]. split; [reflexivity |].
  split; [apply with_q_scaler_cpu_id |].
  repeat (split; [reflexivity |]).
  split; [exists []; symmetry; apply app_nil_r |].
  intros dc q Hs. exact Hs.
Qed.

Lemma checkpointed_trans s1 s2 s3 :
  checkpointed s1 s2 → checkpointed s2 s3 → checkpointed s1 s3.
Proof.
  intros (A1 & B1 & C1 & D1 & E1 & F1 & G1 & H1 & [e1 O1] & S1)
         (A2 & B2 & C2 & D2 & E2 & F2 & G2 & H2 & [e2 O2] & S2).
  split; [congruence |]. split; [congruence |].
  split; [rewrite <- C1, <- C2; reflexivity |].
  split; [congruence |]. split; [congruence |]. split; [congruence |].
  split; [congruence |]. split; [congruence |].
  split; [exists (e1 ++ e2); rewrite O2, O1, app_assoc; reflexivity |].
  intros dc q Hs. apply S2, S1, Hs.
Qed.

Lemma checkpointed_shaped dc q s s' :
  checkpointed s s' → shaped dc q s → shaped dc q s'.
Proof. intros (_ & _ & _ & _ & _ & _ & _ & _ & _ & S). apply S. Qed.

Lemma checkpointed_num_batches s s' :
  checkpointed s s' → num_batches (self s') = num_batches (self s).
Proof. intros (_ & _ & _ & D & _). exact D. Qed.

Global Instance checkpointed_preorder : PreOrder checkpointed.
Proof.
  split; [intros s; apply checkpointed_refl
         | intros s1 s2 s3; apply checkpointed_trans].
Qed.

Lemma writes_to_checkpointed ps s s' : writes_to ps s s' → checkpointed s s'.
Proof.
  intros (A & B & C & D & evs & O & _).
  split; [exact C |]. split; [rewrite D; reflexivity |].
  split; [rewrite B; apply with_q_scaler_cpu_id |].
  rewrite A. repeat (split; [reflexivity |]).
  split; [exists evs; exact O |].
  intros dc q Hs. exact (shaped_same dc q s s' Hs A B).
Qed.

Lemma checkpointed_intro s s' evs :
  self s' = self s → para s' = para s → fitness s' = fitness s →
  elite s' = elite s → out s' = out s ++ evs → checkpointed s s'.
Proof.
  intros A B C D O.
  split; [exact C |]. split; [rewrite D; reflexivity |].
  split; [rewrite B; apply with_q_scaler_cpu_id |].
  rewrite A. repeat (split; [reflexivity |]).
  split; [exists evs; exact O |].
  intros dc q Hs. exact (shaped_same dc q s s' Hs A B).
Qed.

Ltac outs :=
  eapply checkpointed_intro;
  [ reflexivity | reflexivity | reflexivity | reflexivity
  | cbn [out emitted]; rewrite <- ?app_assoc; reflexivity ].

Lemma checkpointed_emitted s evs : checkpointed s (emitted s evs).
Proof.
  split; [reflexivity |]. split; [reflexivity |].
  split; [apply with_q_scaler_cpu_id |].
  repeat (split; [reflexivity |]).
  split; [exists evs; reflexivity |].
  intros dc q Hs. exact Hs.
Qed.

Lemma shaped_vec_of dc q s r v :
  shaped dc q s → vec_of (self s) r = Some v → forallb (ds_ok q) v = true.
Proof.
  intros (_ & Htr & Hte & _) Hv. destruct r as [b|]; cbn [vec_of] in Hv.
  - apply at_Some in Hv as [_ Hv]. exact (forallb_lookup _ _ _ _ Htr Hv).
  - injection Hv as <-. exact Hte.
Qed.

Lemma checkpointed_with_vec s r v0 v :
  vec_of (self s) r = Some v0 → length v = length v0 →
  (∀ q, forallb (ds_ok q) v0 = true → forallb (ds_ok q) v = true) →
  checkpointed s (upd s (with_vec (self s) r v) (fitness s)).
Proof.
  intros Hv0 Hlen Hok.
  destruct (with_vec_frame (self s) r v) as (A & B & C & D & E).
  split; [reflexivity |]. split; [reflexivity |].
  split; [apply with_q_scaler_cpu_id |].
  cbn [self upd]. repeat (split; [assumption |]).
  split; [exists []; symmetry; apply app_nil_r |].
  intros dc q Hs.
  apply (shaped_with_vec dc q s r v0 v); try assumption.
  apply Hok. exact (shaped_vec_of dc q s r v0 Hs Hv0).
Qed.

Lemma ds_ok_with_host_copy q d e v f :
  ds_ok q d = true →
  copy_to_host (energy d) (energy_cpu d) = Some e →
  copy_to_host (virial d) (virial_cpu d) = Some v →
  copy_to_host (force d) (force_cpu d) = Some f →
  ds_ok q (with_host d e v f) = true.
Proof.
  intros Hd He Hv Hf.
  apply copy_to_host_length in He, Hv, Hf.
  unfold ds_ok in *. cbn [N Nc Na_cpu Na_sum_cpu structures energy virial
    force energy_cpu virial_cpu force_cpu energy_ref_cpu virial_ref_cpu
    force_ref_cpu q_scaler_gpu with_host].
  rewrite He, Hv, Hf. exact Hd.
Qed.

Section KeptByCheckpoint.

Context `{Contract}.

Lemma find_force_checkpointed x r flag k :
  preserves checkpointed (potential_find_force x r flag k).
Proof.
  intros s a s' (pot & ds & Hpot & Hds & ->)%find_force_inv.
  apply (checkpointed_with_vec s r ds); [exact Hds | |].
  - apply find_force_length.
  - intros q. apply find_force_shape.
Qed.

Lemma add_elite_checkpointed i x : preserves checkpointed (add_elite i x).
Proof.
  intros s a s' (old & _ & ->)%add_elite_inv.
  split; [reflexivity |]. split; [cbn; apply length_insert |].
  split; [apply with_q_scaler_cpu_id |].
  repeat (split; [reflexivity |]).
  split; [exists []; symmetry; apply app_nil_r |].
  intros dc q Hs. exact Hs.
Qed.

Lemma force_lines_write fid d :
  preserves (writes_to [fid])
    (for_int 0 (Nc d) (λ nc,
       off ← lift (at_ (Na_sum_cpu d) nc);
       st ← lift (at_ (structures d) nc);
       for_int 0 (num_atom st) (λ m, force_line fid d (off + m)))).
Proof.
  apply preserves_for_int; [apply _ |]. intros nc _.
  apply preserves_bind; [apply _ | apply preserves_lift; apply _ |].
  intros off. apply preserves_bind; [apply _ | apply preserves_lift; apply _ |].
  intros st. apply preserves_for_int; [apply _ |]. intros m _.
  apply force_line_writes.
Qed.

Lemma update_efv_inv fe ff fv r m s a s' :
  update_energy_force_virial fe ff fv r m s = Some (a, s') →
  ∃ v d e vv f,
    vec_of (self s) r = Some v ∧ at_ v m = Some d
    ∧ copy_to_host (energy d) (energy_cpu d) = Some e
    ∧ copy_to_host (virial d) (virial_cpu d) = Some vv
    ∧ copy_to_host (force d) (force_cpu d) = Some f
    ∧ writes_to [fe; ff; fv]
        (upd s (with_vec (self s) r (<[Z.to_nat m := with_host d e vv f]> v))
           (fitness s)) s'.
Proof.
  intros E. unfold update_energy_force_virial in E. minv E.
  destruct E0 as (v & Hv & Hd).
  assert (x = v) by congruence. subst x.
  exists v, a0, a1, a2, a3. repeat (split; [assumption |]).
  apply force_lines_write in E4.
  repeat match goal with
         | E : predict_energy_or_stress _ _ _ _ _ = Some _ |- _ =>
             apply predict_writes in E
         end.
  repeat match goal with
         | E : writes_to [_] _ _ |- _ =>
             apply (writes_to_sub _ [fe; ff; fv]) in E; [| repeat constructor]
         end.
  repeat first [eassumption | etransitivity; [eassumption |]].
Qed.

Lemma update_efv_checkpointed fe ff fv r m :
  preserves checkpointed (update_energy_force_virial fe ff fv r m).
Proof.
  intros s a s' (v & d & e & vv & f & Hv & Hd & He & Hvv & Hf & Hw)%update_efv_inv.
  etransitivity; [| exact (writes_to_checkpointed _ _ _ Hw)].
  apply (checkpointed_with_vec s r v); [exact Hv | apply length_insert |].
  intros q Hq. apply forallb_insert; [exact Hq |].
  apply ds_ok_with_host_copy; try assumption.
  apply at_Some in Hd as [_ Hd]. exact (forallb_lookup _ _ _ _ Hq Hd).
Qed.

Lemma nep_header_writes fid p : preserves (writes_to [fid]) (nep_header fid p).
Proof.
  intros s a s' E. unfold nep_header in E.
  destruct (version p =? 2); [| destruct (version p =? 3)];
    try destruct (enable_zbl p); minv E; lines.
Qed.

Lemma nep_basis_writes fid p f :
  preserves (writes_to [fid]) (nep_basis fid p f).
Proof.
  intros s a s' E. unfold nep_basis in E.
  destruct (version p =? 3); minv E; lines.
Qed.

Lemma elements_loop_writes fid p :
  preserves (writes_to [fid])
    (for_int 0 (num_types p) (λ n,
       e ← lift (at_ (elements p) n);
       emit (Fprintf fid "%s " [AStr e]))).
Proof.
  apply preserves_for_int; [apply _ |]. intros n _ s a s' E. minv E. lines.
Qed.

Lemma elite_loop_writes fid (n : Z) :
  preserves (writes_to [fid])
    (for_int 0 n (λ m,
       v ← get_elite;
       x ← lift (at_ v m);
       emit (Fprintf fid "%15.7e\n" [AFloat x]))).
Proof.
  apply preserves_for_int; [apply _ |]. intros m _ s a s' E. minv E. lines.
Qed.

Lemma scaler_loop_writes fid (q : list float) :
  preserves (writes_to [fid])
    (for_int 0 (Z.of_nat (length q)) (λ d,
       x ← lift (at_ q d);
       emit (Fprintf fid "%15.7e\n" [AFloat x]))).
Proof.
  apply preserves_for_int; [apply _ |]. intros m _ s a s' E. minv E. lines.
Qed.

Lemma write_nep_inv input_dir s a s' :
  write_nep input_dir s = Some (a, s') →
  ∃ v d00 q s1 s2,
    at_ (train_set (self s)) 0 = Some v ∧ at_ v 0 = Some d00
    ∧ copy_to_host (q_scaler_gpu d00) (q_scaler_cpu (para s)) = Some q
    ∧ writes_to [input_dir +:+ "/nep.txt"]
        (emitted s [Fopen (input_dir +:+ "/nep.txt") "w"]) s1
    ∧ writes_to [input_dir +:+ "/nep.txt"]
        {| self := self s1; para := with_q_scaler_cpu (para s) q;
           fitness := fitness s1; elite := elite s1; out := out s1 |} s2
    ∧ s' = emitted s2 [Fclose (input_dir +:+ "/nep.txt")].
Proof.
  intros E. unfold write_nep in E. minv E.
  apply nep_header_writes in E0. apply elements_loop_writes in E1.
  apply nep_basis_writes in E3. apply elite_loop_writes in E4.
  apply scaler_loop_writes in E7.
  assert (writes_to [input_dir +:+ "/nep.txt"] s1 s2) as W2.
  { destruct (enable_zbl (para s)); minv E2; lines. }
  clear E2.
  apply (writes_to_after _ s3) in E4; [| lines].
  assert (writes_to [input_dir +:+ "/nep.txt"]
            (emitted s [Fopen (input_dir +:+ "/nep.txt") "w"]) s4) as W.
  { repeat first [eassumption | etransitivity; [eassumption |]]. }
  destruct E5 as (v & Hv & Hd).
  destruct W as (Ws & Wp & Wf & We & Wo). cbn [self emitted] in Ws.
  rewrite Ws in Hv. cbn [vec_of] in Hv.
  exists v, a5, a6, s4, s5. repeat (split; [assumption |]).
  split; [repeat split; assumption |].
  split; [exact E7 |]. reflexivity.
Qed.

Lemma write_nep_checkpointed input_dir :
  preserves checkpointed (write_nep input_dir).
Proof.
  intros s a s' (v & d00 & q & s1 & s2 & Hv & Hd & Hq & W1 & W2 & ->)%write_nep_inv.
  etransitivity; [apply (checkpointed_emitted s) |].
  etransitivity; [exact (writes_to_checkpointed _ _ _ W1) |].
  etransitivity; [| etransitivity;
                    [exact (writes_to_checkpointed _ _ _ W2)
                    | apply checkpointed_emitted]].
  destruct W1 as (Ws & Wp & Wf & We & Wo). cbn [para emitted] in Wp.
  split; [reflexivity |]. split; [reflexivity |].
  split; [cbn [para]; rewrite Wp; destruct (para s); reflexivity |].
  repeat (split; [reflexivity |]).
  split; [exists []; symmetry; apply app_nil_r |].
  intros dc k (Hf & Htr & Hte & Hk). repeat split; try assumption.
  cbn [para with_q_scaler_cpu with_batch_size_q q_scaler_cpu].
  rewrite (copy_to_host_length _ _ _ Hq), <- Wp. exact Hk.
Qed.

Lemma dump_train_checkpointed input_dir :
  preserves checkpointed (dump_train input_dir).
Proof.
  intros s a s' E. unfold dump_train in E. minv E.
  assert (preserves checkpointed
            (for_int 0 (num_batches (self s)) (λ batch_id,
               v ← get_elite;
               potential_find_force v (TrainSet batch_id) false 1;;
               update_energy_force_virial
                 (input_dir +:+ "/energy_train.out")
                 (input_dir +:+ "/force_train.out")
                 (input_dir +:+ "/virial_train.out") (TrainSet 0) batch_id)))
    as Hloop.
  { apply preserves_for_int; [apply _ |]. intros b _.
    intros s1 a1 s2 E1. minv E1.
    apply update_efv_checkpointed in E1.
    etransitivity; [| exact E1].
    match goal with
    | Hv : vec_of _ _ = Some ?ds |- _ =>
        apply (checkpointed_with_vec _ _ ds);
          [exact Hv | apply find_force_length
          | intros q; apply find_force_shape]
    end. }
  apply Hloop in E0.
  etransitivity; [| etransitivity; [exact E0 |]]; outs.
Qed.

Lemma emit_checkpointed e : preserves checkpointed (emit e).
Proof. intros s a s' E. minv E. outs. Qed.

Lemma report_error_checkpointed input_dir g lt l1 l2 :
  preserves checkpointed (report_error input_dir g lt l1 l2).
Proof.
  unfold report_error.
  destruct (0 =? Z.rem (g + 1) 100); [| apply preserves_ret; apply _].
  apply preserves_bind; [apply _ | apply preserves_read; apply _ |].
  intros f. apply preserves_bind; [apply _ | apply preserves_read; apply _ |].
  intros p. apply preserves_bind; [apply _ | apply preserves_lift; apply _ |].
  intros b. apply preserves_bind; [apply _ | apply preserves_read; apply _ |].
  intros v. apply preserves_bind; [apply _ | apply find_force_checkpointed |].
  intros _. apply preserves_bind; [apply _ | apply preserves_load_ds; apply _ |].
  intros d. destruct (get_rmse_energy d false true 0) as [r1 shift].
  apply preserves_bind; [apply _ | apply add_elite_checkpointed |].
  intros _. apply preserves_bind; [apply _ | apply preserves_read; apply _ |].
  intros v'. apply preserves_bind; [apply _ | apply find_force_checkpointed |].
  intros _. apply preserves_bind; [apply _ | apply preserves_load_ds; apply _ |].
  intros t. apply preserves_bind; [apply _ | apply write_nep_checkpointed |].
  intros _.
  do 4 (apply preserves_bind; [apply _ | apply emit_checkpointed | intros _]).
  do 3 (apply preserves_bind; [apply _ | apply preserves_lift; apply _ |];
        intros ?;
        apply preserves_bind; [apply _ | apply emit_checkpointed | intros _]).
  apply preserves_bind; [apply _ | apply update_efv_checkpointed | intros _].
  do 3 (apply preserves_bind; [apply _ | apply emit_checkpointed | intros _]).
  destruct (0 =? Z.rem (g + 1) 1000);
    [apply dump_train_checkpointed | apply preserves_ret; apply _].
Qed.

End KeptByCheckpoint.

Lemma same_but_scaler p p' q :
  with_q_scaler_cpu p' q = p →
  number_of_variables p' = number_of_variables p
  ∧ number_of_variables_ann p' = number_of_variables_ann p
  ∧ num_types p' = num_types p ∧ elements p' = elements p
  ∧ population_size p' = population_size p ∧ batch_size p' = batch_size p.
Proof. intros <-. repeat split. Qed.

(** X2.  [Fitness::report_error] keeps the state well formed.  For a
    directory name of at most 182 characters (so that every file name fits
    its buffer) and, at the generations where the training set is dumped,
    no more batches than devices: from a state that satisfies [mem_ok] it
    ends in a state that satisfies [mem_ok] again.  It leaves the [fitness]
    buffer, the number of batches, the potential and the handle of the loss
    file as they are, and of the parameters it changes [q_scaler_cpu]
    only. *)
Theorem report_error_keeps_mem_ok `{Contract} dc input_dir g lt l1 l2 s :
  (String.length input_dir ≤ 182)%nat →
  mem_ok dc s = true → 0 ≤ g →
  (fires_train g = true → num_batches (self s) ≤ dc) →
  ∃ s', report_error input_dir g lt l1 l2 s = Some (tt, s')
        ∧ mem_ok dc s' = true
        ∧ fitness s' = fitness s
        ∧ num_batches (self s') = num_batches (self s)
        ∧ potential (self s') = potential (self s)
        ∧ fid_loss_out (self s') = fid_loss_out (self s)
        ∧ with_q_scaler_cpu (para s') (q_scaler_cpu (para s)) = para s.
Proof.
  intros Hlen Hok Hg Hdump.
  destruct (fires g) eqn:Hf.
  - destruct (run_report_error dc input_dir g lt l1 l2 s Hlen Hok Hg Hf Hdump)
      as (pot & ds & d & old & s' & evs & _ & _ & _ & _ & E & _).
    exists s'. split; [exact E |].
    destruct (report_error_checkpointed input_dir g lt l1 l2 s tt s' E)
      as (A & B & C & D & E1 & F & _ & _ & _ & S).
    destruct (mem_ok_inv _ _ Hok) as (Hsh & Ha & Hv & Ht).
    pose proof (S dc _ Hsh) as Hsh'.
    destruct (same_but_scaler _ _ _ C) as (P1 & P2 & P3 & P4 & _).
    split; [| repeat split; assumption].
    apply mem_ok_intro.
    + destruct Hsh' as (? & ? & ? & Hq). rewrite Hq.
      repeat split; assumption.
    + rewrite P2, B. exact Ha.
    + rewrite P1, B. exact Hv.
    + rewrite P3, P4. exact Ht.
  - exists s. split; [apply report_error_idle; exact Hf |].
    split; [exact Hok |]. repeat (split; [reflexivity |]).
    apply with_q_scaler_cpu_id.
Qed.

Lemma report_error_keeps_mem_ok_witness :
  ∃ s', report_error (H := Model.collaborators) "." 99 F32.zero F32.zero
          F32.zero Example.mem_exact = Some (tt, s')
        ∧ mem_ok 1 s' = true
        ∧ fitness s' = fitness Example.mem_exact
        ∧ num_batches (self s') = num_batches (self Example.mem_exact)
        ∧ potential (self s') = potential (self Example.mem_exact)
        ∧ fid_loss_out (self s') = fid_loss_out (self Example.mem_exact)
        ∧ with_q_scaler_cpu (para s') (q_scaler_cpu (para Example.mem_exact))
          = para Example.mem_exact.
Proof.
  apply (report_error_keeps_mem_ok (H := Model.collaborators)
           (H0 := model_contract) 1 "." 99 F32.zero F32.zero F32.zero
           Example.mem_exact);
    [simpl; lia | vm_compute; reflexivity | lia | vm_compute; discriminate].
Defined.

(** ** Every iteration of a loop that has ended has run *)

Lemma for_each_ran {A} (l : list A) (body : A → M unit) (I : Mem → Prop) :
  (∀ x s a s', x ∈ l → I s → body x s = Some (a, s') → I s') →
  ∀ s a s', I s → for_each l body s = Some (a, s') →
    I s' ∧ ∀ x, x ∈ l → ∃ s1 s2, I s1 ∧ body x s1 = Some (tt, s2).
Proof.
  induction l as [|x l IH]; intros Hb s a s' Hs E.
  - injection E as _ <-. split; [exact Hs |]. intros x Hx.
    apply elem_of_nil in Hx. contradiction.
  - cbn [for_each] in E. apply bind_inv in E as ([] & s1 & E1 & E2).
    assert (I s1) as Hs1 by (apply (Hb x s tt s1); [left | exact Hs | exact E1]).
    destruct (IH (λ y t b t' Hy, Hb y t b t' (list_elem_of_further _ _ _ Hy))
                 s1 a s' Hs1 E2) as [Hs' Hran].
    split; [exact Hs' |]. intros y Hy.
    apply elem_of_cons in Hy as [-> | Hy].
    + exists s, s1. split; [exact Hs | exact E1].
    + apply Hran. exact Hy.
Qed.

Lemma for_int_ran (lo hi : Z) (body : Z → M unit) (I : Mem → Prop) s a s' :
  for_int lo hi body s = Some (a, s') → I s →
  (∀ i s a s', lo ≤ i < hi → I s → body i s = Some (a, s') → I s') →
  I s' ∧ ∀ k, lo ≤ k < hi → ∃ s1 s2, I s1 ∧ body k s1 = Some (tt, s2).
Proof.
  intros E Hs Hb. unfold for_int in E.
  destruct (for_each_ran (seqZ lo (hi - lo)) body I) with (s := s) (a := a)
    (s' := s') as [Hs' Hran]; try assumption.
  - intros i t b t' Hi. apply Hb. apply elem_of_seqZ in Hi. lia.
  - split; [exact Hs' |]. intros k Hk. apply Hran, elem_of_seqZ. lia.
Qed.

Lemma not_Some_None {A} (o : option A) : (∀ a, o ≠ Some a) → o = None.
Proof. destruct o as [a|]; [intros Hn; destruct (Hn a eq_refl) | reflexivity]. Qed.

(** X3.  [Fitness::predict_energy_or_stress] reads [ref[nc]] for every
    structure of the dataset: with fewer than [Nc] reference values it runs
    out of the buffer. *)
Theorem predict_energy_or_stress_short_ref fid data ref d s :
  Z.of_nat (length ref) < Nc d →
  predict_energy_or_stress fid data ref d s = None.
Proof.
  intros Hlen. apply not_Some_None. intros [[] s'] E.
  unfold predict_energy_or_stress in E.
  apply (for_int_ran _ _ _ (λ _, True)) in E as [_ Hran]; [| trivial ..].
  destruct (Hran (Z.of_nat (length ref)) ltac:(lia)) as (s1 & s2 & _ & E1).
  minv E1.
  match goal with Hr : at_ ref _ = Some _ |- _ => apply at_lt in Hr; lia end.
Qed.

Lemma predict_energy_or_stress_short_ref_witness :
  predict_energy_or_stress "energy_test.out" (energy Example.exact)
    [F32.one] Example.exact Example.mem_exact = None.
Proof.
  apply predict_energy_or_stress_short_ref. vm_compute. reflexivity.
Defined.

(** X4.  [Fitness::compute] stores the last of its [3 * population_size]
    values at index [3 * population_size - 1] of [fitness]: a scoring
    generation with a shorter buffer writes outside of it. *)
Theorem compute_short_fitness `{Collaborators} dc g pop s :
  0 < dc → g ≠ 0 → 0 < population_size (para s) →
  Z.of_nat (length (fitness s)) < 3 * population_size (para s) →
  compute dc g pop s = None.
Proof.
  intros Hdc Hg HP Hlen. apply not_Some_None. intros [[] s'] E.
  unfold compute in E. minv E.
  destruct (Z.eqb_spec g 0) as [| _]; [contradiction |]. minv E.
  set (P := population_size (para s)) in *.
  match goal with
  | Hi : min_population_iter _ _ = Some ?x |- _ =>
      rewrite (min_population_iter_spec P dc HP Hdc) in Hi;
      injection Hi as <-
  end.
  pose proof (ceil_bounds P dc HP Hdc) as Hceil.
  pose proof (Z.div_pos (P - 1) dc ltac:(lia) Hdc) as Hq.
  set (n := (P - 1) / dc) in *.
  set (I := λ t : Mem, para t = para s
                       ∧ length (fitness t) = length (fitness s)).
  assert (∀ i m t b t', I t → score dc a0 i m t = Some (b, t') → I t')
    as Hscore.
  { intros i m t b t' [Ip Il] Es. unfold score in Es. minv Es.
    split; [exact Ip |]. cbn [fitness upd]. rewrite !length_insert.
    exact Il. }
  assert (∀ i t b t', I t → chunk dc a0 pop i t = Some (b, t') → I t')
    as Hchunk.
  { intros i t b t' [Ip Il] Ec. unfold chunk in Ec. minv Ec.
    apply (for_int_ran _ _ _ I) in Ec as [Hend _];
      [exact Hend | split; [exact Ip | exact Il]
      | intros m u c u' _; apply Hscore]. }
  apply (for_int_ran _ _ _ I) in E as [_ Hran];
    [| split; reflexivity | intros i t b t' _; apply Hchunk].
  destruct (Hran n ltac:(lia)) as (s1 & s2 & [Ip Il] & Ec).
  unfold chunk in Ec. minv Ec. rewrite Ip in Ec. fold P in Ec.
  set (k := device_in_this_iter P dc n) in *.
  assert (dc * n + k = P) as Hk by (unfold k, device_in_this_iter; lia).
  apply (for_int_ran _ _ _ I) in Ec as [_ Hran2];
    [| split; [exact Ip | exact Il] | intros m t b t' _; apply Hscore].
  destruct (Hran2 (k - 1) ltac:(lia)) as (t1 & t2 & [Jp Jl] & Es).
  unfold score in Es. minv Es.
  cbn [fitness upd] in Es. rewrite !length_insert, Jl in Es.
  rewrite Jp in Es. unfold P in *. lia.
Qed.

Lemma compute_short_fitness_witness :
  compute (H := Model.collaborators) 1 1 Example.population
    (upd Example.mem_exact (self Example.mem_exact) (Model.zeros 8)) = None.
Proof.
  apply (compute_short_fitness (H := Model.collaborators));
    [lia | discriminate | vm_compute; reflexivity | vm_compute; reflexivity].
Defined.

(** ** The steps of a checkpoint *)

Section CheckpointRun.

Context `{Contract}.

Lemma report_error_inv input_dir g lt l1 l2 s a s' :
  report_error input_dir g lt l1 l2 s = Some (a, s') → fires g = true →
  ∃ b pot ds d old t s1 s2,
    batch_id_of g (num_batches (self s)) = Some b
    ∧ potential (self s) = Some pot
    ∧ at_ (train_set (self s)) b = Some ds
    ∧ at_ (find_force pot (para s) (elite s) ds false 1) 0 = Some d
    ∧ at_ (elite s) (number_of_variables_ann (para s) - 1) = Some old
    ∧ let el := <[Z.to_nat (number_of_variables_ann (para s) - 1) :=
                   F32.add old (get_rmse_energy d false true 0).2]> (elite s) in
      let vt := find_force pot (para s) el (test_set (self s)) false 1 in
      let line := loss_line g lt l1 l2 (para s) d t in
      at_ vt 0 = Some t
      ∧ write_nep input_dir
          {| self := with_test_set
                       (with_train_set (self s)
                          (<[Z.to_nat b :=
                               find_force pot (para s) (elite s) ds false 1]>
                             (train_set (self s)))) vt;
             para := para s; fitness := fitness s; elite := el;
             out := out s |} = Some (tt, s1)
      ∧ update_energy_force_virial (input_dir +:+ "/energy_test.out")
          (input_dir +:+ "/force_test.out") (input_dir +:+ "/virial_test.out")
          TestSet 0
          (emitted s1
             [Printf loss_format line; Fflush "stdout";
              Fprintf (fid_loss_out (self s)) loss_format line;
              Fflush (fid_loss_out (self s));
              Fopen (input_dir +:+ "/force_test.out") "w";
              Fopen (input_dir +:+ "/energy_test.out") "w";
              Fopen (input_dir +:+ "/virial_test.out") "w"])
        = Some (tt, s2)
      ∧ (if fires_train g then dump_train input_dir else ret tt)
          (emitted s2
             [Fclose (input_dir +:+ "/energy_test.out");
              Fclose (input_dir +:+ "/force_test.out");
              Fclose (input_dir +:+ "/virial_test.out")])
        = Some (a, s').
Proof.
  intros E Hf. unfold report_error in E. rewrite fires_rem, Hf in E.
  minv E. rewrite fires_train_rem in E.
  cbn [vec_of with_vec with_train_set potential test_set train_set] in *.
  destruct E1 as (v & Hv & Hd).
  apply at_lt in H2 as Hb.
  rewrite (proj2 (at_Some _ _ _)) in Hv
    by (split; [lia | apply list_lookup_insert_eq; lia]).
  injection Hv as <-. rewrite H1 in H3. injection H3 as <-.
  injection H4 as <-. destruct a6, a7.
  cbn [with_test_set test_set] in E3. unfold upd in E4.
  cbn [self para fitness elite out] in E4.
  exists a0, x, x0, a2, x1, a5, s0, s1.
  unfold emitted, loss_line. cbn [self para fitness elite out].
  repeat rewrite <- app_assoc in E5. repeat rewrite <- app_assoc in E.
  cbn [app] in E5, E.
  repeat (split; [assumption |]). exact E.
Qed.

End CheckpointRun.

(** ** The dump of the training set *)

Lemma dumps_refl ps s : dumps ps s s.
Proof.
  repeat split. exists []. split; [symmetry; apply app_nil_r | constructor].
Qed.

Lemma dumps_trans ps s1 s2 s3 : dumps ps s1 s2 → dumps ps s2 s3 → dumps ps s1 s3.
Proof.
  intros (B1 & C1 & D1 & e1 & O1 & F1) (B2 & C2 & D2 & e2 & O2 & F2).
  repeat split; try congruence.
  exists (e1 ++ e2). split; [rewrite O2, O1, app_assoc; reflexivity |].
  apply Forall_app. split; assumption.
Qed.

Global Instance dumps_preorder ps : PreOrder (dumps ps).
Proof.
  split; [intros s; apply dumps_refl | intros s1 s2 s3; apply dumps_trans].
Qed.

Lemma writes_to_dumps ps s s' : writes_to ps s s' → dumps ps s s'.
Proof. intros (_ & B & C & D & O). repeat split; assumption. Qed.

Section TrainDump.

Context `{Contract}.

Lemma dump_step_dumps fe ff fv (b : Z) :
  preserves (dumps [fe; ff; fv])
    (v ← get_elite;
     potential_find_force v (TrainSet b) false 1;;
     update_energy_force_virial fe ff fv (TrainSet 0) b).
Proof.
  intros s a s' E. minv E.
  apply update_efv_inv in E
    as (v & d & e & vv & f & _ & _ & _ & _ & _ & W).
  apply writes_to_dumps in W. exact W.
Qed.

Lemma dump_step_checkpointed fe ff fv (b : Z) :
  preserves checkpointed
    (v ← get_elite;
     potential_find_force v (TrainSet b) false 1;;
     update_energy_force_virial fe ff fv (TrainSet 0) b).
Proof.
  apply preserves_bind; [apply _ | apply preserves_read; apply _ |].
  intros v. apply preserves_bind; [apply _ | apply find_force_checkpointed |].
  intros _. apply update_efv_checkpointed.
Qed.

Lemma dump_train_inv input_dir s a s' :
  dump_train input_dir s = Some (a, s') →
  ∃ s1,
    for_int 0 (num_batches (self s)) (λ batch_id,
      v ← get_elite;
      potential_find_force v (TrainSet batch_id) false 1;;
      update_energy_force_virial (input_dir +:+ "/energy_train.out")
        (input_dir +:+ "/force_train.out") (input_dir +:+ "/virial_train.out")
        (TrainSet 0) batch_id)
      (emitted s [Fopen (input_dir +:+ "/force_train.out") "w";
                  Fopen (input_dir +:+ "/energy_train.out") "w";
                  Fopen (input_dir +:+ "/virial_train.out") "w"])
    = Some (tt, s1)
    ∧ s' = emitted s1 [Fclose (input_dir +:+ "/energy_train.out");
                       Fclose (input_dir +:+ "/force_train.out");
                       Fclose (input_dir +:+ "/virial_train.out")].
Proof.
  intros E. unfold dump_train in E. minv E. destruct a0.
  repeat rewrite <- app_assoc in E0. cbn [app] in E0.
  exists s0. split; [exact E0 |].
  unfold emitted. repeat rewrite <- app_assoc. reflexivity.
Qed.

(** With more batches than devices the dump reads [train_set[0][batch_id]]
    past the end of [train_set[0]]. *)
Lemma dump_train_short_row dc q input_dir s :
  shaped dc q s → dc < num_batches (self s) → dump_train input_dir s = None.
Proof.
  intros Hs Hnb. apply not_Some_None. intros [[] s'] E.
  apply dump_train_inv in E as (s1 & E & _).
  apply (for_int_ran _ _ _ (λ t, shaped dc q t)) in E as [_ Hran];
    [| exact Hs
     | intros i t a t' _ Ht Et;
       exact (checkpointed_shaped dc q t t'
                (dump_step_checkpointed _ _ _ i t a t' Et) Ht)].
  destruct Hs as (Hf & _).
  destruct (fit_ok_inv _ _ Hf) as (_ & Hdc & _).
  destruct (Hran dc ltac:(lia)) as (t1 & t2 & Ht1 & Et). minv Et.
  match goal with
  | Hv : vec_of (self t1) (TrainSet dc) = Some ?ds |- _ =>
      assert (shaped dc q
                (upd t1 (with_vec (self t1) (TrainSet dc)
                           (find_force x (para t1) (elite t1) ds false 1))
                   (fitness t1))) as Hs1
        by (apply (shaped_with_vec dc q t1 (TrainSet dc) ds);
            [exact Ht1 | exact Hv | apply find_force_length
            | apply find_force_shape;
              exact (shaped_vec_of dc q t1 _ _ Ht1 Hv)])
  end.
  apply update_efv_inv in Et as (v & d & _ & _ & _ & Hv & Hd & _).
  destruct Hs1 as (Hf1 & _).
  destruct (fit_ok_inv _ _ Hf1) as (_ & _ & _ & _ & Hrow & _).
  cbn [self upd vec_of] in Hv.
  apply at_Some in Hv as [_ Hv]. apply Hrow in Hv.
  apply at_lt in Hd. lia.
Qed.

End TrainDump.

(** ** What a checkpoint writes *)

Section CheckpointTrace.

Context `{Contract}.

(** The state in which nep.txt is written is the state the checkpoint
    started in, up to what a checkpoint keeps. *)
Lemma checkpoint_start_kept s b pot ds old x w :
  potential (self s) = Some pot →
  at_ (train_set (self s)) b = Some ds →
  at_ (elite s) (number_of_variables_ann (para s) - 1) = Some old →
  let el := <[Z.to_nat (number_of_variables_ann (para s) - 1) :=
                F32.add old x]> (elite s) in
  checkpointed s
    {| self := with_test_set
                 (with_train_set (self s)
                    (<[Z.to_nat b :=
                         find_force pot (para s) (elite s) ds false 1]>
                       (train_set (self s))))
                 (find_force pot (para s) el (test_set (self s)) false w);
       para := para s; fitness := fitness s; elite := el; out := out s |}.
Proof.
  intros Hpot Hds Hold el.
  pose proof (run_find_force (elite s) (TrainSet b) false 1 s pot ds Hpot Hds)
    as E1.
  set (s1 := upd s _ _) in E1.
  pose proof (run_add_elite (number_of_variables_ann (para s) - 1) x s1 old
                Hold) as E2.
  cbn [self para fitness elite out s1 upd] in E2. fold el in E2.
  match type of E2 with _ = Some (_, ?st) => set (s2 := st) in * end.
  pose proof (run_find_force el TestSet false w s2 pot (test_set (self s)))
    as E3.
  cbn [self para fitness elite out s2 upd with_vec with_train_set potential
       vec_of test_set] in E3.
  specialize (E3 Hpot eq_refl).
  apply find_force_checkpointed in E1, E3.
  apply add_elite_checkpointed in E2.
  exact (checkpointed_trans _ _ _ (checkpointed_trans _ _ _ E1 E2) E3).
Qed.

End CheckpointTrace.

(** X5.  At a multiple of 1000 generations and with more batches than
    devices, [Fitness::report_error] reads [train_set[0][batch_id]] past the
    end of [train_set[0]]: the dump of the training set needs
    [num_batches <= deviceCount]. *)
Theorem train_dump_needs_devices `{Contract} dc input_dir g lt l1 l2 s :
  mem_ok dc s = true → fires_train g = true →
  dc < num_batches (self s) →
  report_error input_dir g lt l1 l2 s = None.
Proof.
  intros Hok Hft Hnb. apply not_Some_None. intros [[] s'] E.
  destruct (mem_ok_inv _ _ Hok) as (Hsh & _).
  apply report_error_inv in E
    as (b & pot & ds & d & old & t & s1 & s2 & _ & Hpot & Hds & _ & Hold & E);
    [| apply fires_train_fires; exact Hft].
  cbv zeta in E. destruct E as (_ & En & Eu & Ed). rewrite Hft in Ed.
  pose proof (checkpoint_start_kept s b pot ds old
                (get_rmse_energy d false true 0).2 1 Hpot Hds Hold) as K0.
  cbv zeta in K0.
  apply write_nep_checkpointed in En.
  apply update_efv_checkpointed in Eu.
  assert (checkpointed s
            (emitted s2
               [Fclose (input_dir +:+ "/energy_test.out");
                Fclose (input_dir +:+ "/force_test.out");
                Fclose (input_dir +:+ "/virial_test.out")])) as K4.
  { etransitivity; [exact K0 |]. etransitivity; [exact En |].
    etransitivity; [apply checkpointed_emitted |].
    etransitivity; [exact Eu |]. apply checkpointed_emitted. }
  rewrite (dump_train_short_row dc (length (q_scaler_cpu (para s))) input_dir)
    in Ed; [discriminate | |].
  - exact (checkpointed_shaped _ _ _ _ K4 Hsh).
  - rewrite (checkpointed_num_batches _ _ K4). exact Hnb.
Qed.

Lemma train_dump_needs_devices_witness :
  report_error (H := Model.collaborators) "." 999 F32.zero F32.zero F32.zero
    (Example.mem_two 1) = None.
Proof.
  apply (train_dump_needs_devices (H := Model.collaborators)
           (H0 := model_contract) 1);
    [vm_compute; reflexivity | vm_compute; reflexivity
    | vm_compute; reflexivity].
Defined.

(** ** The cadence of the checkpoints, for every state *)



(** ** The bias correction *)

(** X19.  What a checkpoint does to [elite], whenever it ends: after the
    elite has been evaluated on its batch, [report_error] adds the value
    that [get_rmse_energy] leaves in [energy_shift_per_structure] for the
    dataset of device 0 of that batch to the entry
    [number_of_variables_ann - 1] of [elite]; every other entry of [elite]
    is left as it was, through the snapshot and the dumps too. *)
Theorem checkpoint_adds_reported_shift `{Collaborators}
    input_dir g lt l1 l2 s s' :
  fires g = true →
  report_error input_dir g lt l1 l2 s = Some (tt, s') →
  ∃ b pot ds d old,
    batch_id_of g (num_batches (self s)) = Some b
    ∧ potential (self s) = Some pot
    ∧ at_ (train_set (self s)) b = Some ds
    ∧ at_ (find_force pot (para s) (elite s) ds false 1) 0 = Some d
    ∧ at_ (elite s) (number_of_variables_ann (para s) - 1) = Some old
    ∧ at_ (elite s') (number_of_variables_ann (para s) - 1)
      = Some (F32.add old (get_rmse_energy d false true 0).2)
    ∧ length (elite s') = length (elite s)
    ∧ ∀ j, j ≠ number_of_variables_ann (para s) - 1 →
           at_ (elite s') j = at_ (elite s) j.
Proof.
  intros Hf E.
  apply report_error_inv in E
    as (b & pot & ds & d & old & t & s1 & s2 & Hb & Hpot & Hds & Hd & Hold
        & E); [| exact Hf].
  cbv zeta in E. destruct E as (_ & En & Eu & Ed).
  exists b, pot, ds, d, old. repeat (split; [assumption |]).
  assert (elite s'
          = <[Z.to_nat (number_of_variables_ann (para s) - 1) :=
                F32.add old (get_rmse_energy d false true 0).2]> (elite s))
    as ->.
  { apply write_nep_inv in En
      as (v & d00 & q & t1 & t2 & _ & _ & _ & W1 & W2 & ->).
    destruct W1 as (_ & _ & _ & L1 & _). destruct W2 as (_ & _ & _ & L2 & _).
    apply update_efv_inv in Eu as (v' & d' & e & vv & f & _ & _ & _ & _ & _ & W3).
    destruct W3 as (_ & _ & _ & L3 & _).
    cbn [elite emitted upd] in L1, L2, L3.
    assert (elite s' = elite s2) as ->; [| congruence].
    destruct (fires_train g).
    - apply dump_train_inv in Ed as (sc & El & ->).
      apply (preserves_for_int (dumps _) _ _ _
               (λ i _, dump_step_dumps _ _ _ i)) in El as (_ & _ & L4 & _).
      exact L4.
    - minv Ed. reflexivity. }
  pose proof (at_lt _ _ _ Hold) as Hi.
  split; [| split].
  - apply at_Some. split; [lia |]. apply list_lookup_insert_eq. lia.
  - apply length_insert.
  - intros j Hj. unfold at_. destruct (Z.ltb_spec j 0); [reflexivity |].
    apply list_lookup_insert_ne. lia.
Qed.

Lemma checkpoint_adds_reported_shift_witness :
  ∃ s',
    report_error (H := Model.collaborators) "." 99 F32.zero F32.zero
      F32.zero Example.mem_biased = Some (tt, s')
    ∧ ∃ b pot ds d old,
        batch_id_of 99 (num_batches (self Example.mem_biased)) = Some b
        ∧ potential (self Example.mem_biased) = Some pot
        ∧ at_ (train_set (self Example.mem_biased)) b = Some ds
        ∧ at_ (Model.keep pot (para Example.mem_biased)
                 (elite Example.mem_biased) ds false 1) 0 = Some d
        ∧ at_ (elite Example.mem_biased)
              (number_of_variables_ann (para Example.mem_biased) - 1)
          = Some old
        ∧ at_ (elite s')
              (number_of_variables_ann (para Example.mem_biased) - 1)
          = Some (F32.add old (Model.rmse_energy d false true 0).2)
        ∧ length (elite s') = length (elite Example.mem_biased)
        ∧ ∀ j, j ≠ number_of_variables_ann (para Example.mem_biased) - 1 →
               at_ (elite s') j = at_ (elite Example.mem_biased) j.
Proof.
  eexists. split; [vm_compute; reflexivity |].
  apply (checkpoint_adds_reported_shift (H := Model.collaborators) "." 99
           F32.zero F32.zero F32.zero Example.mem_biased);
    [reflexivity | vm_compute; reflexivity].
Defined.

(** ** The dump of one dataset *)

Lemma xyz_lookup (v : list float) (n : Z) (i : nat) x y z :
  0 ≤ n → v !! i = Some x → v !! (Z.to_nat n + i)%nat = Some y →
  v !! (Z.to_nat (n * 2) + i)%nat = Some z →
  xyz v n !! i = Some [AFloat x; AFloat y; AFloat z].
Proof.
  intros Hn Hx Hy Hz. unfold xyz, offset.
  rewrite !lookup_zip_with, Hx, !lookup_drop, Hy, Hz. reflexivity.
Qed.

Lemma force_rows_lookup q d (n : Z) :
  ds_ok q d = true → 0 ≤ n < N d →
  ∃ fx fy fz rx ry rz,
    at_ (force_cpu d) n = Some fx ∧ at_ (force_cpu d) (n + N d) = Some fy
    ∧ at_ (force_cpu d) (n + N d * 2) = Some fz
    ∧ at_ (force_ref_cpu d) n = Some rx
    ∧ at_ (force_ref_cpu d) (n + N d) = Some ry
    ∧ at_ (force_ref_cpu d) (n + N d * 2) = Some rz
    ∧ force_rows d !! Z.to_nat n
      = Some [AFloat fx; AFloat fy; AFloat fz;
              AFloat rx; AFloat ry; AFloat rz].
Proof.
  intros Hd Hn.
  destruct (ds_ok_inv _ _ Hd)
    as (HN & _ & _ & _ & _ & _ & _ & _ & _ & _ & _ & Hf & _ & _ & Hr & _).
  destruct (at_in_range (force_cpu d) n) as [fx Hfx]; [lia |].
  destruct (at_in_range (force_cpu d) (n + N d)) as [fy Hfy]; [lia |].
  destruct (at_in_range (force_cpu d) (n + N d * 2)) as [fz Hfz]; [lia |].
  destruct (at_in_range (force_ref_cpu d) n) as [rx Hrx]; [lia |].
  destruct (at_in_range (force_ref_cpu d) (n + N d)) as [ry Hry]; [lia |].
  destruct (at_in_range (force_ref_cpu d) (n + N d * 2)) as [rz Hrz]; [lia |].
  exists fx, fy, fz, rx, ry, rz. repeat (split; [assumption |]).
  apply at_Some in Hfx as [_ Hfx], Hfy as [_ Hfy], Hfz as [_ Hfz],
    Hrx as [_ Hrx], Hry as [_ Hry], Hrz as [_ Hrz].
  unfold force_rows. rewrite lookup_zip_with.
  rewrite (xyz_lookup (force_cpu d) _ _ fx fy fz); [| lia | exact Hfx | |].
  - rewrite (xyz_lookup (force_ref_cpu d) _ _ rx ry rz);
      [reflexivity | lia | exact Hrx | |].
    + replace (Z.to_nat (N d) + Z.to_nat n)%nat with (Z.to_nat (n + N d))
        by lia. exact Hry.
    + replace (Z.to_nat (N d * 2) + Z.to_nat n)%nat
        with (Z.to_nat (n + N d * 2)) by lia. exact Hrz.
  - replace (Z.to_nat (N d) + Z.to_nat n)%nat with (Z.to_nat (n + N d))
      by lia. exact Hfy.
  - replace (Z.to_nat (N d * 2) + Z.to_nat n)%nat
      with (Z.to_nat (n + N d * 2)) by lia. exact Hfz.
Qed.

Lemma bind_take_S {A B} (f : A → list B) (l : list A) (n : nat) (x : A) :
  l !! n = Some x → take (S n) l ≫= f = (take n l ≫= f) ++ f x.
Proof.
  intros Hx. rewrite (take_S_r _ _ _ Hx), bind_app. cbn.
  rewrite app_nil_r. reflexivity.
Qed.

Lemma run_force_line_exact fid q d (n : Z) s :
  ds_ok q d = true → 0 ≤ n < N d →
  ∃ row, force_rows d !! Z.to_nat n = Some row
    ∧ force_line fid d n s
      = Some (tt, emitted s [Fprintf fid "%g %g %g %g %g %g\n" row]).
Proof.
  intros Hd Hn.
  destruct (force_rows_lookup q d n Hd Hn)
    as (fx & fy & fz & rx & ry & rz & H1 & H2 & H3 & H4 & H5 & H6 & Hrow).
  eexists. split; [exact Hrow |].
  unfold force_line. mrun.
  rewrite (lift_Some _ _ _ H1). mrun. rewrite (lift_Some _ _ _ H2). mrun.
  rewrite (lift_Some _ _ _ H3). mrun. rewrite (lift_Some _ _ _ H4). mrun.
  rewrite (lift_Some _ _ _ H5). mrun. rewrite (lift_Some _ _ _ H6). mrun.
  apply run_emit.
Qed.

Lemma run_structure_lines fid q d (off na : Z) s :
  ds_ok q d = true → 0 ≤ off → 0 ≤ na → off + na ≤ N d →
  for_int 0 na (λ m, force_line fid d (off + m)) s
  = Some (tt, emitted s
                (Fprintf fid "%g %g %g %g %g %g\n"
                   <$> take (Z.to_nat na)
                         (drop (Z.to_nat off) (force_rows d)))).
Proof.
  intros Hd Hoff Hna Hfit.
  destruct (for_int_inv 0 na (λ m, force_line fid d (off + m))
              (λ m s', s' = emitted s
                              (Fprintf fid "%g %g %g %g %g %g\n"
                                 <$> take (Z.to_nat m)
                                       (drop (Z.to_nat off) (force_rows d)))))
    with (s := s) as (s' & E & ->).
  - exact Hna.
  - intros m s1 Hm ->.
    destruct (run_force_line_exact fid q d (off + m)
                (emitted s
                   (Fprintf fid "%g %g %g %g %g %g\n"
                      <$> take (Z.to_nat m)
                            (drop (Z.to_nat off) (force_rows d)))) Hd
                ltac:(lia)) as (row & Hrow & E).
    eexists. split; [exact E |].
    rewrite emitted_app. f_equal.
    replace (Z.to_nat (m + 1)) with (S (Z.to_nat m)) by lia.
    rewrite (take_S_r _ _ row), fmap_app; [reflexivity |].
    rewrite lookup_drop.
    replace (Z.to_nat off + Z.to_nat m)%nat with (Z.to_nat (off + m)) by lia.
    exact Hrow.
  - cbn [Z.to_nat take fmap list_fmap]. symmetry. apply emitted_nil.
  - exact E.
Qed.

Lemma run_force_lines_exact fid q d s :
  ds_ok q d = true →
  for_int 0 (Nc d) (λ nc,
    off ← lift (at_ (Na_sum_cpu d) nc);
    st ← lift (at_ (structures d) nc);
    for_int 0 (num_atom st) (λ m, force_line fid d (off + m))) s
  = Some (tt, emitted s (force_lines fid d)).
Proof.
  intros Hd.
  destruct (ds_ok_inv _ _ Hd) as (_ & HNc & _ & HNs & HSt & Hin & _).
  match goal with |- for_int 0 _ ?b _ = _ => set (body := b) end.
  set (f := λ x : Z * Structure,
              Fprintf fid "%g %g %g %g %g %g\n"
                <$> take (Z.to_nat (num_atom x.2))
                      (drop (Z.to_nat x.1) (force_rows d))).
  destruct (for_int_inv 0 (Nc d) body
              (λ nc s', s' = emitted s
                              (take (Z.to_nat nc)
                                 (zip (Na_sum_cpu d) (structures d)) ≫= f)))
    with (s := s) as (s' & E & ->).
  - exact HNc.
  - intros nc s1 Hnc ->.
    destruct (lookup_lt_is_Some_2 (Na_sum_cpu d) (Z.to_nat nc)) as [off Hoff];
      [lia |].
    destruct (lookup_lt_is_Some_2 (structures d) (Z.to_nat nc)) as [st Hst];
      [lia |].
    destruct (lookup_lt_is_Some_2 (Na_cpu d) (Z.to_nat nc)) as [na Hna];
      [destruct (ds_ok_inv _ _ Hd) as (_ & _ & HNa & _); lia |].
    destruct (Hin _ _ _ _ Hoff Hna Hst) as (Ho & _ & _ & Hs0 & Hs1).
    eexists. split.
    + unfold body. mrun.
      rewrite (lift_Some _ _ _ (proj2 (at_Some _ _ _) (conj (proj1 Hnc) Hoff))).
      mrun.
      rewrite (lift_Some _ _ _ (proj2 (at_Some _ _ _) (conj (proj1 Hnc) Hst))).
      mrun. apply (run_structure_lines fid q d off (num_atom st)); assumption.
    + rewrite emitted_app. f_equal.
      replace (Z.to_nat (nc + 1)) with (S (Z.to_nat nc)) by lia.
      rewrite (bind_take_S f _ _ (off, st)); [reflexivity |].
      rewrite lookup_zip_with, Hoff. cbn. rewrite Hst. reflexivity.
  - cbn [Z.to_nat take]. symmetry. apply emitted_nil.
  - rewrite E. reflexivity.
Qed.

Lemma virial_lines_unfold fid d :
  virial_lines fid d
  = dump_lines fid d (virial_cpu d) (virial_ref_cpu d)
    ++ dump_lines fid d (offset (virial_cpu d) (N d))
         (offset (virial_ref_cpu d) (Nc d))
    ++ dump_lines fid d (offset (virial_cpu d) (N d * 2))
         (offset (virial_ref_cpu d) (Nc d * 2))
    ++ dump_lines fid d (offset (virial_cpu d) (N d * 3))
         (offset (virial_ref_cpu d) (Nc d * 3))
    ++ dump_lines fid d (offset (virial_cpu d) (N d * 4))
         (offset (virial_ref_cpu d) (Nc d * 4))
    ++ dump_lines fid d (offset (virial_cpu d) (N d * 5))
         (offset (virial_ref_cpu d) (Nc d * 5)).
Proof.
  unfold virial_lines. change (seqZ 0 6) with [0; 1; 2; 3; 4; 5].
  cbn [mbind list_bind]. rewrite app_nil_r, !Z.mul_0_r, !Z.mul_1_r.
  reflexivity.
Qed.

(** The run of [Fitness::update_energy_force_virial] on a well shaped state,
    with the state it leaves and the lines it prints. *)
Lemma run_update_efv_exact dc q fe ff fv r m s :
  shaped dc q s →
  match r with TrainSet b => 0 ≤ b < num_batches (self s) | TestSet => True end →
  0 ≤ m < dc →
  ∃ v d,
    vec_of (self s) r = Some v ∧ at_ v m = Some d
    ∧ update_energy_force_virial fe ff fv r m s
      = Some (tt, emitted
                    (upd s
                       (with_vec (self s) r
                          (<[Z.to_nat m :=
                               with_host d (energy d) (virial d) (force d)]> v))
                       (fitness s))
                    (efv_lines fe ff fv
                       (with_host d (energy d) (virial d) (force d)))).
Proof.
  intros Hs Hr Hm.
  destruct (run_load_ds_shaped dc q r m s Hs Hr Hm)
    as (v & d & Hv & Hd & Eload & Hok).
  pose proof (ds_ok_inv _ _ Hok)
    as (HN & HNc & HNa & HNs & HSt & Hin & He & Hec & Hv6 & Hvc & Hf & Hfc
        & Her & Hvr & Hfr & Hq).
  exists v, d. split; [exact Hv |]. split; [exact Hd |].
  set (d' := with_host d (energy d) (virial d) (force d)).
  pose proof (ds_ok_with_host _ _ Hok) as Hok'. fold d' in Hok'.
  set (s1 := upd s (with_vec (self s) r (<[Z.to_nat m := d']> v)) (fitness s)).
  unfold update_energy_force_virial. mrun. rewrite Eload. mrun.
  rewrite (lift_Some _ _ _ (copy_to_host_same (energy d) (energy_cpu d)
                           ltac:(lia))). mrun.
  rewrite (lift_Some _ _ _ (copy_to_host_same (virial d) (virial_cpu d)
                           ltac:(lia))). mrun.
  rewrite (lift_Some _ _ _ (copy_to_host_same (force d) (force_cpu d)
                           ltac:(lia))). mrun.
  fold d'.
  rewrite (run_store_ds r m s v d' Hv) by (apply at_lt in Hd; lia). mrun.
  fold s1.
  rewrite (run_force_lines_exact ff q d' s1 Hok'). mrun.
  assert (N d' = N d ∧ Nc d' = Nc d) as [EN ENc] by (split; reflexivity).
  rewrite (run_predict fe (energy_cpu d') (energy_ref_cpu d') d')
    by (first [apply (ds_ok_tables q); [exact Hok' |] | idtac]; cbn; lia).
  mrun.
  rewrite (run_predict fv (virial_cpu d') (virial_ref_cpu d') d')
    by (first [apply (ds_ok_tables q); [exact Hok' |] | idtac]; cbn; lia).
  mrun.
  rewrite (run_predict fv (offset (virial_cpu d') (N d'))
             (offset (virial_ref_cpu d') (Nc d')) d')
    by (first [apply (ds_ok_tables q); [exact Hok' |] | idtac];
        rewrite length_offset by lia; cbn; lia).
  mrun.
  rewrite (run_predict fv (offset (virial_cpu d') (N d' * 2))
             (offset (virial_ref_cpu d') (Nc d' * 2)) d')
    by (first [apply (ds_ok_tables q); [exact Hok' |] | idtac];
        rewrite length_offset by lia; cbn; lia).
  mrun.
  rewrite (run_predict fv (offset (virial_cpu d') (N d' * 3))
             (offset (virial_ref_cpu d') (Nc d' * 3)) d')
    by (first [apply (ds_ok_tables q); [exact Hok' |] | idtac];
        rewrite length_offset by lia; cbn; lia).
  mrun.
  rewrite (run_predict fv (offset (virial_cpu d') (N d' * 4))
             (offset (virial_ref_cpu d') (Nc d' * 4)) d')
    by (first [apply (ds_ok_tables q); [exact Hok' |] | idtac];
        rewrite length_offset by lia; cbn; lia).
  mrun.
  rewrite (run_predict fv (offset (virial_cpu d') (N d' * 5))
             (offset (virial_ref_cpu d') (Nc d' * 5)) d')
    by (first [apply (ds_ok_tables q); [exact Hok' |] | idtac];
        rewrite length_offset by lia; cbn; lia).
  rewrite !emitted_app. unfold efv_lines.
  rewrite virial_lines_unfold. reflexivity.
Qed.

(** X7.  [Fitness::update_energy_force_virial] on dataset [m] of a well
    shaped vector of datasets: it copies the device buffers [energy],
    [virial] and [force] of the dataset to the host buffers and changes
    nothing else of the state; it prints to the force file, for every
    structure, one line per atom with the three predicted and the three
    reference components (stored as three blocks of [N] values), then to the
    energy file one line per structure, then to the virial file one line per
    structure for each of the six components in turn (predictions in blocks
    of [N], references in blocks of [Nc]). *)
Theorem update_energy_force_virial_dump dc q fe ff fv r m s :
  shaped dc q s →
  match r with TrainSet b => 0 ≤ b < num_batches (self s) | TestSet => True end →
  0 ≤ m < dc →
  ∃ v d,
    vec_of (self s) r = Some v ∧ at_ v m = Some d
    ∧ update_energy_force_virial fe ff fv r m s
      = Some (tt, emitted
                    (upd s
                       (with_vec (self s) r
                          (<[Z.to_nat m :=
                               with_host d (energy d) (virial d) (force d)]> v))
                       (fitness s))
                    (efv_lines fe ff fv
                       (with_host d (energy d) (virial d) (force d)))).
Proof. exact (run_update_efv_exact dc q fe ff fv r m s). Qed.

Lemma update_energy_force_virial_dump_witness :
  ∃ v d,
    vec_of (self Example.mem_exact) TestSet = Some v ∧ at_ v 0 = Some d
    ∧ update_energy_force_virial "e" "f" "v" TestSet 0 Example.mem_exact
      = Some (tt, emitted
                    (upd Example.mem_exact
                       (with_vec (self Example.mem_exact) TestSet
                          (<[Z.to_nat 0 :=
                               with_host d (energy d) (virial d) (force d)]> v))
                       (fitness Example.mem_exact))
                    (efv_lines "e" "f" "v"
                       (with_host d (energy d) (virial d) (force d)))).
Proof.
  apply (update_energy_force_virial_dump 1 0 "e" "f" "v" TestSet 0
           Example.mem_exact);
    [repeat split; vm_compute; reflexivity | exact I | lia].
Defined.

(** ** The constructor *)

Lemma announces_refl fmts s : announces fmts s s.
Proof.
  repeat split. exists []. split; [symmetry; apply app_nil_r | constructor].
Qed.

Lemma announces_trans fmts s1 s2 s3 :
  announces fmts s1 s2 → announces fmts s2 s3 → announces fmts s1 s3.
Proof.
  intros (B1 & C1 & D1 & e1 & O1 & F1) (B2 & C2 & D2 & e2 & O2 & F2).
  repeat split; try congruence.
  exists (e1 ++ e2). split; [rewrite O2, O1, app_assoc; reflexivity |].
  apply Forall_app. split; assumption.
Qed.

Global Instance announces_preorder fmts : PreOrder (announces fmts).
Proof.
  split; [intros s; apply announces_refl
         | intros s1 s2 s3; apply announces_trans].
Qed.

Lemma announces_intro fmts s s' evs :
  para s' = para s → fitness s' = fitness s → elite s' = elite s →
  out s' = out s ++ evs → Forall (progress fmts) evs → announces fmts s s'.
Proof. intros B C D O F. repeat split; try assumption. exists evs. auto. Qed.

Ltac notes :=
  first
    [ apply announces_refl
    | eapply announces_intro;
      [ reflexivity | reflexivity | reflexivity
      | cbn [out emitted]; rewrite <- ?app_assoc; reflexivity
      | repeat first [ apply Forall_nil_2
                     | apply Forall_cons_2; [cbn; repeat constructor |] ] ] ].

Lemma raise_max_heads (ts : list (list Dataset)) (k : nat) init r :
  (k ≤ length ts)%nat →
  raise_max ts (Z.of_nat k) init = Some r →
  length (heads (take k ts)) = k
  ∧ r = (largest N init.1.1.1.1 (heads (take k ts)),
         largest (λ d, N d * ds_max_NN_radial d) init.1.1.1.2
           (heads (take k ts)),
         largest (λ d, N d * ds_max_NN_angular d) init.1.1.2
           (heads (take k ts)),
         largest ds_max_NN_radial init.1.2 (heads (take k ts)),
         largest ds_max_NN_angular init.2 (heads (take k ts))).
Proof.
  unfold raise_max. revert r. induction k as [|k IH]; intros r Hk E.
  - cbn in E. injection E as <-. split; [reflexivity |].
    destruct init as [[[[a b] c] d] e]. reflexivity.
  - rewrite seqZ_S, foldl_snoc in E. cbn [Z.add] in E.
    match type of E with
    | (?acc ≫= _) = _ => destruct acc as [[[[[Nm Nr] Ng] rr] aa]|] eqn:Eacc
    end; [| discriminate].
    destruct (IH _ ltac:(lia) eq_refl) as [Hlen Hr].
    cbn [mbind option_bind] in E. rewrite Z.add_0_l, at_nat in E.
    destruct (ts !! k) as [v|] eqn:Ev; [| discriminate].
    cbn [mbind option_bind] in E.
    destruct (at_ v 0) as [d|] eqn:Ed; [| discriminate].
    cbn [mbind option_bind] in E. injection E as <-.
    assert (head v = Some d) as Hd.
    { apply at_Some in Ed as [_ Ed]. destruct v; [discriminate | exact Ed]. }
    rewrite (take_S_r _ _ _ Ev). unfold heads in *.
    rewrite omap_app. cbn [omap list_omap]. rewrite Hd.
    split; [rewrite length_app, Hlen; cbn; lia |].
    injection Hr as -> -> -> -> ->.
    unfold largest. rewrite !fmap_app. cbn [fmap list_fmap].
    rewrite !foldl_snoc.
    repeat f_equal;
      match goal with
      | |- (if ?x >? ?y then _ else _) = _ =>
          destruct (Z.gtb_spec x y); lia
      end.
Qed.

Section ConstructorRun.

Context `{Collaborators}.

Lemma fill_row_announces fmt r (g : Z → Dataset) (dc : Z) fmts :
  fmt ∈ fmts →
  preserves (announces fmts)
    (for_int 0 dc (λ device_id,
       emit PrintLine1;;
       emit (Printf fmt [AInt device_id]);;
       store_ds r device_id (g device_id);;
       emit PrintLine2)).
Proof.
  intros Hfmt. apply preserves_for_int; [apply _ |].
  intros i _ s a s' E. minv E.
  eapply announces_intro;
    [ reflexivity | reflexivity | reflexivity
    | cbn [out emitted]; rewrite <- ?app_assoc; reflexivity |].
  repeat (apply Forall_cons_2; [first [exact I | exact Hfmt] |]).
  apply Forall_nil_2.
Qed.

(** The loop that resizes the rows of [train_set] touches the [Fitness]
    object only. *)
Lemma resize_rows_inv (dc nb : Z) s a s' :
  for_int 0 nb (λ batch_id,
    row ← lift (new_vector dc default_Dataset);
    store_vec (TrainSet batch_id) row) s = Some (a, s') →
  para s' = para s ∧ fitness s' = fitness s ∧ elite s' = elite s
  ∧ out s' = out s.
Proof.
  intros E.
  apply (for_int_ran _ _ _
           (λ t, para t = para s ∧ fitness t = fitness s
                 ∧ elite t = elite s ∧ out t = out s)) in E as [E _].
  - exact E.
  - repeat split.
  - intros i t b t' _ (A & B & C & D) Et. minv Et.
    repeat split; assumption.
Qed.

Lemma fill_train_announces input_dir (dc nb : Z) train (p : Parameters) :
  preserves
    (announces ["\nBatch %d:\n"; "Number of configurations = %d.\n";
                "Constructing train_set in device  %d.\n"])
    (for_int 0 nb (λ batch_id,
       let n1 := batch_n1 (batch_size p) batch_id in
       let n2 := batch_n2 (Z.of_nat (length train)) (batch_size p) batch_id in
       emit (Printf "\nBatch %d:\n" [AInt batch_id]);;
       emit (Printf "Number of configurations = %d.\n" [AInt (n2 - n1)]);;
       for_int 0 dc (λ device_id,
         emit PrintLine1;;
         emit (Printf "Constructing train_set in device  %d.\n"
                 [AInt device_id]);;
         store_ds (TrainSet batch_id) device_id
           (construct input_dir p train n1 n2 device_id);;
         emit PrintLine2))).
Proof.
  apply preserves_for_int; [apply _ |].
  intros b _ s a s' E. cbv zeta in E. minv E.
  apply (fill_row_announces _ _ _ _
           ["\nBatch %d:\n"; "Number of configurations = %d.\n";
            "Constructing train_set in device  %d.\n"]) in E;
    [| repeat constructor].
  etransitivity; [| exact E]. notes.
Qed.

Lemma Fitness_new_inv input_dir dc train test s a s' :
  Fitness_new input_dir dc train test s = Some (a, s') →
  ∃ nb bs e_train e_test s2 t0 Nm Nr Ng r aa,
    ceil_size (Z.of_nat (length train)) (batch_size (para s)) = Some nb
    ∧ ceil_size (Z.of_nat (length train)) nb = Some bs
    ∧ para s2 = with_batch_size (para s) bs
    ∧ fitness s2 = fitness s ∧ elite s2 = elite s
    ∧ out s2
      = out s
        ++ [PrintLine1; Printf "Started reading train.in.\n" []; PrintLine2;
            Printf "Number of devices = %d\n" [AInt dc];
            Printf "Number of batches = %d\n" [AInt nb]]
        ++ (if batch_size (para s) =? bs then []
            else [Printf "Hello, I changed the batch_size from %d to %d.\n"
                    [AInt (batch_size (para s)); AInt bs]])
        ++ e_train
        ++ [PrintLine1; Printf "Started reading test.in.\n" []; PrintLine2]
        ++ e_test
    ∧ Forall (progress ["\nBatch %d:\n"; "Number of configurations = %d.\n";
                        "Constructing train_set in device  %d.\n"]) e_train
    ∧ Forall (progress ["Constructing test_set in device  %d.\n"]) e_test
    ∧ at_ (test_set (self s2)) 0 = Some t0
    ∧ raise_max (train_set (self s2)) nb
        (N t0, N t0 * ds_max_NN_radial t0, N t0 * ds_max_NN_angular t0,
         ds_max_NN_radial t0, ds_max_NN_angular t0)
      = Some (Nm, Nr, Ng, r, aa)
    ∧ s' = {| self := with_fid_loss_out
                        (with_potential (self s2) r aa
                           {| nep_input_dir := input_dir;
                              nep_para := para s2; nep_N := Nm;
                              nep_N_times_max_NN_radial := Nr;
                              nep_N_times_max_NN_angular := Ng;
                              nep_version := version (para s2);
                              nep_deviceCount := dc |})
                        (input_dir +:+ "/loss.out");
              para := para s2; fitness := fitness s2; elite := elite s2;
              out := out s2 ++ [Fopen (input_dir +:+ "/loss.out") "a"] |}.
Proof.
  intros E. unfold Fitness_new in E. minv E.
  assert (para s0 = with_batch_size (para s) a1 ∧ fitness s0 = fitness s
          ∧ elite s0 = elite s
          ∧ out s0
            = out s
              ++ [PrintLine1; Printf "Started reading train.in.\n" [];
                  PrintLine2; Printf "Number of devices = %d\n" [AInt dc];
                  Printf "Number of batches = %d\n" [AInt a0]]
              ++ (if batch_size (para s) =? a1 then []
                  else [Printf
                          "Hello, I changed the batch_size from %d to %d.\n"
                          [AInt (batch_size (para s)); AInt a1]]))
    as (P0 & F0 & L0 & O0).
  { destruct (batch_size (para s) =? a1); minv E2;
      cbn [out]; rewrite <- ?app_assoc; repeat split; reflexivity. }
  apply resize_rows_inv in E3 as (Pr & Fr & Lr & Or).
  apply fill_train_announces in E4 as (P1 & F1 & L1 & e1 & O1 & A1).
  apply (fill_row_announces _ _ _ _
           ["Constructing test_set in device  %d.\n"]) in E5
    as (P2 & F2 & L2 & e2 & O2 & A2); [| repeat constructor].
  cbn [para fitness elite out] in *.
  exists a0, a1, e1, e2, s3, a6, z2, z3, z1, z0, z.
  split; [exact E0 |]. split; [exact E1 |].
  split; [congruence |]. split; [congruence |]. split; [congruence |].
  split; [rewrite O2, O1, Or, O0, <- !app_assoc; reflexivity |].
  split; [exact A1 |]. split; [exact A2 |].
  split; [exact E6 |]. split; [exact E7 |].
  rewrite P2, P1. reflexivity.
Qed.

End ConstructorRun.

(** X8.  The potential the constructor builds, for a training set and a
    batch size that are positive values of an [int], at least one device and
    a directory name of at most 190 characters (so that the name of loss.out
    fits its buffer): the constructor ends, and [NEP3] receives the
    parameters with the recomputed batch size, the device count, and the
    largest atom count [N] and the largest products [N * max_NN_radial] and
    [N * max_NN_angular] found in dataset 0 of the test set and in dataset 0
    of every training batch; [max_NN_radial] and [max_NN_angular] of the
    [Fitness] object are the largest neighbour counts of the same
    datasets.  The datasets of the other devices are not looked at. *)
Theorem constructor_potential `{Collaborators} input_dir dc train test s :
  (String.length input_dir ≤ 190)%nat →
  0 < Z.of_nat (length train) ≤ Mach.INT_MAX →
  0 < batch_size (para s) ≤ Mach.INT_MAX → 0 < dc →
  ∃ s' t0,
    Fitness_new input_dir dc train test s = Some (tt, s')
    ∧ head (test_set (self s')) = Some t0
    ∧ Z.of_nat (length (heads (train_set (self s')))) = num_batches (self s')
    ∧ potential (self s')
      = Some {| nep_input_dir := input_dir; nep_para := para s';
                nep_N := largest N (N t0) (heads (train_set (self s')));
                nep_N_times_max_NN_radial :=
                  largest (λ d, N d * ds_max_NN_radial d)
                    (N t0 * ds_max_NN_radial t0)
                    (heads (train_set (self s')));
                nep_N_times_max_NN_angular :=
                  largest (λ d, N d * ds_max_NN_angular d)
                    (N t0 * ds_max_NN_angular t0)
                    (heads (train_set (self s')));
                nep_version := version (para s');
                nep_deviceCount := dc |}
    ∧ max_NN_radial (self s')
      = largest ds_max_NN_radial (ds_max_NN_radial t0)
          (heads (train_set (self s')))
    ∧ max_NN_angular (self s')
      = largest ds_max_NN_angular (ds_max_NN_angular t0)
          (heads (train_set (self s'))).
Proof.
  intros Hfit Hsize Hb Hdc.
  destruct (run_Fitness_new input_dir dc train test s Hfit Hsize Hb Hdc)
    as (s' & E & Hnb & _ & Hts & _).
  pose proof E as E'.
  apply Fitness_new_inv in E'
    as (nb & bs & e1 & e2 & s2 & t0 & Nm & Nr & Ng & r & aa & Enb & _ & _ & _
        & _ & _ & _ & _ & Ht0 & Emax & Es').
  rewrite (ceil_size_spec _ _ Hsize Hb) in Enb. injection Enb as <-.
  assert (train_set (self s') = train_set (self s2)
          ∧ test_set (self s') = test_set (self s2)
          ∧ para s' = para s2
          ∧ max_NN_radial (self s') = r ∧ max_NN_angular (self s') = aa
          ∧ potential (self s')
            = Some {| nep_input_dir := input_dir; nep_para := para s2;
                      nep_N := Nm; nep_N_times_max_NN_radial := Nr;
                      nep_N_times_max_NN_angular := Ng;
                      nep_version := version (para s2);
                      nep_deviceCount := dc |})
    as (Htr & Hte & Hpa & Hra & Han & Hpot)
    by (rewrite Es'; repeat split; reflexivity).
  clear Es'. rewrite <- Hpa in Hpot. rewrite <- Htr in Emax.
  rewrite <- Hte in Ht0. clear Htr Hte Hpa.
  assert (0 < num_batches (self s')) as Hpos.
  { rewrite Hnb.
    pose proof (Z.div_pos (Z.of_nat (length train) - 1) (batch_size (para s))).
    lia. }
  assert (Z.of_nat (length (train_set (self s'))) = num_batches (self s'))
    as Hlen by (rewrite Hts, length_fmap, length_seqZ; lia).
  rewrite <- Hnb in Emax.
  rewrite <- (Z2Nat.id (num_batches (self s'))) in Emax by lia.
  apply raise_max_heads in Emax as [Hheads Hr]; [| lia].
  rewrite take_ge in Hheads, Hr by lia. cbn [fst snd] in Hr.
  injection Hr as -> -> -> -> ->.
  exists s', t0. split; [exact E |].
  split.
  { apply at_Some in Ht0 as [_ Ht0].
    destruct (test_set (self s')); [discriminate | exact Ht0]. }
  split; [rewrite Hheads; lia |].
  split; [exact Hpot |]. split; [exact Hra | exact Han].
Qed.

Lemma constructor_potential_witness :
  ∃ s' t0,
    Fitness_new (H := Model.collaborators) "." 1 Example.train3 []
      Example.fresh = Some (tt, s')
    ∧ head (test_set (self s')) = Some t0
    ∧ Z.of_nat (length (heads (train_set (self s')))) = num_batches (self s')
    ∧ potential (self s')
      = Some {| nep_input_dir := "."; nep_para := para s';
                nep_N := largest N (N t0) (heads (train_set (self s')));
                nep_N_times_max_NN_radial :=
                  largest (λ d, N d * ds_max_NN_radial d)
                    (N t0 * ds_max_NN_radial t0)
                    (heads (train_set (self s')));
                nep_N_times_max_NN_angular :=
                  largest (λ d, N d * ds_max_NN_angular d)
                    (N t0 * ds_max_NN_angular t0)
                    (heads (train_set (self s')));
                nep_version := version (para s');
                nep_deviceCount := 1 |}
    ∧ max_NN_radial (self s')
      = largest ds_max_NN_radial (ds_max_NN_radial t0)
          (heads (train_set (self s')))
    ∧ max_NN_angular (self s')
      = largest ds_max_NN_angular (ds_max_NN_angular t0)
          (heads (train_set (self s'))).
Proof.
  apply (constructor_potential (H := Model.collaborators) "." 1
           Example.train3 [] Example.fresh);
    [simpl; lia
    | vm_compute; split; [reflexivity | discriminate]
    | vm_compute; split; [reflexivity | discriminate]
    | lia].
Defined.



(** X10.  Without a device the constructor does not end: with a device
    count of 0 it reads [test_set[0]] of an empty [test_set], and a
    negative device count is refused by a [resize] before that. *)
Theorem constructor_needs_device `{Collaborators} input_dir dc train test s :
  dc ≤ 0 → Fitness_new input_dir dc train test s = None.
Proof.
  intros Hdc. apply not_Some_None. intros [[] s'] E.
  unfold Fitness_new in E. minv E.
  rewrite for_int_empty in E5 by exact Hdc. injection E5 as _ <-.
  cbn [self test_set with_test_set] in E6.
  replace (Z.to_nat dc) with O in E6 by lia. discriminate.
Qed.

Lemma constructor_needs_device_witness :
  Fitness_new (H := Model.collaborators) "." 0 Example.train3 []
    Example.fresh = None.
Proof.
  apply (constructor_needs_device (H := Model.collaborators)). lia.
Defined.

Lemma ceil_size_empty (k : Z) :
  0 ≤ k ≤ 30 → ceil_size 0 (2 ^ k) = Some 0.
Proof.
  intros Hk. rewrite <- (Z2Nat.id k) by lia.
  assert (Z.to_nat k ≤ 30)%nat as Hn by lia.
  destruct (Z.to_nat k) as [|n]; [vm_compute; reflexivity |].
  do 30 (destruct n as [|n]; [vm_compute; reflexivity |]). lia.
Qed.

(** X11.  For an empty training set [structures_train.size() - 1] wraps
    around in [size_t]; with a batch size that is a power of two the number
    of batches comes out as 0, and the constructor divides by it. *)
Theorem constructor_empty_training_set `{Collaborators}
    input_dir dc test s (k : Z) :
  0 ≤ k ≤ 30 → batch_size (para s) = 2 ^ k →
  Fitness_new input_dir dc [] test s = None.
Proof.
  intros Hk Hb. apply not_Some_None. intros [[] s'] E.
  apply Fitness_new_inv in E
    as (nb & bs & _ & _ & _ & _ & _ & _ & _ & _ & _ & Enb & Ebs & _).
  change (Z.of_nat (length (@nil Structure))) with 0 in Enb, Ebs.
  rewrite Hb, (ceil_size_empty k Hk) in Enb. injection Enb as <-.
  discriminate.
Qed.

Lemma constructor_empty_training_set_witness :
  Fitness_new (H := Model.collaborators) "." 1 [] [] Example.fresh = None.
Proof.
  apply (constructor_empty_training_set (H := Model.collaborators) "." 1 []
           Example.fresh 1); [lia | reflexivity].
Defined.

(** ** Edge cases of [compute] and [predict_energy_or_stress] *)

(** X12.  A population without individuals.  [min_population_iter] is
    [(0 - 1) / deviceCount + 1] with the truncating division of C++: 0 on
    one device, where a scoring generation does nothing, and 1 on more than
    one device, where the potential is run once on the selected batch, with
    zero devices, and nothing is stored. *)
Theorem compute_empty_population `{Collaborators} dc g pop s :
  fit_ok dc (self s) = true → 0 < g → population_size (para s) = 0 →
  ∃ pot v,
    potential (self s) = Some pot
    ∧ at_ (train_set (self s)) (g mod num_batches (self s)) = Some v
    ∧ (dc = 1 → compute dc g pop s = Some (tt, s))
    ∧ (1 < dc →
       compute dc g pop s
       = Some (tt, upd s
                     (with_train_set (self s)
                        (<[Z.to_nat (g mod num_batches (self s)) :=
                             find_force pot (para s) pop v false 0]>
                           (train_set (self s))))
                     (fitness s))).
Proof.
  intros Hok Hg HP.
  destruct (fit_ok_inv _ _ Hok) as ([pot Hpot] & Hdc & Hnb & Hts & _).
  pose proof (Z.mod_pos_bound g _ Hnb) as Hbid.
  destruct (at_in_range (train_set (self s)) (g mod num_batches (self s)))
    as [v Hv]; [lia |].
  exists pot, v. split; [exact Hpot |]. split; [exact Hv |].
  assert (∀ iters, min_population_iter 0 dc = Some iters →
            compute dc g pop s
            = for_int 0 iters (chunk dc (g mod num_batches (self s)) pop) s)
    as Hc.
  { intros iters Hi. unfold compute. mrun. rewrite HP, Hi.
    cbn [lift]. mrun. destruct (Z.eqb_spec g 0); [lia |].
    rewrite bind_run.
    rewrite (lift_Some _ _ _ (batch_id_of_spec g _ ltac:(lia) Hnb)).
    reflexivity. }
  split.
  - intros ->. rewrite (Hc 0) by reflexivity. apply for_int_empty. lia.
  - intros Hdc2.
    assert (min_population_iter 0 dc = Some 1) as Hi.
    { unfold min_population_iter, Mach.int_div.
      destruct (Z.eqb_spec dc 0); [lia |]. cbn [mbind option_bind].
      change (0 - 1) with (- (1)).
      rewrite Z.quot_opp_l, (Z.quot_small 1 dc) by lia. reflexivity. }
    rewrite (Hc 1 Hi). unfold for_int. cbn [seqZ for_each].
    change (seqZ 0 (1 - 0)) with [0]. cbn [for_each]. mrun.
    unfold chunk. mrun. rewrite HP. unfold device_in_this_iter.
    rewrite Z.mul_0_r. cbn [Z.mul Z.sub Z.opp]. rewrite Z.min_r by lia.
    unfold offset. cbn [Z.to_nat drop].
    rewrite (run_find_force_train pop _ false 0 s pot v Hpot Hv). mrun.
    rewrite for_int_empty by lia. reflexivity.
Qed.

Lemma compute_empty_population_witness :
  ∃ pot v,
    potential (self (Edge.no_individuals 2)) = Some pot
    ∧ at_ (train_set (self (Edge.no_individuals 2)))
          (1 mod num_batches (self (Edge.no_individuals 2))) = Some v
    ∧ (2 = 1 →
       compute (H := Model.collaborators) 2 1 [] (Edge.no_individuals 2)
       = Some (tt, Edge.no_individuals 2))
    ∧ (1 < 2 →
       compute (H := Model.collaborators) 2 1 [] (Edge.no_individuals 2)
       = Some (tt, upd (Edge.no_individuals 2)
                     (with_train_set (self (Edge.no_individuals 2))
                        (<[Z.to_nat
                             (1 mod num_batches
                                      (self (Edge.no_individuals 2))) :=
                             Model.keep pot (para (Edge.no_individuals 2)) []
                               v false 0]>
                           (train_set (self (Edge.no_individuals 2)))))
                     (fitness (Edge.no_individuals 2)))).
Proof.
  apply (compute_empty_population (H := Model.collaborators) 2 1 []
           (Edge.no_individuals 2));
    [vm_compute; reflexivity | lia | reflexivity].
Defined.

(** X13.  A structure without atoms: [predict_energy_or_stress] divides the
    empty sum [0.0f] by the atom count 0, and the line of the structure
    holds a NaN as its predicted value. *)
Theorem predict_empty_structure fid data ref d s (nc : Z) :
  tables_ok d (Z.of_nat (length data)) = true →
  Nc d ≤ Z.of_nat (length ref) →
  0 ≤ nc < Nc d → at_ (Na_cpu d) nc = Some 0 →
  ∃ lines r,
    predict_energy_or_stress fid data ref d s = Some (tt, emitted s lines)
    ∧ at_ ref nc = Some r
    ∧ at_ lines nc = Some (Fprintf fid "%g %g\n" [AFloat S754_nan; AFloat r]).
Proof.
  intros Hok Href Hnc Hna.
  destruct (tables_ok_inv _ _ Hok) as (_ & _ & HNs & _).
  destruct (at_in_range (Na_sum_cpu d) nc) as [off Hoff]; [lia |].
  destruct (at_in_range ref nc) as [r Hr]; [lia |].
  exists (dump_lines fid d data ref), r.
  split; [apply run_predict; assumption |]. split; [exact Hr |].
  apply at_Some. split; [lia |].
  apply at_Some in Hna as [_ Hna], Hoff as [_ Hoff], Hr as [_ Hr].
  rewrite (dump_lines_lookup fid d data ref _ off 0 r Hoff Hna Hr) by lia.
  reflexivity.
Qed.

Lemma predict_empty_structure_witness :
  ∃ lines r,
    predict_energy_or_stress "energy_test.out" (energy_cpu Edge.hollow)
      (energy_ref_cpu Edge.hollow) Edge.hollow Example.mem_exact
    = Some (tt, emitted Example.mem_exact lines)
    ∧ at_ (energy_ref_cpu Edge.hollow) 1 = Some r
    ∧ at_ lines 1
      = Some (Fprintf "energy_test.out" "%g %g\n"
                [AFloat S754_nan; AFloat r]).
Proof.
  apply (predict_empty_structure "energy_test.out" (energy_cpu Edge.hollow)
           (energy_ref_cpu Edge.hollow) Edge.hollow Example.mem_exact 1);
    [vm_compute; reflexivity | vm_compute; discriminate
    | vm_compute; split; [discriminate | reflexivity] | reflexivity].
Defined.

(** ** The contents of nep.txt *)

Lemma run_elite_loop_exact fid (n : Z) s :
  n ≤ Z.of_nat (length (elite s)) →
  for_int 0 n (λ m,
    v ← get_elite;
    x ← lift (at_ v m);
    emit (Fprintf fid "%15.7e\n" [AFloat x])) s
  = Some (tt, emitted s (number_line fid <$> take (Z.to_nat n) (elite s))).
Proof.
  intros Hn.
  destruct (Z.lt_ge_cases n 0) as [Hneg | Hpos].
  { rewrite for_int_empty by lia. replace (Z.to_nat n) with O by lia.
    cbn [take fmap list_fmap]. rewrite emitted_nil. reflexivity. }
  match goal with |- for_int 0 _ ?b _ = _ => set (body := b) end.
  destruct (for_int_inv 0 n body
              (λ m s', s' = emitted s (number_line fid
                                         <$> take (Z.to_nat m) (elite s))))
    with (s := s) as (s' & E & ->).
  - lia.
  - intros m s1 Hm ->.
    destruct (at_in_range (elite s) m) as [x Hx]; [lia |].
    eexists. split.
    + unfold body. mrunx. rewrite (lift_Some _ _ _ Hx). mrunx. reflexivity.
    + rewrite emitted_app. f_equal.
      replace (Z.to_nat (m + 1)) with (S (Z.to_nat m)) by lia.
      apply at_Some in Hx as [_ Hx].
      rewrite (take_S_r _ _ _ Hx), fmap_app. reflexivity.
  - cbn [Z.to_nat take fmap list_fmap]. symmetry. apply emitted_nil.
  - exact E.
Qed.

Lemma run_scaler_loop_exact fid (q : list float) s :
  for_int 0 (Z.of_nat (length q)) (λ d,
    x ← lift (at_ q d);
    emit (Fprintf fid "%15.7e\n" [AFloat x])) s
  = Some (tt, emitted s (number_line fid <$> q)).
Proof.
  match goal with |- for_int 0 _ ?b _ = _ => set (body := b) end.
  destruct (for_int_inv 0 (Z.of_nat (length q)) body
              (λ m s', s' = emitted s (number_line fid
                                         <$> take (Z.to_nat m) q)))
    with (s := s) as (s' & E & ->).
  - lia.
  - intros m s1 Hm ->.
    destruct (at_in_range q m) as [x Hx]; [lia |].
    eexists. split.
    + unfold body. mrunx. rewrite (lift_Some _ _ _ Hx). mrunx. reflexivity.
    + rewrite emitted_app. f_equal.
      replace (Z.to_nat (m + 1)) with (S (Z.to_nat m)) by lia.
      apply at_Some in Hx as [_ Hx].
      rewrite (take_S_r _ _ _ Hx), fmap_app. reflexivity.
  - cbn [Z.to_nat take fmap list_fmap]. symmetry. apply emitted_nil.
  - rewrite E, Nat2Z.id, firstn_all. reflexivity.
Qed.

Section Snapshot2.

Context `{Contract}.

Lemma write_nep_contents input_dir s a s' :
  write_nep input_dir s = Some (a, s') →
  number_of_variables (para s) ≤ Z.of_nat (length (elite s)) →
  ∃ v d00 q hdr,
    at_ (train_set (self s)) 0 = Some v ∧ at_ v 0 = Some d00
    ∧ copy_to_host (q_scaler_gpu d00) (q_scaler_cpu (para s)) = Some q
    ∧ Forall (line_to [input_dir +:+ "/nep.txt"]) hdr
    ∧ s' = {| self := self s; para := with_q_scaler_cpu (para s) q;
              fitness := fitness s; elite := elite s;
              out := out s
                     ++ [Fopen (input_dir +:+ "/nep.txt") "w"] ++ hdr
                     ++ [Fprintf (input_dir +:+ "/nep.txt") "ANN %d %d\n"
                           [AInt (num_neurons1 (para s)); AInt 0]]
                     ++ (number_line (input_dir +:+ "/nep.txt")
                           <$> take (Z.to_nat (number_of_variables (para s)))
                                 (elite s))
                     ++ (number_line (input_dir +:+ "/nep.txt") <$> q)
                     ++ [Fclose (input_dir +:+ "/nep.txt")] |}.
Proof.
  intros E Hnv. unfold write_nep in E. minv E.
  apply nep_header_writes in E0. apply elements_loop_writes in E1.
  apply nep_basis_writes in E3.
  assert (writes_to [input_dir +:+ "/nep.txt"] s1 s2) as W2.
  { destruct (enable_zbl (para s)); minv E2; lines. }
  clear E2.
  assert (writes_to [input_dir +:+ "/nep.txt"]
            (emitted s [Fopen (input_dir +:+ "/nep.txt") "w"]) s3) as W.
  { repeat first [eassumption | etransitivity; [eassumption |]]. }
  destruct W as (Ws & Wp & Wf & We & hdr & Wo & Fh).
  cbn [self para fitness elite out emitted] in Ws, Wp, Wf, We, Wo.
  rewrite run_elite_loop_exact in E4 by (cbn [elite]; rewrite We; exact Hnv).
  injection E4 as E4. subst s4. cbn [self para fitness elite out emitted] in *.
  rewrite run_scaler_loop_exact in E7. injection E7 as E7. subst s5.
  destruct E5 as (v & Hv & Hd). rewrite Ws in Hv. cbn [vec_of] in Hv.
  exists v, a5, a6, hdr. repeat (split; [assumption |]).
  cbn [self para fitness elite out emitted]. rewrite Ws, Wf, We, Wo.
  f_equal. rewrite <- !app_assoc. reflexivity.
Qed.

End Snapshot2.

(** ** What a checkpoint writes *)

Section CheckpointFiles.

Context `{Contract}.

(** A checkpoint up to the dumps of the test set. *)
Lemma checkpoint_before_train_dump dc input_dir g lt l1 l2 s s' :
  mem_ok dc s = true → 0 ≤ g → fires g = true →
  report_error input_dir g lt l1 l2 s = Some (tt, s') →
  ∃ pot ds d old t v00 d00 hdr s4,
    potential (self s) = Some pot
    ∧ at_ (train_set (self s)) (g mod num_batches (self s)) = Some ds
    ∧ at_ (find_force pot (para s) (elite s) ds false 1) 0 = Some d
    ∧ at_ (elite s) (number_of_variables_ann (para s) - 1) = Some old
    ∧ let el := <[Z.to_nat (number_of_variables_ann (para s) - 1) :=
                   F32.add old (get_rmse_energy d false true 0).2]> (elite s) in
      let q := q_scaler_gpu d00
               ++ drop (length (q_scaler_gpu d00)) (q_scaler_cpu (para s)) in
      let t' := with_host t (energy t) (virial t) (force t) in
      let line := loss_line g lt l1 l2 (para s) d t in
      let nep := input_dir +:+ "/nep.txt" in
      at_ (find_force pot (para s) el (test_set (self s)) false 1) 0 = Some t
      ∧ at_ (<[Z.to_nat (g mod num_batches (self s)) :=
                 find_force pot (para s) (elite s) ds false 1]>
               (train_set (self s))) 0 = Some v00
      ∧ at_ v00 0 = Some d00
      ∧ Forall (line_to [nep]) hdr
      ∧ shaped dc (length (q_scaler_cpu (para s))) s4
      ∧ potential (self s4) = Some pot
      ∧ num_batches (self s4) = num_batches (self s)
      ∧ train_set (self s4)
        = <[Z.to_nat (g mod num_batches (self s)) :=
              find_force pot (para s) (elite s) ds false 1]>
            (train_set (self s))
      ∧ para s4 = with_q_scaler_cpu (para s) q
      ∧ elite s4 = el
      ∧ out s4
        = out s
          ++ [Fopen nep "w"] ++ hdr
          ++ [Fprintf nep "ANN %d %d\n" [AInt (num_neurons1 (para s)); AInt 0]]
          ++ (number_line nep
                <$> take (Z.to_nat (number_of_variables (para s))) el)
          ++ (number_line nep <$> q)
          ++ [Fclose nep;
              Printf loss_format line; Fflush "stdout";
              Fprintf (fid_loss_out (self s)) loss_format line;
              Fflush (fid_loss_out (self s));
              Fopen (input_dir +:+ "/force_test.out") "w";
              Fopen (input_dir +:+ "/energy_test.out") "w";
              Fopen (input_dir +:+ "/virial_test.out") "w"]
          ++ efv_lines (input_dir +:+ "/energy_test.out")
               (input_dir +:+ "/force_test.out")
               (input_dir +:+ "/virial_test.out") t'
          ++ [Fclose (input_dir +:+ "/energy_test.out");
              Fclose (input_dir +:+ "/force_test.out");
              Fclose (input_dir +:+ "/virial_test.out")]
      ∧ (if fires_train g then dump_train input_dir else ret tt) s4
        = Some (tt, s').
Proof.
  intros Hok Hg Hf E.
  destruct (mem_ok_inv _ _ Hok) as (Hsh & _ & Hnv & _).
  pose proof Hsh as (Hfit & _).
  destruct (fit_ok_inv _ _ Hfit) as (_ & Hdc & Hnb & _).
  apply report_error_inv in E
    as (b & pot & ds & d & old & t & s1 & s2 & Hb & Hpot & Hds & Hd & Hold
        & E); [| exact Hf].
  cbv zeta in E. destruct E as (Ht & En & Eu & Ed).
  rewrite (batch_id_of_spec g _ Hg Hnb) in Hb. injection Hb as <-.
  pose proof (checkpoint_start_kept s _ pot ds old
                (get_rmse_energy d false true 0).2 1 Hpot Hds Hold) as K0.
  cbv zeta in K0.
  pose proof (write_nep_checkpointed _ _ _ _ En) as K1.
  apply write_nep_contents in En
    as (v00 & d00 & q & hdr & Hv00 & Hd00 & Hq & Fh & ->);
    [| cbn [para elite]; rewrite length_insert; exact Hnv].
  cbn [self para fitness elite out train_set with_test_set with_train_set]
    in Hv00, Hq.
  assert (q = q_scaler_gpu d00
              ++ drop (length (q_scaler_gpu d00)) (q_scaler_cpu (para s)))
    as Eq.
  { unfold copy_to_host in Hq.
    destruct (length (q_scaler_gpu d00) <=? length (q_scaler_cpu (para s)))%nat;
      [injection Hq as <-; reflexivity | discriminate]. }
  match type of Eu with
  | update_energy_force_virial _ _ _ _ _ ?st = _ =>
      assert (shaped dc (length (q_scaler_cpu (para s))) st) as Hs2
        by (apply (checkpointed_shaped _ _ s); [| exact Hsh];
            etransitivity; [exact K0 |]; etransitivity; [exact K1 |];
            apply checkpointed_emitted);
      pose proof (update_efv_checkpointed _ _ _ _ _ _ _ _ Eu) as K2;
      destruct (run_update_efv_exact dc _
                  (input_dir +:+ "/energy_test.out")
                  (input_dir +:+ "/force_test.out")
                  (input_dir +:+ "/virial_test.out") TestSet 0 st Hs2 I
                  ltac:(lia)) as (vt & t2 & Hvt & Ht2 & Eu2)
  end.
  cbn [self emitted vec_of test_set with_test_set] in Hvt.
  injection Hvt as <-. rewrite Ht in Ht2. injection Ht2 as <-.
  rewrite Eu2 in Eu. injection Eu as <-. clear Eu2.
  match type of Ed with
  | (if _ then _ else _) ?st = _ => set (s4 := st) in *
  end.
  exists pot, ds, d, old, t, v00, d00, hdr, s4.
  cbv zeta. repeat (split; [assumption |]).
  split.
  { apply (checkpointed_shaped _ _ _ _ (checkpointed_emitted _ _)).
    apply (checkpointed_shaped _ _ _ _ K2). exact Hs2. }
  split; [exact Hpot |]. split; [reflexivity |]. split; [reflexivity |].
  split; [unfold s4; cbn [para emitted upd]; rewrite <- Eq; reflexivity |].
  split; [reflexivity |].
  split; [| exact Ed].
  unfold s4. cbn [out emitted upd]. rewrite <- Eq.
  repeat (rewrite <- ?app_assoc; cbn [app]). reflexivity.
Qed.

End CheckpointFiles.



(** ** What the dump of the training set prints *)

Section TrainDumpExact.

Context `{Contract}.

Variables (dc : Z) (q : nat) (input_dir : string) (s : Mem) (pot : NEP3)
          (row0 : list Dataset).

Hypothesis Hs : shaped dc q s.
Hypothesis Hnb : num_batches (self s) ≤ dc.
Hypothesis Hpot : potential (self s) = Some pot.
Hypothesis Hrow0 : at_ (train_set (self s)) 0 = Some row0.

#[local] Abbreviation fe := (input_dir +:+ "/energy_train.out").
#[local] Abbreviation ff := (input_dir +:+ "/force_train.out").
#[local] Abbreviation fv := (input_dir +:+ "/virial_train.out").
#[local] Abbreviation V0 := (find_force pot (para s) (elite s) row0 false 1).
#[local] Abbreviation F := (λ d, efv_lines fe ff fv (host_synced d)).

(** Row 0 of the training set when batch [b] is about to be dumped. *)
#[local] Abbreviation mix b :=
  (take b (host_synced <$> V0) ++ drop b V0).

Lemma run_dump_loop (s0 : Mem) :
  self s0 = self s → para s0 = para s → elite s0 = elite s →
  ∃ s',
    for_int 0 (num_batches (self s)) (λ batch_id,
      v ← get_elite;
      potential_find_force v (TrainSet batch_id) false 1;;
      update_energy_force_virial fe ff fv (TrainSet 0) batch_id) s0
    = Some (tt, s')
    ∧ para s' = para s ∧ elite s' = elite s ∧ fitness s' = fitness s0
    ∧ out s' = out s0 ++ (take (Z.to_nat (num_batches (self s))) V0 ≫= F).
Proof.
  intros Es Ep Ee.
  assert (shaped dc q s0) as Hs0 by (apply (shaped_same dc q s); assumption).
  pose proof Hs as (Hfit & _).
  destruct (fit_ok_inv _ _ Hfit) as (_ & Hdc & Hnbpos & Hlen & Hrow & _).
  assert (length V0 = length row0) as HV0 by apply find_force_length.
  assert (Z.of_nat (length row0) = dc) as Hr0.
  { apply at_Some in Hrow0 as [_ Hr]. exact (Hrow _ _ Hr). }
  match goal with |- ∃ _, for_int 0 _ ?b _ = _ ∧ _ => set (body := b) end.
  destruct (for_int_inv 0 (num_batches (self s)) body
              (λ b st,
                 shaped dc q st
                 ∧ potential (self st) = Some pot
                 ∧ num_batches (self st) = num_batches (self s)
                 ∧ para st = para s ∧ elite st = elite s
                 ∧ fitness st = fitness s0
                 ∧ at_ (train_set (self st)) 0
                   = Some (if b =? 0 then row0 else mix (Z.to_nat b))
                 ∧ out st = out s0 ++ (take (Z.to_nat b) V0 ≫= F)))
    with (s := s0) as (s' & E & _ & _ & _ & P & L & Fi & _ & O).
  - lia.
  - intros b st Hb (Hst & Hp & Hn & Pp & Pe & Pf & Prow & Po).
    pose proof Hst as (Hfit1 & _).
    destruct (fit_ok_inv _ _ Hfit1) as (_ & _ & _ & Hlen1 & _).
    destruct (at_in_range (train_set (self st)) b) as [ds Hds]; [lia |].
    set (s1 := upd st (with_vec (self st) (TrainSet b)
                         (find_force pot (para st) (elite st) ds false 1))
                 (fitness st)).
    assert (shaped dc q s1) as Hs1.
    { apply (shaped_with_vec dc q st (TrainSet b) ds);
        [exact Hst | exact Hds | apply find_force_length |].
      apply find_force_shape.
      exact (shaped_vec_of dc q st (TrainSet b) ds Hst Hds). }
    assert (at_ (train_set (self s1)) 0 = Some (mix (Z.to_nat b))) as Hrow1.
    { unfold s1. cbn [self upd with_vec with_train_set train_set].
      destruct (Z.eqb_spec b 0) as [-> | Hb0].
      - rewrite Hds in Prow. injection Prow as ->.
        cbn [Z.to_nat take drop app]. rewrite Pp, Pe.
        apply at_Some. split; [lia |].
        apply list_lookup_insert_eq. cbn [Z.to_nat]. lia.
      - apply at_Some. split; [lia |]. cbn [Z.to_nat].
        rewrite list_lookup_insert_ne by lia.
        apply at_Some in Prow as [_ Prow]. exact Prow. }
    destruct (run_update_efv_exact dc q fe ff fv (TrainSet 0) b s1
                Hs1) as (v & d & Hv & Hd & Eu).
    { unfold s1. cbn [self upd].
      rewrite (proj1 (with_vec_frame _ _ _)). lia. }
    { lia. }
    cbn [vec_of] in Hv. rewrite Hrow1 in Hv. injection Hv as <-.
    assert (V0 !! Z.to_nat b = Some d) as HdV.
    { apply at_Some in Hd as [_ Hd].
      rewrite mix_lookup in Hd by (rewrite length_fmap; lia). exact Hd. }
    eexists. split.
    { unfold body. mrun.
      rewrite (run_find_force (elite st) (TrainSet b) false 1 st pot ds Hp Hds).
      mrun. fold s1. exact Eu. }
    assert (<[Z.to_nat b := host_synced d]> (mix (Z.to_nat b))
            = mix (Z.to_nat (b + 1))) as Hmix.
    { replace (Z.to_nat (b + 1)) with (S (Z.to_nat b)) by lia.
      apply insert_mix; [apply length_fmap |].
      rewrite list_lookup_fmap, HdV. reflexivity. }
    fold (host_synced d). rewrite Hmix.
    split.
    { apply (shaped_same dc q
               (upd s1 (with_vec (self s1) (TrainSet 0)
                          (mix (Z.to_nat (b + 1)))) (fitness s1)));
        [| reflexivity | reflexivity].
      apply (shaped_with_vec dc q s1 (TrainSet 0) (mix (Z.to_nat b)));
        [exact Hs1 | exact Hrow1 | |].
      - rewrite <- Hmix. apply length_insert.
      - rewrite <- Hmix. apply forallb_insert.
        + exact (shaped_vec_of dc q s1 (TrainSet 0) _ Hs1 Hrow1).
        + apply ds_ok_with_host.
          apply (forallb_lookup _ V0 (Z.to_nat b));
            [| exact HdV].
          apply find_force_shape.
          exact (shaped_vec_of dc q s (TrainSet 0) row0 Hs Hrow0). }
    cbn [self para elite fitness out emitted upd s1 with_vec with_train_set
         potential num_batches train_set].
    repeat (split; [assumption |]).
    split.
    { destruct (Z.eqb_spec (b + 1) 0); [lia |].
      apply at_Some. split; [lia |]. apply list_lookup_insert_eq.
      rewrite length_insert. cbn [Z.to_nat]. lia. }
    rewrite Po, <- app_assoc. f_equal.
    replace (Z.to_nat (b + 1)) with (S (Z.to_nat b)) by lia.
    rewrite (bind_take_S F V0 _ d HdV). reflexivity.
  - split; [exact Hs0 |]. rewrite Es.
    split; [exact Hpot |]. split; [reflexivity |]. split; [exact Ep |].
    split; [exact Ee |]. split; [reflexivity |]. split; [exact Hrow0 |].
    cbn [Z.to_nat take]. symmetry. apply app_nil_r.
  - exists s'. repeat (split; [assumption |]). exact O.
Qed.

End TrainDumpExact.

(** X14.  The dump of the training set, every 1000 generations, from a
    state that satisfies [mem_ok], with no more batches than devices and a
    directory name of at most 182 characters (so that every file name fits
    its buffer): [report_error] ends, and for
    [batch_id = 0 .. num_batches - 1] the potential is run on batch
    [batch_id], and what is printed is dataset [batch_id] of batch 0.  So
    the three files hold the datasets of batch 0 on the devices
    [0 .. num_batches - 1], as the run on batch 0 with the corrected [elite]
    leaves them, each copied to the host; no dataset of another batch is
    printed. *)
Theorem train_dump_contents `{Contract} dc input_dir g lt l1 l2 s :
  (String.length input_dir ≤ 182)%nat →
  mem_ok dc s = true → 0 ≤ g → fires_train g = true →
  num_batches (self s) ≤ dc →
  ∃ pot ds row0 s' before,
    potential (self s) = Some pot
    ∧ at_ (train_set (self s)) (g mod num_batches (self s)) = Some ds
    ∧ at_ (<[Z.to_nat (g mod num_batches (self s)) :=
               find_force pot (para s) (elite s) ds false 1]>
             (train_set (self s))) 0 = Some row0
    ∧ report_error input_dir g lt l1 l2 s = Some (tt, s')
    ∧ out s'
      = before
        ++ [Fopen (input_dir +:+ "/force_train.out") "w";
            Fopen (input_dir +:+ "/energy_train.out") "w";
            Fopen (input_dir +:+ "/virial_train.out") "w"]
        ++ (take (Z.to_nat (num_batches (self s)))
              (find_force pot (para s') (elite s') row0 false 1)
              ≫= λ d, efv_lines (input_dir +:+ "/energy_train.out")
                        (input_dir +:+ "/force_train.out")
                        (input_dir +:+ "/virial_train.out") (host_synced d))
        ++ [Fclose (input_dir +:+ "/energy_train.out");
            Fclose (input_dir +:+ "/force_train.out");
            Fclose (input_dir +:+ "/virial_train.out")].
Proof.
  intros Hlen Hok Hg Hft Hnb.
  pose proof (fires_train_fires g Hft) as Hf.
  destruct (run_report_error dc input_dir g lt l1 l2 s Hlen Hok Hg Hf
              (λ _, Hnb))
    as (_ & _ & _ & _ & s' & _ & _ & _ & _ & _ & E & _).
  destruct (checkpoint_before_train_dump dc input_dir g lt l1 l2 s s' Hok Hg
              Hf E)
    as (pot & ds & d & old & t & v00 & d00 & hdr & s4 & Hpot & Hds & Hd
        & Hold & K).
  cbv zeta in K.
  destruct K as (_ & Hv00 & _ & _ & Hs4 & Hp4 & Hn4 & Ht4 & _ & _ & _ & Ed).
  rewrite Hft in Ed.
  apply dump_train_inv in Ed as (sc & El & ->).
  rewrite <- Ht4 in Hv00.
  destruct (run_dump_loop dc _ input_dir s4 pot v00 Hs4 ltac:(lia) Hp4 Hv00
              (emitted s4
                 [Fopen (input_dir +:+ "/force_train.out") "w";
                  Fopen (input_dir +:+ "/energy_train.out") "w";
                  Fopen (input_dir +:+ "/virial_train.out") "w"])
              eq_refl eq_refl eq_refl) as (sc' & El' & P & L & _ & O).
  rewrite El in El'. injection El' as <-.
  exists pot, ds, v00, (emitted sc
                         [Fclose (input_dir +:+ "/energy_train.out");
                          Fclose (input_dir +:+ "/force_train.out");
                          Fclose (input_dir +:+ "/virial_train.out")]),
    (out s4).
  rewrite Ht4 in Hv00.
  repeat (split; [assumption |]).
  cbn [para elite out emitted] in *. rewrite P, L, O, Hn4, <- !app_assoc.
  reflexivity.
Qed.

Lemma train_dump_contents_witness :
  ∃ pot ds row0 s' before,
    potential (self (Example.mem_two 2)) = Some pot
    ∧ at_ (train_set (self (Example.mem_two 2)))
          (999 mod num_batches (self (Example.mem_two 2))) = Some ds
    ∧ at_ (<[Z.to_nat (999 mod num_batches (self (Example.mem_two 2))) :=
               Model.keep pot (para (Example.mem_two 2))
                 (elite (Example.mem_two 2)) ds false 1]>
             (train_set (self (Example.mem_two 2)))) 0 = Some row0
    ∧ report_error (H := Model.collaborators) "." 999 F32.zero F32.zero
        F32.zero (Example.mem_two 2) = Some (tt, s')
    ∧ out s'
      = before
        ++ [Fopen ("." +:+ "/force_train.out") "w";
            Fopen ("." +:+ "/energy_train.out") "w";
            Fopen ("." +:+ "/virial_train.out") "w"]
        ++ (take (Z.to_nat (num_batches (self (Example.mem_two 2))))
              (Model.keep pot (para s') (elite s') row0 false 1)
              ≫= λ d, efv_lines ("." +:+ "/energy_train.out")
                        ("." +:+ "/force_train.out")
                        ("." +:+ "/virial_train.out") (host_synced d))
        ++ [Fclose ("." +:+ "/energy_train.out");
            Fclose ("." +:+ "/force_train.out");
            Fclose ("." +:+ "/virial_train.out")].
Proof.
  apply (train_dump_contents (H := Model.collaborators) (H0 := model_contract)
           2 "." 999 F32.zero F32.zero F32.zero (Example.mem_two 2));
    [simpl; lia | vm_compute; reflexivity | lia | vm_compute; reflexivity
    | vm_compute; discriminate].
Defined.

(** ** What a generation leaves alone *)

Lemma frame_refl s : frame s s.
Proof. repeat split. Qed.

Lemma frame_trans s1 s2 s3 : frame s1 s2 → frame s2 s3 → frame s1 s3.
Proof.
  intros (A1 & A2 & A3 & A4 & A5 & A6 & A7 & A8 & A9 & A10)
         (B1 & B2 & B3 & B4 & B5 & B6 & B7 & B8 & B9 & B10).
  repeat split; etransitivity; eassumption.
Qed.

Global Instance frame_preorder : PreOrder frame.
Proof. split; [exact frame_refl | exact frame_trans]. Qed.

Global Instance warmed_preorder : PreOrder warmed.
Proof.
  split.
  - intros s. split; reflexivity.
  - intros s1 s2 s3 [A1 A2] [B1 B2].
    split; etransitivity; eassumption.
Qed.

Global Instance scored_preorder b : PreOrder (scored b).
Proof.
  split.
  - intros s. repeat split; reflexivity.
  - intros s1 s2 s3 (A1 & A2 & A3) (B1 & B2 & B3).
    split; [etransitivity; eassumption |].
    split; [etransitivity; eassumption |].
    intros b' Hb. rewrite (B3 b' Hb). exact (A3 b' Hb).
Qed.

Lemma frame_with_vec s r v0 v :
  vec_of (self s) r = Some v0 →
  frame s (upd s (with_vec (self s) r v) (fitness s)).
Proof.
  intros Hv. destruct r as [b|]; cbn [with_vec]; repeat split.
  cbn [self upd with_train_set train_set]. apply length_insert.
Qed.

Lemma frame_store_fitness s i x :
  frame s (upd s (self s) (<[i := x]> (fitness s))).
Proof. repeat split. cbn [fitness upd]. apply length_insert. Qed.

Section Footprint.

Context `{Collaborators}.

Lemma find_force_warmed x r flag k :
  preserves warmed (potential_find_force x r flag k).
Proof.
  intros s a s' E. minv E.
  split; [| reflexivity]. eapply frame_with_vec; eassumption.
Qed.

Lemma find_force_scored b x flag k :
  preserves (scored b) (potential_find_force x (TrainSet b) flag k).
Proof.
  intros s a s' E. minv E.
  split; [eapply frame_with_vec; eassumption |].
  split; [reflexivity |].
  intros b' Hb. cbn [self upd with_vec with_train_set train_set].
  cbn [vec_of] in *.
  match goal with Hv : at_ _ b = Some _ |- _ =>
    apply at_Some in Hv as [Hb0 _] end.
  unfold at_. destruct (Z.ltb_spec b' 0); [reflexivity |].
  apply list_lookup_insert_ne. lia.
Qed.

Lemma store_fitness_scored b i x : preserves (scored b) (store_fitness i x).
Proof.
  intros s a s' E. minv E.
  split; [apply frame_store_fitness |]. split; [reflexivity |].
  intros b' _. reflexivity.
Qed.

Lemma score_scored dc b n m : preserves (scored b) (score dc b n m).
Proof.
  unfold score.
  repeat first
    [ apply store_fitness_scored
    | apply (preserves_read (scored b) para)
    | apply (preserves_load_ds (scored b))
    | apply (preserves_bind (scored b)); [| intros ?] ].
Qed.

Lemma chunk_scored dc b pop n : preserves (scored b) (chunk dc b pop n).
Proof.
  unfold chunk.
  apply (preserves_bind (scored b)); [apply (preserves_read _ para) |].
  intros p. apply (preserves_bind (scored b)); [apply find_force_scored |].
  intros _. apply (preserves_for_int (scored b)).
  intros m _. apply score_scored.
Qed.

End Footprint.

(** A run of [Fitness::compute] that has ended, read backwards. *)
Lemma compute_inv `{Collaborators} dc g pop s s' :
  compute dc g pop s = Some (tt, s') →
  if g =? 0 then warmed s s'
  else ∃ b, batch_id_of g (num_batches (self s)) = Some b ∧ scored b s s'.
Proof.
  intros E. unfold compute in E.
  apply bind_inv in E as (p & s1 & E1 & E). minv E1.
  apply bind_inv in E as (iters & s1 & E1 & E). minv E1.
  apply bind_inv in E as (f & s1 & E2 & E). minv E2.
  destruct (g =? 0).
  - apply bind_inv in E as (dummy & s1 & E2 & E). minv E2.
    revert E. apply (preserves_for_int warmed). intros n _.
    apply (preserves_bind warmed).
    + apply find_force_warmed.
    + intros _. apply find_force_warmed.
  - apply bind_inv in E as (b & s1 & E2 & E). minv E2.
    exists b. split; [assumption |].
    revert E. apply (preserves_for_int (scored b)). intros n _.
    apply chunk_scored.
Qed.

Lemma compute_frame `{Collaborators} dc g pop :
  preserves frame (compute dc g pop).
Proof.
  intros s [] s' E. apply compute_inv in E.
  destruct (g =? 0); [apply E |]. destruct E as (b & _ & E). apply E.
Qed.

(** X15.  What [Fitness::compute] leaves alone, whatever it is given.
    When it returns it has printed nothing and has kept the parameters,
    [elite], the length of the [fitness] buffer and the members of the
    [Fitness] object other than the contents of the datasets.  Generation 0
    keeps the [fitness] buffer as it is; a later generation keeps the test
    set and every batch of the training set other than batch
    [generation % num_batches]. *)
Theorem compute_footprint `{Collaborators} dc g pop s s' :
  compute dc g pop s = Some (tt, s') →
  if g =? 0 then warmed s s'
  else ∃ b, batch_id_of g (num_batches (self s)) = Some b ∧ scored b s s'.
Proof. exact (compute_inv dc g pop s s'). Qed.

Lemma compute_footprint_witness :
  ∃ s', compute (H := Model.collaborators) 1 1 Example.population
          Example.mem_exact = Some (tt, s')
        ∧ ∃ b, batch_id_of 1 (num_batches (self Example.mem_exact)) = Some b
               ∧ scored b Example.mem_exact s'.
Proof.
  eexists. split; [vm_compute; reflexivity |].
  apply (compute_footprint (H := Model.collaborators) 1 1 Example.population
           Example.mem_exact).
  vm_compute. reflexivity.
Defined.

(** ** The life of a [Fitness] object *)

Global Instance object_kept_preorder : PreOrder object_kept.
Proof.
  split.
  - intros s. repeat split. exists []. rewrite app_nil_r. reflexivity.
  - intros s1 s2 s3 (A1 & A2 & A3 & A4 & A5 & e1 & A6)
                    (B1 & B2 & B3 & B4 & B5 & e2 & B6).
    repeat (split; [etransitivity; eassumption |]).
    exists (e1 ++ e2). rewrite B6, A6, app_assoc. reflexivity.
Qed.

Lemma object_kept_same s s' evs :
  self s' = self s → out s' = out s ++ evs → object_kept s s'.
Proof.
  intros Hs Ho. unfold object_kept. rewrite Hs.
  repeat (split; [reflexivity |]). exists evs. exact Ho.
Qed.

Lemma object_kept_with_vec s r v :
  object_kept s (upd s (with_vec (self s) r v) (fitness s)).
Proof.
  destruct (with_vec_frame (self s) r v) as (A & B & C & D & E).
  cbn [self upd]. repeat (split; [assumption |]).
  exists []. symmetry. apply app_nil_r.
Qed.

Lemma writes_to_kept ps s s' : writes_to ps s s' → object_kept s s'.
Proof.
  intros (A & _ & _ & _ & evs & O & _). exact (object_kept_same s s' evs A O).
Qed.

Ltac kept :=
  eapply object_kept_same;
  [ reflexivity | cbn [out emitted]; rewrite <- ?app_assoc; reflexivity ].

Section KeptByCalls.

Context `{Collaborators}.

Lemma find_force_kept x r flag k :
  preserves object_kept (potential_find_force x r flag k).
Proof.
  intros s a s' (pot & ds & _ & _ & ->)%find_force_inv.
  apply object_kept_with_vec.
Qed.

Lemma add_elite_kept i x : preserves object_kept (add_elite i x).
Proof.
  intros s a s' (old & _ & ->)%add_elite_inv.
  apply (object_kept_same _ _ []); [reflexivity |].
  symmetry. apply app_nil_r.
Qed.

Lemma emit_kept e : preserves object_kept (emit e).
Proof. intros s a s' E. minv E. kept. Qed.

Lemma update_efv_kept fe ff fv r m :
  preserves object_kept (update_energy_force_virial fe ff fv r m).
Proof.
  intros s a s'
    (v & d & e & vv & f & _ & _ & _ & _ & _ & Hw)%update_efv_inv.
  etransitivity; [| exact (writes_to_kept _ _ _ Hw)].
  apply object_kept_with_vec.
Qed.

Lemma write_nep_kept input_dir : preserves object_kept (write_nep input_dir).
Proof.
  intros s a s'
    (v & d00 & q & s1 & s2 & _ & _ & _ & W1 & W2 & ->)%write_nep_inv.
  etransitivity;
    [exact (object_kept_same s (emitted s _)
              [Fopen (input_dir +:+ "/nep.txt") "w"] eq_refl eq_refl) |].
  etransitivity; [exact (writes_to_kept _ _ _ W1) |].
  etransitivity; [| etransitivity; [exact (writes_to_kept _ _ _ W2) |]].
  - apply (object_kept_same _ _ []); [reflexivity |].
    symmetry. apply app_nil_r.
  - kept.
Qed.

Lemma dump_train_kept input_dir : preserves object_kept (dump_train input_dir).
Proof.
  unfold dump_train.
  do 3 (apply (preserves_bind object_kept);
          [apply (preserves_lift object_kept) | intros ?];
        apply (preserves_bind object_kept); [apply emit_kept | intros _]).
  apply (preserves_bind object_kept); [apply (preserves_read _ self) |].
  intros f. apply (preserves_bind object_kept).
  { apply (preserves_for_int object_kept). intros b _.
    apply (preserves_bind object_kept); [apply (preserves_read _ elite) |].
    intros v. apply (preserves_bind object_kept); [apply find_force_kept |].
    intros _. apply update_efv_kept. }
  intros _.
  do 2 (apply (preserves_bind object_kept); [apply emit_kept | intros _]).
  apply emit_kept.
Qed.

Lemma report_error_kept input_dir g lt l1 l2 :
  preserves object_kept (report_error input_dir g lt l1 l2).
Proof.
  unfold report_error.
  destruct (0 =? Z.rem (g + 1) 100);
    [| apply (preserves_ret object_kept)].
  apply (preserves_bind object_kept); [apply (preserves_read _ self) |].
  intros f. apply (preserves_bind object_kept);
    [apply (preserves_read _ para) |].
  intros p. apply (preserves_bind object_kept);
    [apply (preserves_lift object_kept) |].
  intros b. apply (preserves_bind object_kept);
    [apply (preserves_read _ elite) |].
  intros v. apply (preserves_bind object_kept); [apply find_force_kept |].
  intros _. apply (preserves_bind object_kept);
    [apply (preserves_load_ds object_kept) |].
  intros d. destruct (get_rmse_energy d false true 0) as [r1 shift].
  apply (preserves_bind object_kept); [apply add_elite_kept |].
  intros _. apply (preserves_bind object_kept);
    [apply (preserves_read _ elite) |].
  intros v'. apply (preserves_bind object_kept); [apply find_force_kept |].
  intros _. apply (preserves_bind object_kept);
    [apply (preserves_load_ds object_kept) |].
  intros t. apply (preserves_bind object_kept); [apply write_nep_kept |].
  intros _.
  do 4 (apply (preserves_bind object_kept); [apply emit_kept | intros _]).
  do 3 (apply (preserves_bind object_kept);
          [apply (preserves_lift object_kept) | intros ?];
        apply (preserves_bind object_kept); [apply emit_kept | intros _]).
  apply (preserves_bind object_kept); [apply update_efv_kept | intros _].
  do 3 (apply (preserves_bind object_kept); [apply emit_kept | intros _]).
  destruct (0 =? Z.rem (g + 1) 1000);
    [apply dump_train_kept | apply (preserves_ret object_kept)].
Qed.

Lemma do_call_kept c : preserves object_kept (do_call c).
Proof.
  destruct c as [dc g pop | input_dir g lt l1 l2]; cbn [do_call].
  - intros s [] s' E. apply compute_frame in E
      as (_ & _ & Ho & Hn & Hp & Hl & Hr & Ha & _).
    repeat (split; [assumption |]).
    exists []. rewrite app_nil_r. exact Ho.
  - apply report_error_kept.
Qed.

End KeptByCalls.

Lemma progress_opens_nothing fmts evs :
  Forall (progress fmts) evs → opened evs = [].
Proof.
  induction 1 as [|e evs He _ IH]; [reflexivity |].
  unfold opened in *. destruct e; cbn in *; try contradiction; exact IH.
Qed.

Lemma Fitness_new_opens `{Collaborators} input_dir dc train test s a s' :
  Fitness_new input_dir dc train test s = Some (a, s') →
  ∃ messages,
    out s' = out s ++ messages ++ [Fopen (input_dir +:+ "/loss.out") "a"]
    ∧ opened messages = []
    ∧ fid_loss_out (self s') = input_dir +:+ "/loss.out".
Proof.
  intros E.
  apply Fitness_new_inv in E
    as (nb & bs & e1 & e2 & s2 & t0 & Nm & Nr & Ng & r & aa & _ & _ & _
        & _ & _ & Ho & A1 & A2 & _ & _ & ->).
  cbn [out self fid_loss_out with_fid_loss_out].
  exists ([PrintLine1; Printf "Started reading train.in.\n" []; PrintLine2;
           Printf "Number of devices = %d\n" [AInt dc];
           Printf "Number of batches = %d\n" [AInt nb]]
          ++ (if batch_size (para s) =? bs then []
              else [Printf "Hello, I changed the batch_size from %d to %d.\n"
                      [AInt (batch_size (para s)); AInt bs]])
          ++ e1
          ++ [PrintLine1; Printf "Started reading test.in.\n" []; PrintLine2]
          ++ e2).
  split; [rewrite Ho; repeat rewrite <- app_assoc; reflexivity |].
  split; [| reflexivity].
  rewrite !opened_app, (progress_opens_nothing _ _ A1),
    (progress_opens_nothing _ _ A2).
  destruct (batch_size (para s) =? bs); reflexivity.
Qed.

(** X16.  The life of a [Fitness] object.  Whatever calls of [compute] and
    [report_error] are made between the constructor and the destructor (with
    any arguments), if the run ends then the constructor has opened
    [input_dir/loss.out] for appending after its messages, none of which
    opens a file, and the last thing done is the closing of that file by the
    destructor: no call changes [fid_loss_out]. *)
Theorem life_of_loss_file `{Collaborators}
    input_dir dc train test calls s s' :
  life input_dir dc train test calls s = Some (tt, s') →
  ∃ messages used,
    out s'
    = out s ++ messages ++ [Fopen (input_dir +:+ "/loss.out") "a"] ++ used
      ++ [Fclose (input_dir +:+ "/loss.out")]
    ∧ opened messages = [].
Proof.
  intros E. unfold life in E.
  apply bind_inv in E as ([] & s1 & E1 & E).
  apply bind_inv in E as ([] & s2 & E2 & E).
  apply (preserves_for_each object_kept) in E2
    as (_ & _ & Hl & _ & _ & used & Ho);
    [| intros c _; apply do_call_kept].
  unfold Fitness_delete in E. minv E.
  pose proof (Fitness_new_opens _ _ _ _ _ _ _ E1) as (messages & Hm & Hop & Hf).
  exists messages, used. split; [| exact Hop].
  cbn [out emitted]. rewrite Ho, Hl, Hf, Hm, <- !app_assoc. reflexivity.
Qed.

Lemma life_of_loss_file_witness :
  ∃ s' messages used,
    life (H := Model.collaborators) "." 1 Example.train3 []
      [Compute 1 0 []; ReportError "." 0 F32.zero F32.zero F32.zero]
      Example.fresh = Some (tt, s')
    ∧ out s'
      = out Example.fresh ++ messages ++ [Fopen ("." +:+ "/loss.out") "a"]
        ++ used ++ [Fclose ("." +:+ "/loss.out")]
    ∧ opened messages = [].
Proof.
  eexists.
  refine ((λ E, match life_of_loss_file (H := Model.collaborators)
                        "." 1 Example.train3 []
                        [Compute 1 0 [];
                         ReportError "." 0 F32.zero F32.zero F32.zero]
                        Example.fresh _ E with
                | ex_intro _ m (ex_intro _ u P) =>
                    ex_intro _ m (ex_intro _ u (conj E P))
                end) _).
  vm_compute. reflexivity.
Defined.

(** ** Calls that do not return *)

(** X17.  [Fitness::compute] divides by the device count before it looks at
    the generation: without a device it does not return, at generation 0
    or later. *)
Theorem compute_needs_device `{Collaborators} g pop s :
  compute 0 g pop s = None.
Proof.
  unfold compute. rewrite bind_run. cbn [get_para]. cbv beta iota.
  rewrite bind_run. reflexivity.
Qed.

(** X18.  A checkpoint adds the energy shift to
    [elite[number_of_variables_ann - 1]]: when that index is outside
    [elite], [Fitness::report_error] does not return. *)
Theorem checkpoint_needs_bias `{Collaborators} input_dir g lt l1 l2 s :
  fires g = true →
  number_of_variables_ann (para s) ≤ 0
  ∨ Z.of_nat (length (elite s)) < number_of_variables_ann (para s) →
  report_error input_dir g lt l1 l2 s = None.
Proof.
  intros Hf Hn. apply not_Some_None. intros [[] s'] E.
  apply report_error_inv in E
    as (b & pot & ds & d & old & t & s1 & s2 & _ & _ & _ & _ & Hold & _);
    [| exact Hf].
  pose proof (at_lt _ _ _ Hold). apply at_Some in Hold as [? _]. lia.
Qed.

Lemma checkpoint_needs_bias_witness :
  report_error (H := Model.collaborators) "." 99 F32.zero F32.zero F32.zero
    {| self := self Example.mem_exact; para := para Example.mem_exact;
       fitness := fitness Example.mem_exact; elite := [];
       out := out Example.mem_exact |} = None.
Proof.
  apply (checkpoint_needs_bias (H := Model.collaborators));
    [vm_compute; reflexivity | right; vm_compute; reflexivity].
Defined.
